(** * bbanking: the ledger core of the back-office API

    A shallow embedding of the route handlers that move money and keep the
    general ledger:

    - [routes/transactions.ts]: [POST /internal], [POST /neft], [POST /imps];
    - [routes/accounts.ts]: [POST /] (account opening with an initial deposit);
    - [routes/gl.ts]: [PATCH /:id/post], [PATCH /:id/reverse],
      [POST /batch-post], [GET /reports/trial-balance].

    A handler is a function from the database to the database it leaves
    behind and either the value it answers with or the exception it throws.
    Authentication and authorisation touch none of the tables modelled here
    and are left out.  The audit table is not modelled either; the audit
    write that ends two of the routes, and may be rejected after their own
    writes are done, is added to them further down ([postInternal],
    [postAccount]). *)

From Stdlib Require Import ZArith List Bool Lia Permutation PrimFloat.
From Stdlib Require Import SpecFloat FloatOps.
From stdpp Require Import base strings gmap list.

Local Open Scope string_scope.
Local Open Scope Z_scope.

(** ** Values *)

(** A [Prisma.Decimal] is an exact decimal.  Monetary columns share one
    scale, so a value is represented by its integer number of minor units;
    addition, subtraction and comparison are then those of [Z]. *)
Abbreviation Decimal := Z (only parsing).

(** The value found under a key of [req.body] after [express.json()]. Arrays
    and objects are only ever tested for truthiness or handed to a
    constructor that rejects them, so they share one constructor.  A JSON
    number is written as the decimal it prints as. *)
Inductive JsValue : Type :=
| JsUndefined
| JsNull
| JsBool (b : bool)
| JsNumber (d : Decimal)
| JsString (s : string)
| JsObject.

(** JavaScript truthiness, the test behind [!x]. *)
Definition truthy (v : JsValue) : bool :=
  match v with
  | JsUndefined | JsNull => false
  | JsBool b => b
  | JsNumber d => negb (d =? 0)
  | JsString s => negb (String.eqb s "")
  | JsObject => true
  end.

(** ** Exceptions *)

Inductive Exn : Type :=
| AppError (message : string) (statusCode : Z)
    (* thrown by the handlers themselves *)
| DecimalError
    (* [new Prisma.Decimal(v)] on a value that is not a decimal *)
| PrismaError (code : string).
    (* thrown by the client: record to update not found, key taken *)

(** The error kinds of the design document, as the exceptions the handlers
    throw for them. *)
Definition NotFound (what : string) : Exn := AppError (String.append what " not found") 404.
Definition AccountInactive (what : string) : Exn :=
  AppError (String.append what " account is not active") 400.
Definition InsufficientFunds : Exn := AppError "Insufficient balance" 400.
Definition SameAccount : Exn := AppError "Cannot transfer to the same account" 400.
Definition LimitExceeded : Exn := AppError "IMPS maximum limit is ₹5,00,000" 400.
Definition InvalidState_notPending : Exn := AppError "Entry is not pending" 400.
Definition InvalidState_notPosted : Exn :=
  AppError "Only posted entries can be reversed" 400.
Definition MissingReason : Exn := AppError "Reversal reason is required" 400.

(** ** Rows *)

Inductive AccountStatus := active | dormant | frozen | closed.
Inductive Direction := debit | credit.
Inductive Mode := internal | neft | imps | cash.
Inductive TxStatus := txPending | completed | failed.
Inductive PostingStatus := pending | posted | reversed.

#[global] Instance AccountStatus_eq_dec : EqDecision AccountStatus.
Proof. solve_decision. Defined.
#[global] Instance Direction_eq_dec : EqDecision Direction.
Proof. solve_decision. Defined.
#[global] Instance PostingStatus_eq_dec : EqDecision PostingStatus.
Proof. solve_decision. Defined.

Module Account.
(** The row's [id] is the key it is stored under. *)
Record t := mk {
  accountNumber : string;
  customerId : string;
  type : string;
  branch : string;
  currency : string;
  balance : Decimal;
  availableBalance : Decimal;
  status : AccountStatus;
  closedAt : option Z
}.
End Account.

Module Transaction.
Record t := mk {
  id : N;
  transactionId : N;
  fromAccountId : option string;
  toAccountId : option string;
  type : Direction;
  amount : Decimal;
  mode : Mode;
  status : TxStatus;
  description : option string;
  reference : option N;
  beneficiaryName : option string;
  beneficiaryAccount : option string;
  beneficiaryBank : option string;
  beneficiaryIfsc : option string;
  balanceAfter : Decimal;
  processedAt : option Z
}.
End Transaction.

Module GLEntry.
Record t := mk {
  id : string;
  entryNumber : string;
  accountCode : string;
  accountName : string;
  type : Direction;
  amount : Decimal;
  description : string;
  postingDate : Z;
  branch : string;
  postingStatus : PostingStatus;
  postedBy : option string;
  postedAt : option Z;
  reversedBy : option string;
  reversedAt : option Z;
  reversalReason : option string
}.
End GLEntry.

(** ** The database *)

(** [txSeq] is the generator behind the [id] and [transactionId] columns of
    a new Transaction row: the client returns a fresh value for each. *)
Record Db := mkDb {
  accounts : gmap string Account.t;
  transactions : list Transaction.t;
  glEntries : list GLEntry.t;
  customers : gset string;
  txSeq : N
}.

(** ** Handlers: state and exceptions *)

Inductive Outcome (A : Type) : Type :=
| Returned (a : A)
| Thrown (e : Exn).
Arguments Returned {A} a.
Arguments Thrown {A} e.

Definition Handler (A : Type) : Type := Db -> Db * Outcome A.

Definition ret {A} (a : A) : Handler A := fun db => (db, Returned a).
Definition throw {A} (e : Exn) : Handler A := fun db => (db, Thrown e).
Definition bind {A B} (m : Handler A) (k : A -> Handler B) : Handler B :=
  fun db =>
    match m db with
    | (db', Returned a) => k a db'
    | (db', Thrown e) => (db', Thrown e)
    end.

Notation "x <- m ;; k" := (bind m (fun x => k))
  (at level 62, m at next level, right associativity).

(** [prisma.$transaction(async tx => ...)]: the writes of the body are kept
    when it returns and undone when it throws. *)
Definition transaction {A} (body : Handler A) : Handler A :=
  fun db =>
    match body db with
    | (db', Returned a) => (db', Returned a)
    | (_, Thrown e) => (db, Thrown e)
    end.

(** ** The client operations the handlers call *)

Definition withAccounts (db : Db) (m : gmap string Account.t) : Db :=
  mkDb m (transactions db) (glEntries db) (customers db) (txSeq db).
Definition withGl (db : Db) (l : list GLEntry.t) : Db :=
  mkDb (accounts db) (transactions db) l (customers db) (txSeq db).

(** [account.findUnique({ where: { id } })] *)
Definition findAccount (id : string) : Handler (option Account.t) :=
  fun db => (db, Returned (accounts db !! id)).

Definition addToBalances (a : Account.t) (delta : Decimal) : Account.t :=
  Account.mk (Account.accountNumber a) (Account.customerId a) (Account.type a)
    (Account.branch a) (Account.currency a)
    (Account.balance a + delta) (Account.availableBalance a + delta)
    (Account.status a) (Account.closedAt a).

(** [account.update({ where: { id }, data: { balance: { increment: d },
    availableBalance: { increment: d } } })]; answers the updated row. *)
Definition incrementBalances (id : string) (d : Decimal) : Handler Account.t :=
  fun db =>
    match accounts db !! id with
    | None => (db, Thrown (PrismaError "P2025"))
    | Some a =>
        let a' := addToBalances a d in
        (withAccounts db (<[id := a']> (accounts db)), Returned a')
    end.

(** The same with [decrement]. *)
Definition decrementBalances (id : string) (d : Decimal) : Handler Account.t :=
  incrementBalances id (- d).

(** The columns a handler supplies to [transaction.create]. *)
Record TxData := mkTxData {
  d_fromAccountId : option string;
  d_toAccountId : option string;
  d_type : Direction;
  d_amount : Decimal;
  d_mode : Mode;
  d_status : TxStatus;
  d_description : option string;
  d_reference : option N;
  d_beneficiaryName : option string;
  d_beneficiaryAccount : option string;
  d_beneficiaryBank : option string;
  d_beneficiaryIfsc : option string;
  d_balanceAfter : Decimal;
  d_processedAt : option Z
}.

(** [transaction.create({ data })]: appends the row and answers it. *)
Definition createTransaction (d : TxData) : Handler Transaction.t :=
  fun db =>
    let row :=
      Transaction.mk (txSeq db) (txSeq db)
        (d_fromAccountId d) (d_toAccountId d) (d_type d) (d_amount d)
        (d_mode d) (d_status d) (d_description d) (d_reference d)
        (d_beneficiaryName d) (d_beneficiaryAccount d) (d_beneficiaryBank d)
        (d_beneficiaryIfsc d) (d_balanceAfter d) (d_processedAt d) in
    (mkDb (accounts db) (transactions db ++ [row]) (glEntries db)
       (customers db) (N.succ (txSeq db)),
     Returned row).

(** ** Request bodies

    A string field of a body that is absent and one that is the empty
    string are both falsy and take the same branch of every handler, so such
    a field is a string, empty when absent.  [amount] keeps its JSON value:
    the handlers test it for truthiness and hand it to [Prisma.Decimal]. *)

Module InternalBody.
Record t := mk {
  fromAccountId : string;
  toAccountId : string;
  amount : JsValue;
  description : option string
}.
End InternalBody.

Module RailBody.
(** The body of [POST /neft] and of [POST /imps]; the latter does not
    read [beneficiaryBank]. *)
Record t := mk {
  fromAccountId : string;
  beneficiaryAccount : string;
  beneficiaryName : string;
  beneficiaryBank : option string;
  beneficiaryIfsc : string;
  amount : JsValue;
  description : option string
}.
End RailBody.

Module AccountBody.
(** [initialDeposit] is a JSON number, [None] when the key is absent. *)
Record t := mk {
  customerId : string;
  type : string;
  branch : string;
  currency : option string;
  initialDeposit : option Decimal
}.
End AccountBody.

Definition nonEmpty (s : string) : bool := negb (String.eqb s "").

(** ** routes/transactions.ts *)

Section Transfers.

(** [decimal.js] reading a string: the decimal it denotes, or nothing when
    the constructor throws.  The library is not part of the repository.
    Decimals are finite here: a string naming NaN or an infinity, which the
    constructor accepts, is not modelled. *)
Variable decimalOfString : string -> option Decimal.

(** Minor units in one unit of currency: the literal [500000] of the
    instant rail is [500000 * scale] minor units. *)
Variable scale : Z.

(** The decimal [new Prisma.Decimal(v)] constructs: a number is taken as
    it prints, a string is read, anything else is refused. *)
Definition decimalOf (v : JsValue) : option Decimal :=
  match v with
  | JsNumber d => Some d
  | JsString s => decimalOfString s
  | _ => None
  end.

(** [new Prisma.Decimal(v)] *)
Definition newDecimal (v : JsValue) : Handler Decimal :=
  match decimalOf v with
  | Some d => ret d
  | None => throw DecimalError
  end.

(** [POST /api/transactions/internal], lines 73 to 150: the checks and the
    [$transaction].  The audit write the route awaits after the commit is
    added by [postInternal]. *)
Definition transferInternal (now : Z) (body : InternalBody.t)
  : Handler (Transaction.t * Transaction.t) :=
  let fromAccountId := InternalBody.fromAccountId body in
  let toAccountId := InternalBody.toAccountId body in
  let amount := InternalBody.amount body in
  let description := InternalBody.description body in
  if negb (nonEmpty fromAccountId) || negb (nonEmpty toAccountId)
     || negb (truthy amount)
  then throw (AppError "From account, to account, and amount are required" 400)
  else if String.eqb fromAccountId toAccountId
  then throw SameAccount
  else
    fromAccount <- findAccount fromAccountId ;;
    toAccount <- findAccount toAccountId ;;
    match fromAccount, toAccount with
    | None, _ => throw (NotFound "Source account")
    | Some _, None => throw (NotFound "Destination account")
    | Some fromAccount, Some toAccount =>
        if negb (bool_decide (Account.status fromAccount = active))
        then throw (AccountInactive "Source")
        else if negb (bool_decide (Account.status toAccount = active))
        then throw (AccountInactive "Destination")
        else
          amountDecimal <- newDecimal amount ;;
          if Account.availableBalance fromAccount <? amountDecimal
          then throw InsufficientFunds
          else
            transaction (
              updatedFrom <- decrementBalances fromAccountId amountDecimal ;;
              updatedTo <- incrementBalances toAccountId amountDecimal ;;
              debitTx <- createTransaction
                (mkTxData (Some fromAccountId) (Some toAccountId) debit
                   amountDecimal internal completed description None
                   None None None None
                   (Account.balance updatedFrom) (Some now)) ;;
              creditTx <- createTransaction
                (mkTxData (Some fromAccountId) (Some toAccountId) credit
                   amountDecimal internal completed description
                   (Some (Transaction.transactionId debitTx))
                   None None None None
                   (Account.balance updatedTo) (Some now)) ;;
              ret (debitTx, creditTx))
    end.

(** [POST /api/transactions/neft] *)
Definition transferNeft (body : RailBody.t) : Handler Transaction.t :=
  let fromAccountId := RailBody.fromAccountId body in
  let amount := RailBody.amount body in
  if negb (nonEmpty fromAccountId)
     || negb (nonEmpty (RailBody.beneficiaryAccount body))
     || negb (nonEmpty (RailBody.beneficiaryName body))
     || negb (nonEmpty (RailBody.beneficiaryIfsc body))
     || negb (truthy amount)
  then throw (AppError "Missing required fields for NEFT transfer" 400)
  else
    fromAccount <- findAccount fromAccountId ;;
    match fromAccount with
    | None => throw (NotFound "Source account")
    | Some fromAccount =>
        if negb (bool_decide (Account.status fromAccount = active))
        then throw (AccountInactive "Source")
        else
          amountDecimal <- newDecimal amount ;;
          if Account.availableBalance fromAccount <? amountDecimal
          then throw InsufficientFunds
          else
            transaction (
              updatedFrom <- decrementBalances fromAccountId amountDecimal ;;
              createTransaction
                (mkTxData (Some fromAccountId) None debit amountDecimal
                   neft txPending (RailBody.description body) None
                   (Some (RailBody.beneficiaryName body))
                   (Some (RailBody.beneficiaryAccount body))
                   (RailBody.beneficiaryBank body)
                   (Some (RailBody.beneficiaryIfsc body))
                   (Account.balance updatedFrom) None))
    end.

(** [POST /api/transactions/imps] *)
Definition transferImps (now : Z) (body : RailBody.t) : Handler Transaction.t :=
  let fromAccountId := RailBody.fromAccountId body in
  let amount := RailBody.amount body in
  if negb (nonEmpty fromAccountId)
     || negb (nonEmpty (RailBody.beneficiaryAccount body))
     || negb (nonEmpty (RailBody.beneficiaryName body))
     || negb (nonEmpty (RailBody.beneficiaryIfsc body))
     || negb (truthy amount)
  then throw (AppError "Missing required fields for IMPS transfer" 400)
  else
    amountDecimal <- newDecimal amount ;;
    if 500000 * scale <? amountDecimal
    then throw LimitExceeded
    else
      fromAccount <- findAccount fromAccountId ;;
      match fromAccount with
      | None => throw (NotFound "Source account")
      | Some fromAccount =>
          if negb (bool_decide (Account.status fromAccount = active))
          then throw (AccountInactive "Source")
          else if Account.availableBalance fromAccount <? amountDecimal
          then throw InsufficientFunds
          else
            transaction (
              updatedFrom <- decrementBalances fromAccountId amountDecimal ;;
              createTransaction
                (mkTxData (Some fromAccountId) None debit amountDecimal
                   imps completed (RailBody.description body) None
                   (Some (RailBody.beneficiaryName body))
                   (Some (RailBody.beneficiaryAccount body))
                   None
                   (Some (RailBody.beneficiaryIfsc body))
                   (Account.balance updatedFrom) (Some now)))
      end.

End Transfers.

(** ** routes/accounts.ts *)

(** Some account of the table has the number [n].  [accountNumber] is a
    unique column: prisma/seed.ts upserts accounts by it. *)
Definition numberTaken (n : string) (m : gmap string Account.t) : Prop :=
  map_Exists (fun _ a => Account.accountNumber a = n) m.

(** [account.create({ data })]: the row is stored under the identifier the
    client generates for it, [newId]; an identifier or an account number
    already taken is refused.  A new row has the column default for
    [status] and no [closedAt]. *)
Definition createAccount (newId : string) (a : Account.t) : Handler Account.t :=
  fun db =>
    match accounts db !! newId with
    | Some _ => (db, Thrown (PrismaError "P2002"))
    | None =>
        if decide (numberTaken (Account.accountNumber a) (accounts db))
        then (db, Thrown (PrismaError "P2002"))
        else (withAccounts db (<[newId := a]> (accounts db)), Returned a)
    end.

Definition findCustomer (id : string) : Handler bool :=
  fun db => (db, Returned (bool_decide (id ∈ customers db))).

(** [POST /api/accounts], lines 94 to 153: the checks and the route's own
    two writes, each taken by the database once [account.create] has
    accepted the row; [newId] and [accountNumber] are the values the client
    and [generateAccountNumber()] produce for this call.  The optional
    columns the handler copies from the body (interest rate, tenure,
    maturity, nomination) are not modelled.  The audit write that follows,
    and a deposit row the database refuses, are added by [postAccount]. *)
Definition openAccount (newId accountNumber : string) (now : Z)
    (body : AccountBody.t) : Handler Account.t :=
  let customerId := AccountBody.customerId body in
  let type := AccountBody.type body in
  let branch := AccountBody.branch body in
  let currency := default "INR" (AccountBody.currency body) in
  let initialDeposit := default 0 (AccountBody.initialDeposit body) in
  if negb (nonEmpty customerId) || negb (nonEmpty type) || negb (nonEmpty branch)
  then throw (AppError "Customer ID, type, and branch are required" 400)
  else
    customer <- findCustomer customerId ;;
    if negb customer
    then throw (NotFound "Customer")
    else
      account <- createAccount newId
        (Account.mk accountNumber customerId type branch currency
           initialDeposit initialDeposit active None) ;;
      if 0 <? initialDeposit
      then
        _ <- createTransaction
          (mkTxData None (Some newId) credit initialDeposit cash completed
             (Some "Initial deposit") None None None None None
             initialDeposit (Some now)) ;;
        ret account
      else ret account.

(** ** routes/gl.ts: the entry lifecycle *)

(** The row of the table with a given [id]. *)
Definition lookupEntry (id : string) (l : list GLEntry.t) : option GLEntry.t :=
  find (fun e => String.eqb (GLEntry.id e) id) l.

(** [gLEntry.findUnique({ where: { id } })] *)
Definition findEntry (id : string) : Handler (option GLEntry.t) :=
  fun db => (db, Returned (lookupEntry id (glEntries db))).

(** The table with its first row of identifier [id] changed by [f].  [id]
    is the primary key: that row is the one [lookupEntry] finds. *)
Fixpoint replaceEntry (id : string) (f : GLEntry.t -> GLEntry.t)
    (l : list GLEntry.t) : list GLEntry.t :=
  match l with
  | [] => []
  | x :: l' =>
      if String.eqb (GLEntry.id x) id then f x :: l'
      else x :: replaceEntry id f l'
  end.

(** [gLEntry.update({ where: { id }, data })], [data] given as the change
    [f] it makes to the row; answers the updated row. *)
Definition updateEntry (id : string) (f : GLEntry.t -> GLEntry.t)
    : Handler GLEntry.t :=
  fun db =>
    match lookupEntry id (glEntries db) with
    | None => (db, Thrown (PrismaError "P2025"))
    | Some e => (withGl db (replaceEntry id f (glEntries db)), Returned (f e))
    end.

(** [{ postingStatus: 'posted', postedBy: req.user.id, postedAt: new Date() }] *)
Definition markPosted (actor : string) (now : Z) (e : GLEntry.t) : GLEntry.t :=
  GLEntry.mk (GLEntry.id e) (GLEntry.entryNumber e) (GLEntry.accountCode e)
    (GLEntry.accountName e) (GLEntry.type e) (GLEntry.amount e)
    (GLEntry.description e) (GLEntry.postingDate e) (GLEntry.branch e)
    posted (Some actor) (Some now)
    (GLEntry.reversedBy e) (GLEntry.reversedAt e) (GLEntry.reversalReason e).

(** [{ postingStatus: 'reversed', reversedBy: req.user.id,
      reversedAt: new Date(), reversalReason: reason }] *)
Definition markReversed (actor : string) (now : Z) (reason : string)
    (e : GLEntry.t) : GLEntry.t :=
  GLEntry.mk (GLEntry.id e) (GLEntry.entryNumber e) (GLEntry.accountCode e)
    (GLEntry.accountName e) (GLEntry.type e) (GLEntry.amount e)
    (GLEntry.description e) (GLEntry.postingDate e) (GLEntry.branch e)
    reversed (GLEntry.postedBy e) (GLEntry.postedAt e)
    (Some actor) (Some now) (Some reason).

(** [PATCH /api/gl/:id/post] *)
Definition postGLEntry (id actor : string) (now : Z) : Handler GLEntry.t :=
  entry <- findEntry id ;;
  match entry with
  | None => throw (NotFound "GL Entry")
  | Some entry =>
      if negb (bool_decide (GLEntry.postingStatus entry = pending))
      then throw InvalidState_notPending
      else updateEntry id (markPosted actor now)
  end.

(** [PATCH /api/gl/:id/reverse]; [reason] is the body's field, empty when
    absent. *)
Definition reverseGLEntry (id actor : string) (now : Z) (reason : string)
    : Handler GLEntry.t :=
  if negb (nonEmpty reason)
  then throw MissingReason
  else
    entry <- findEntry id ;;
    match entry with
    | None => throw (NotFound "GL Entry")
    | Some entry =>
        if negb (bool_decide (GLEntry.postingStatus entry = posted))
        then throw InvalidState_notPosted
        else updateEntry id (markReversed actor now reason)
    end.

(** The [where] of the batch: [{ id: { in: entryIds }, postingStatus: 'pending' }] *)
Definition batchSelects (entryIds : list string) (e : GLEntry.t) : bool :=
  bool_decide (GLEntry.id e ∈ entryIds)
  && bool_decide (GLEntry.postingStatus e = pending).

(** [gLEntry.updateMany({ where, data })]: changes the rows the [where]
    selects and answers how many they were. *)
Definition updateManyEntries (sel : GLEntry.t -> bool)
    (f : GLEntry.t -> GLEntry.t) : Handler nat :=
  fun db =>
    (withGl db (map (fun e => if sel e then f e else e) (glEntries db)),
     Returned (length (filter (fun e => sel e = true) (glEntries db)))).

(** [POST /api/gl/batch-post]; [entryIds] is [None] when the body's field is
    absent or not an array.  Answers [count]. *)
Definition batchPostGLEntries (entryIds : option (list string))
    (actor : string) (now : Z) : Handler nat :=
  match entryIds with
  | None => throw (AppError "Entry IDs array is required" 400)
  | Some entryIds =>
      updateManyEntries (batchSelects entryIds) (markPosted actor now)
  end.

(** ** routes/gl.ts: the trial balance *)

(** The report adds up JavaScript numbers, not decimals.  The handler is
    written against the operations it uses on them, so that what is proved
    of it holds for IEEE doubles as for exact arithmetic. *)
Class JsArith := {
  Number : Type;
  nzero : Number;                      (* the literal [0] *)
  nadd : Number -> Number -> Number;   (* [+] *)
  strictEq : Number -> Number -> bool; (* [===] *)
  falsy : Number -> bool;              (* [!x] *)
  toNumber : Decimal -> Number         (* [Decimal.prototype.toNumber] *)
}.

(** Exact arithmetic: a number is the decimal itself. *)
Definition exactNumber : JsArith :=
  {| Number := Z; nzero := 0; nadd := Z.add; strictEq := Z.eqb;
     falsy := fun x => x =? 0; toNumber := fun d => d |}.

(** IEEE doubles, the numbers of JavaScript.  [toNumber] reads the decimal
    as a number literal: a decimal of [d] minor units at [scale] minor units
    to the unit becomes the double nearest to the quotient [d / scale], ties
    to even, rounded once from the exact quotient whatever the size of [d]
    (infinite beyond the largest double). *)
Definition wholeNumber (z : Z) : spec_float :=
  match z with
  | Z0 => S754_zero false
  | Zpos p => S754_finite false p 0
  | Zneg p => S754_finite true p 0
  end.

Definition doubleOfRatio (d scale : Z) : float :=
  SF2Prim (SFdiv prec emax (wholeNumber d) (wholeNumber scale)).

Definition doubleNumber (scale : Z) : JsArith :=
  {| Number := float; nzero := 0%float; nadd := PrimFloat.add;
     strictEq := PrimFloat.eqb;
     falsy := fun x => PrimFloat.eqb x 0 || negb (PrimFloat.eqb x x);
     toNumber := fun d => doubleOfRatio d scale |}.

(** One row of [gLEntry.groupBy({ by: ['accountCode', 'accountName',
    'type'], where, _sum: { amount: true } })]. *)
Record Group := mkGroup {
  g_accountCode : string;
  g_accountName : string;
  g_type : Direction;
  g_sum : Decimal
}.

Definition GroupKey : Type := string * string * Direction.

Definition keyOf (e : GLEntry.t) : GroupKey :=
  (GLEntry.accountCode e, GLEntry.accountName e, GLEntry.type e).

Definition sumAmounts (l : list GLEntry.t) : Decimal :=
  fold_right Z.add 0 (map GLEntry.amount l).

(** The rows with one value of the grouping columns make one group, whose
    sum is exact: the groups of a table, one for each value. *)
Definition groupBy (rows : list GLEntry.t) : list Group :=
  map (fun k : GroupKey =>
         mkGroup k.1.1 k.1.2 k.2
           (sumAmounts (filter (fun e => keyOf e = k) rows)))
      (remove_dups (map keyOf rows)).

(** The call has no [orderBy]: the database answers the groups in an order
    of its choosing, which the handler has to take as it comes. *)
Class GroupOrder := {
  answered : list Group -> list Group;
  answered_perm : forall gs, answered gs ≡ₚ gs
}.

(** Two orders a database may choose. *)
Definition asGrouped : GroupOrder :=
  {| answered := fun gs => gs; answered_perm := fun gs => reflexivity gs |}.
Definition backwards : GroupOrder :=
  {| answered := reverse; answered_perm := reverse_Permutation |}.

(** The [where] of the report:
    [{ postingStatus: 'posted', postingDate: { lte: asOf } }] *)
Definition reportSelects (asOf : Z) (e : GLEntry.t) : bool :=
  bool_decide (GLEntry.postingStatus e = posted)
  && (GLEntry.postingDate e <=? asOf).

Definition groupEntries {order : GroupOrder} (asOf : Z)
    : Handler (list Group) :=
  fun db =>
    (db,
     Returned
       (answered (groupBy (filter (fun e => reportSelects asOf e = true)
                             (glEntries db))))).

(** A JavaScript [Map] with string keys: the entries in insertion order.
    [set] on a key already present replaces its value in place. *)
Section JsMap.
Context {V : Type}.

Fixpoint mapGet (k : string) (m : list (string * V)) : option V :=
  match m with
  | [] => None
  | (k', v) :: m' => if String.eqb k' k then Some v else mapGet k m'
  end.

Definition mapHas (k : string) (m : list (string * V)) : bool :=
  match mapGet k m with Some _ => true | None => false end.

Fixpoint mapSet (k : string) (v : V) (m : list (string * V))
    : list (string * V) :=
  match m with
  | [] => [(k, v)]
  | (k', v') :: m' =>
      if String.eqb k' k then (k, v) :: m' else (k', v') :: mapSet k v m'
  end.

Definition mapValues (m : list (string * V)) : list V := map snd m.
End JsMap.

Section TrialBalance.
Context {num : JsArith} {order : GroupOrder}.

Record TBRow := mkTBRow {
  accountCode : string;
  accountName : string;
  tb_debit : Number;
  tb_credit : Number
}.

Record TBTotals := mkTBTotals {
  total_debit : Number;
  total_credit : Number;
  balanced : bool
}.

Record TBReport := mkTBReport {
  tb_accounts : list TBRow;
  tb_totals : TBTotals
}.

(** [x || 0] *)
Definition orZero (x : Number) : Number := if falsy x then nzero else x.

(** The body of the loop over the groups. *)
Definition addGroup (accountMap : list (string * TBRow)) (entry : Group)
    : list (string * TBRow) :=
  let key := g_accountCode entry in
  let accountMap :=
    if negb (mapHas key accountMap)
    then mapSet key
           (mkTBRow (g_accountCode entry) (g_accountName entry) nzero nzero)
           accountMap
    else accountMap in
  match mapGet key accountMap with
  | None => accountMap
  | Some account =>
      if bool_decide (g_type entry = debit)
      then mapSet key
             (mkTBRow (accountCode account) (accountName account)
                (nadd (tb_debit account) (orZero (toNumber (g_sum entry))))
                (tb_credit account))
             accountMap
      else mapSet key
             (mkTBRow (accountCode account) (accountName account)
                (tb_debit account)
                (nadd (tb_credit account) (orZero (toNumber (g_sum entry)))))
             accountMap
  end.

(** Lines 164 to 188: from the groups to the report. *)
Definition reportOf (entries : list Group) : TBReport :=
  let accountMap := fold_left addGroup entries [] in
  let trialBalance := mapValues accountMap in
  let totalDebits := fold_left (fun sum a => nadd sum (tb_debit a)) trialBalance nzero in
  let totalCredits := fold_left (fun sum a => nadd sum (tb_credit a)) trialBalance nzero in
  mkTBReport trialBalance
    (mkTBTotals totalDebits totalCredits (strictEq totalDebits totalCredits)).

(** [GET /api/gl/reports/trial-balance]; [asOfDate] is the query's date,
    [None] when absent, and [now] the clock. *)
Definition trialBalance (now : Z) (asOfDate : option Z) : Handler TBReport :=
  entries <- groupEntries (default now asOfDate) ;;
  ret (reportOf entries).

End TrialBalance.

(** ** What the report is expected to hold *)

(** The entries the report is about. *)
Definition postedAsOf (asOf : Z) (db : Db) : list GLEntry.t :=
  filter (fun e => GLEntry.postingStatus e = posted
                   /\ GLEntry.postingDate e <= asOf) (glEntries db).

(** The exact sum of the amounts of the entries of a direction. *)
Definition sumOfAll (dir : Direction) (l : list GLEntry.t) : Decimal :=
  sumAmounts (filter (fun e => GLEntry.type e = dir) l).

(** The figure of an account code on one side of the report: the sums of
    its groups of that direction, added as numbers in the order of the
    groups. *)
Definition sideOf {num : JsArith} (code : string) (dir : Direction)
    (groups : list Group) : Number :=
  fold_left (fun acc g => nadd acc (orZero (toNumber (g_sum g))))
    (filter (fun g => g_accountCode g = code /\ g_type g = dir) groups)
    nzero.

(** ** The account invariant *)

Definition accountInvariant (a : Account.t) : Prop :=
  Account.availableBalance a <= Account.balance a
  /\ 0 <= Account.balance a
  /\ 0 <= Account.availableBalance a.

Definition dbInvariant (db : Db) : Prop :=
  forall id a, accounts db !! id = Some a -> accountInvariant a.

(** ** The life of a ledger entry *)

Definition entryStatus (id : string) (db : Db) : option PostingStatus :=
  GLEntry.postingStatus <$> lookupEntry id (glEntries db).

(** What may happen to the posting status of a row in one operation:
    nothing, or one step along pending, posted, reversed. *)
Inductive statusStep : PostingStatus -> PostingStatus -> Prop :=
| step_none s : statusStep s s
| step_post : statusStep pending posted
| step_reverse : statusStep posted reversed.

(** A row after an operation: the same entry, its status moved forward at
    most one step. *)
Definition entryEvolves (e e' : GLEntry.t) : Prop :=
  GLEntry.id e' = GLEntry.id e
  /\ GLEntry.accountCode e' = GLEntry.accountCode e
  /\ GLEntry.type e' = GLEntry.type e
  /\ GLEntry.amount e' = GLEntry.amount e
  /\ GLEntry.postingDate e' = GLEntry.postingDate e
  /\ statusStep (GLEntry.postingStatus e) (GLEntry.postingStatus e').

(** No row is removed or added and every row evolves. *)
Definition ledgerEvolves (db db' : Db) : Prop :=
  Forall2 entryEvolves (glEntries db) (glEntries db').

(** The listed identifier names a row that is pending. *)
Definition pendingIn (db : Db) (id : string) : Prop :=
  entryStatus id db = Some pending.

#[global] Instance pendingIn_dec db id : Decision (pendingIn db id).
Proof. unfold pendingIn. apply _. Defined.

(** ** Sample data, after prisma/seed.ts *)

Module Sample.

(** A reader of unsigned whole amounts, for running the handlers: the
    digits of [s] as units of currency, nothing for any other string. *)
Fixpoint digits (s : string) (acc : Z) : option Z :=
  match s with
  | EmptyString => Some acc
  | String c s' =>
      let n := Z.of_N (Ascii.N_of_ascii c) in
      if (48 <=? n) && (n <=? 57) then digits s' (10 * acc + (n - 48))
      else None
  end.

Definition scale : Z := 100.

Definition wholeUnits (s : string) : option Decimal :=
  match s with
  | EmptyString => None
  | _ => option_map (fun n => n * scale) (digits s 0)
  end.

Definition account (number customer : string) (balance : Decimal)
    (status : AccountStatus) : Account.t :=
  Account.mk number customer "savings" "MAIN_BRANCH" "INR" balance balance status
    None.

(** Two active accounts, one holding 150000.00 and one holding nothing,
    and a frozen one. *)
Definition db : Db :=
  mkDb (<["acc1" := account "100100001001" "cust1" 15000000 active]>
          (<["acc2" := account "100100001002" "cust2" 0 active]>
             (<["acc3" := account "100100001003" "cust2" 500000 frozen]> ∅)))
       [] [] {["cust1"; "cust2"]} 0.

Definition internalBody (amount : JsValue) : InternalBody.t :=
  InternalBody.mk "acc1" "acc2" amount (Some "rent").

Definition railBody (amount : JsValue) : RailBody.t :=
  RailBody.mk "acc1" "9876543210" "John Doe" (Some "Other Bank") "OTHR0000001"
    amount None.

Definition entry (id code name : string) (type : Direction) (amount : Decimal)
    (date : Z) (status : PostingStatus) : GLEntry.t :=
  GLEntry.mk id (String.append "GL" id) code name type amount "" date
    "MAIN_BRANCH" status None None None None None.

(** The two posted opening entries of the seed, a pending one and a
    posted one dated later. *)
Definition ledger : list GLEntry.t :=
  [ entry "e1" "1001" "Cash in Hand" debit 10000000 10 posted;
    entry "e2" "2001" "Customer Deposits" credit 10000000 10 posted;
    entry "e3" "1001" "Cash in Hand" debit 2500 10 pending;
    entry "e4" "1001" "Cash in Hand" debit 700 99 posted ].

Definition glDb : Db := mkDb ∅ [] ledger ∅ 0.

(** Posted debits of 0.10 and 0.20 against a posted credit of 0.30. *)
Definition cents : list GLEntry.t :=
  [ entry "c1" "1001" "Cash in Hand" debit 10 10 posted;
    entry "c2" "1002" "Cash at Bank" debit 20 10 posted;
    entry "c3" "2001" "Customer Deposits" credit 30 10 posted ].

Definition centsDb : Db := mkDb ∅ [] cents ∅ 0.

End Sample.

(** * More of the routes *)

From Stdlib Require Import Sorted.

#[global] Instance TxStatus_eq_dec : EqDecision TxStatus.
Proof. solve_decision. Defined.
#[global] Instance Mode_eq_dec : EqDecision Mode.
Proof. solve_decision. Defined.

(** ** routes/accounts.ts: the status of an account *)

(** [['active', 'dormant', 'frozen', 'closed'].includes(status)], and the
    status the string names. *)
Definition statusOfString (s : string) : option AccountStatus :=
  if String.eqb s "active" then Some active
  else if String.eqb s "dormant" then Some dormant
  else if String.eqb s "frozen" then Some frozen
  else if String.eqb s "closed" then Some closed
  else None.

(** The row after
    [{ status, ...(status === 'closed' && { closedAt: new Date() }) }]:
    closing stamps [closedAt], any other status leaves it as it is. *)
Definition withStatus (a : Account.t) (s : AccountStatus) (now : Z)
    : Account.t :=
  Account.mk (Account.accountNumber a) (Account.customerId a) (Account.type a)
    (Account.branch a) (Account.currency a)
    (Account.balance a) (Account.availableBalance a) s
    (if decide (s = closed) then Some now else Account.closedAt a).

(** [account.update({ where: { id }, data })] with that data. *)
Definition updateAccountStatus (id : string) (s : AccountStatus) (now : Z)
    : Handler Account.t :=
  fun db =>
    match accounts db !! id with
    | None => (db, Thrown (PrismaError "P2025"))
    | Some a =>
        (withAccounts db (<[id := withStatus a s now]> (accounts db)),
         Returned (withStatus a s now))
    end.

(** [PATCH /api/accounts/:id/status]; [status] is the body's field, empty
    when absent, and [now] the clock. *)
Definition setAccountStatus (id status : string) (now : Z)
    : Handler Account.t :=
  match statusOfString status with
  | None => throw (AppError "Invalid status" 400)
  | Some s => updateAccountStatus id s now
  end.

(** No two accounts have the same number. *)
Definition numbersUnique (db : Db) : Prop :=
  forall i j a b,
    accounts db !! i = Some a -> accounts db !! j = Some b ->
    Account.accountNumber a = Account.accountNumber b -> i = j.

(** ** The audit write

    [auditLog.create({ data })], awaited at the end of [POST /internal] and
    of [POST /api/accounts], after their own writes and outside any
    [$transaction].  The audit table is not among the tables of [Db]; what
    is kept of the write is whether the database takes it: [rejected] is
    the exception the client throws when it does not. *)
Definition auditLogCreate (rejected : option Exn) : Handler unit :=
  match rejected with
  | None => ret tt
  | Some e => throw e
  end.

(** A write the database may refuse. *)
Definition unlessRejected {A} (rejected : option Exn) (write : Handler A)
    : Handler A :=
  match rejected with
  | None => write
  | Some e => throw e
  end.

(** [POST /api/transactions/internal], whole: the checks and the
    [$transaction] of [transferInternal] (lines 73 to 150), then the audit
    write (lines 152 to 162), then the answer. *)
Definition postInternal (decimalOfString : string -> option Decimal) (now : Z)
    (body : InternalBody.t) (auditRejected : option Exn)
    : Handler (Transaction.t * Transaction.t) :=
  result <- transferInternal decimalOfString now body ;;
  _ <- auditLogCreate auditRejected ;;
  ret result.

(** [POST /api/accounts], whole: [account.create], [transaction.create] for
    a deposit above zero and [auditLog.create] are three writes in a row
    with no [$transaction] around them.  [depositRejected] and
    [auditRejected] say whether the database refuses the second and the
    third.  With neither refused this is [openAccount]. *)
Definition postAccount (newId accountNumber : string) (now : Z)
    (body : AccountBody.t) (depositRejected auditRejected : option Exn)
    : Handler Account.t :=
  let customerId := AccountBody.customerId body in
  let type := AccountBody.type body in
  let branch := AccountBody.branch body in
  let currency := default "INR" (AccountBody.currency body) in
  let initialDeposit := default 0 (AccountBody.initialDeposit body) in
  if negb (nonEmpty customerId) || negb (nonEmpty type) || negb (nonEmpty branch)
  then throw (AppError "Customer ID, type, and branch are required" 400)
  else
    customer <- findCustomer customerId ;;
    if negb customer
    then throw (NotFound "Customer")
    else
      account <- createAccount newId
        (Account.mk accountNumber customerId type branch currency
           initialDeposit initialDeposit active None) ;;
      _ <- (if 0 <? initialDeposit
            then
              _ <- unlessRejected depositRejected
                (createTransaction
                   (mkTxData None (Some newId) credit initialDeposit cash
                      completed (Some "Initial deposit") None None None None
                      None initialDeposit (Some now))) ;;
              ret tt
            else ret tt) ;;
      _ <- auditLogCreate auditRejected ;;
      ret account.

(** ** routes/accounts.ts: the statement of an account *)

Section Statement.

(** The [createdAt] column of a Transaction row, which the row record does
    not carry, as a function of the row. *)
Variable createdAt : Transaction.t -> Z.

(** The [where] of the statement:
    [{ OR: [{ fromAccountId: id }, { toAccountId: id }], status: 'completed' }],
    with [createdAt: { gte: startDate, lte: endDate }] when both dates are
    given.  A date of the query is the instant it names; it is [None] when
    the query has none (or an empty one, which is falsy as well). *)
Definition statementSelects (id : string) (startDate endDate : option Z)
    (t : Transaction.t) : bool :=
  (bool_decide (Transaction.fromAccountId t = Some id)
   || bool_decide (Transaction.toAccountId t = Some id))
  && bool_decide (Transaction.status t = completed)
  && match startDate, endDate with
     | Some s, Some e => (s <=? createdAt t) && (createdAt t <=? e)
     | _, _ => true
     end.

(** [orderBy: { createdAt: 'asc' }]; rows created at the same instant keep
    the order of the table. *)
Fixpoint insertByCreatedAt (t : Transaction.t) (l : list Transaction.t)
    : list Transaction.t :=
  match l with
  | [] => [t]
  | x :: l' =>
      if createdAt x <? createdAt t then x :: insertByCreatedAt t l'
      else t :: l
  end.

Definition orderByCreatedAt (l : list Transaction.t) : list Transaction.t :=
  fold_right insertByCreatedAt [] l.

(** [transaction.findMany({ where, orderBy: { createdAt: 'asc' } })] *)
Definition findStatementRows (id : string) (startDate endDate : option Z)
    : Handler (list Transaction.t) :=
  fun db =>
    (db,
     Returned
       (orderByCreatedAt
          (filter (fun t => statementSelects id startDate endDate t = true)
             (transactions db)))).

(** [GET /api/accounts/:id/statement]: the account and its rows. *)
Definition statement (id : string) (startDate endDate : option Z)
    : Handler (Account.t * list Transaction.t) :=
  account <- findAccount id ;;
  match account with
  | None => throw (NotFound "Account")
  | Some account =>
      transactions <- findStatementRows id startDate endDate ;;
      ret (account, transactions)
  end.

End Statement.

(** ** The funds of the bank *)

(** The sum of a figure over all the accounts. *)
Definition sumAccounts (f : Account.t -> Z) (db : Db) : Z :=
  map_fold (fun _ a acc => f a + acc) 0 (accounts db).

(** What a transfer may not touch in an account: everything but the two
    balances, and the difference between them, the amount on hold. *)
Definition sameButBalances (a a' : Account.t) : Prop :=
  Account.accountNumber a' = Account.accountNumber a
  /\ Account.customerId a' = Account.customerId a
  /\ Account.type a' = Account.type a
  /\ Account.branch a' = Account.branch a
  /\ Account.currency a' = Account.currency a
  /\ Account.status a' = Account.status a
  /\ Account.closedAt a' = Account.closedAt a
  /\ Account.balance a' - Account.availableBalance a'
     = Account.balance a - Account.availableBalance a.

(** ** Sequences of operations *)

(** The database a handler leaves behind. *)
Definition after {A} (h : Handler A) (db : Db) : Db := (h db).1.

(** One operation on the ledger entries. *)
Inductive GlOp : Type :=
| OpPost (id actor : string) (now : Z)
| OpReverse (id actor : string) (now : Z) (reason : string)
| OpBatchPost (entryIds : option (list string)) (actor : string) (now : Z).

Definition runGlOp (db : Db) (op : GlOp) : Db :=
  match op with
  | OpPost id actor now => after (postGLEntry id actor now) db
  | OpReverse id actor now reason => after (reverseGLEntry id actor now reason) db
  | OpBatchPost entryIds actor now =>
      after (batchPostGLEntries entryIds actor now) db
  end.

Definition runGlOps (ops : list GlOp) (db : Db) : Db :=
  fold_left runGlOp ops db.

(** The rank of a status along pending, posted, reversed. *)
Definition statusRank (s : PostingStatus) : nat :=
  match s with pending => 0 | posted => 1 | reversed => 2 end.

(** ** Post requests, one at a time *)

(** Two rows that differ at most in who posted them and when. *)
Definition samePosting (e e' : GLEntry.t) : Prop :=
  GLEntry.id e' = GLEntry.id e
  /\ GLEntry.entryNumber e' = GLEntry.entryNumber e
  /\ GLEntry.accountCode e' = GLEntry.accountCode e
  /\ GLEntry.accountName e' = GLEntry.accountName e
  /\ GLEntry.type e' = GLEntry.type e
  /\ GLEntry.amount e' = GLEntry.amount e
  /\ GLEntry.description e' = GLEntry.description e
  /\ GLEntry.postingDate e' = GLEntry.postingDate e
  /\ GLEntry.branch e' = GLEntry.branch e
  /\ GLEntry.postingStatus e' = GLEntry.postingStatus e
  /\ GLEntry.reversedBy e' = GLEntry.reversedBy e
  /\ GLEntry.reversedAt e' = GLEntry.reversedAt e
  /\ GLEntry.reversalReason e' = GLEntry.reversalReason e.

(** One request to [PATCH /api/gl/:id/post]: the entry, the user and the
    clock of the request. *)
Record PostRequest := mkPostRequest {
  p_id : string;
  p_actor : string;
  p_now : Z
}.

(** The requests served one after another, whatever each answers. *)
Definition runPosts (requests : list PostRequest) (db : Db) : Db :=
  fold_left (fun d r => after (postGLEntry (p_id r) (p_actor r) (p_now r)) d)
    requests db.

(** * Properties *)

(** ** Running the client operations *)

Lemma run_bind {A B} (m : Handler A) (k : A -> Handler B) db db' a :
  m db = (db', Returned a) -> bind m k db = k a db'.
Proof. intros H. unfold bind. now rewrite H. Qed.

Lemma nonEmpty_true s : nonEmpty s = true <-> s <> "".
Proof.
  unfold nonEmpty. rewrite negb_true_iff.
  destruct (String.eqb_spec s ""); split; congruence.
Qed.

Lemma incrementBalances_found id d db a :
  accounts db !! id = Some a ->
  incrementBalances id d db =
    (withAccounts db (<[id := addToBalances a d]> (accounts db)),
     Returned (addToBalances a d)).
Proof. intros H. unfold incrementBalances. now rewrite H. Qed.

Section TransferFacts.
Variable decimalOfString : string -> option Decimal.
Variable scale : Z.

Lemma newDecimal_some v d db :
  decimalOf decimalOfString v = Some d ->
  newDecimal decimalOfString v db = (db, Returned d).
Proof. intros H. unfold newDecimal. now rewrite H. Qed.

Lemma transferInternal_commits now body db A B m :
  let from := InternalBody.fromAccountId body in
  let to := InternalBody.toAccountId body in
  from <> "" -> to <> "" -> from <> to ->
  truthy (InternalBody.amount body) = true ->
  decimalOf decimalOfString (InternalBody.amount body) = Some m ->
  accounts db !! from = Some A ->
  accounts db !! to = Some B ->
  Account.status A = active ->
  Account.status B = active ->
  m <= Account.availableBalance A ->
  transferInternal decimalOfString now body db =
    (let debitTx :=
       Transaction.mk (txSeq db) (txSeq db) (Some from) (Some to) debit m
         internal completed (InternalBody.description body) None
         None None None None (Account.balance A - m) (Some now) in
     let creditTx :=
       Transaction.mk (N.succ (txSeq db)) (N.succ (txSeq db))
         (Some from) (Some to) credit m
         internal completed (InternalBody.description body)
         (Some (txSeq db))
         None None None None (Account.balance B + m) (Some now) in
     (mkDb (<[to := addToBalances B m]>
              (<[from := addToBalances A (- m)]> (accounts db)))
           (transactions db ++ [debitTx; creditTx])
           (glEntries db) (customers db) (N.succ (N.succ (txSeq db))),
      Returned (debitTx, creditTx))).
Proof.
  intros from to Hf Ht Hne Htr Hdec HA HB HsA HsB Hle.
  unfold transferInternal. fold from to.
  apply nonEmpty_true in Hf, Ht. rewrite Hf, Ht, Htr. simpl.
  destruct (String.eqb_spec from to) as [|_]; [congruence|].
  unfold bind at 1. unfold findAccount at 1. unfold bind at 1, findAccount at 1.
  rewrite HA, HB.
  rewrite !bool_decide_eq_true_2 by assumption. simpl.
  rewrite (run_bind _ _ _ _ _ (newDecimal_some _ _ _ Hdec)).
  destruct (Z.ltb_spec (Account.availableBalance A) m) as [|_]; [lia|].
  unfold transaction, decrementBalances.
  rewrite (run_bind _ _ _ _ _ (incrementBalances_found _ _ _ _ HA)).
  assert (HB' : accounts (withAccounts db
             (<[from := addToBalances A (- m)]> (accounts db))) !! to = Some B).
  { simpl. rewrite lookup_insert_ne by assumption. exact HB. }
  rewrite (run_bind _ _ _ _ _ (incrementBalances_found _ _ _ _ HB')).
  unfold bind, createTransaction, ret. simpl.
  rewrite <- app_assoc. simpl.
  replace (Account.balance A + - m) with (Account.balance A - m) by lia.
  reflexivity.
Qed.

End TransferFacts.

(** ** Internal transfers *)

(** C1 (as amended).  For an internal transfer between two distinct active
    accounts A and B whose amount field is truthy and denotes m, with
    m <= A.availableBalance: the handler returns; A.balance and
    A.availableBalance have decreased by m and B.balance and
    B.availableBalance have increased by m, no other account has changed;
    exactly two Transaction rows have been appended, a debit leg and a
    credit leg, both of amount m, mode internal and status completed; the
    credit leg's reference is the debit leg's transactionId while the debit
    leg carries no reference; the debit leg's balanceAfter is A's new
    balance and the credit leg's balanceAfter is B's new balance. *)
Theorem transferInternal_moves_amount
    (decimalOfString : string -> option Decimal) (now : Z)
    (body : InternalBody.t) (db : Db) (A B : Account.t) (m : Decimal) :
  InternalBody.fromAccountId body <> "" ->
  InternalBody.toAccountId body <> "" ->
  InternalBody.fromAccountId body <> InternalBody.toAccountId body ->
  truthy (InternalBody.amount body) = true ->
  decimalOf decimalOfString (InternalBody.amount body) = Some m ->
  accounts db !! InternalBody.fromAccountId body = Some A ->
  accounts db !! InternalBody.toAccountId body = Some B ->
  Account.status A = active ->
  Account.status B = active ->
  m <= Account.availableBalance A ->
  exists db' debitTx creditTx A' B',
    transferInternal decimalOfString now body db
      = (db', Returned (debitTx, creditTx))
    /\ accounts db' !! InternalBody.fromAccountId body = Some A'
    /\ accounts db' !! InternalBody.toAccountId body = Some B'
    /\ Account.balance A' = Account.balance A - m
    /\ Account.availableBalance A' = Account.availableBalance A - m
    /\ Account.balance B' = Account.balance B + m
    /\ Account.availableBalance B' = Account.availableBalance B + m
    /\ (forall id, id <> InternalBody.fromAccountId body ->
                   id <> InternalBody.toAccountId body ->
                   accounts db' !! id = accounts db !! id)
    /\ transactions db' = (transactions db ++ [debitTx; creditTx])%list
    /\ Transaction.type debitTx = debit
    /\ Transaction.type creditTx = credit
    /\ Transaction.amount debitTx = m
    /\ Transaction.amount creditTx = m
    /\ Transaction.mode debitTx = internal
    /\ Transaction.mode creditTx = internal
    /\ Transaction.status debitTx = completed
    /\ Transaction.status creditTx = completed
    /\ Transaction.reference creditTx = Some (Transaction.transactionId debitTx)
    /\ Transaction.reference debitTx = None
    /\ Transaction.transactionId debitTx <> Transaction.transactionId creditTx
    /\ Transaction.balanceAfter debitTx = Account.balance A'
    /\ Transaction.balanceAfter creditTx = Account.balance B'.
Proof.
  intros Hf Ht Hne Htr Hdec HA HB HsA HsB Hle.
  pose proof (transferInternal_commits decimalOfString now body db A B m
                Hf Ht Hne Htr Hdec HA HB HsA HsB Hle) as Hrun.
  cbv zeta in Hrun.
  eexists _, _, _, (addToBalances A (- m)), (addToBalances B m).
  split; [exact Hrun|].
  cbn [accounts transactions].
  split. { rewrite lookup_insert_ne by congruence. apply lookup_insert_eq. }
  split. { apply lookup_insert_eq. }
  repeat split; cbn; try lia; try reflexivity.
  - intros id H1 H2. rewrite !lookup_insert_ne by congruence. reflexivity.
Qed.

Lemma transferInternal_moves_amount_witness :
  exists db' debitTx creditTx,
    transferInternal Sample.wholeUnits 7 (Sample.internalBody (JsNumber 500000))
      Sample.db = (db', Returned (debitTx, creditTx))
    /\ transactions db' = [debitTx; creditTx]
    /\ Transaction.balanceAfter debitTx = 14500000
    /\ Transaction.balanceAfter creditTx = 500000.
Proof.
  destruct (transferInternal_moves_amount Sample.wholeUnits 7
              (Sample.internalBody (JsNumber 500000)) Sample.db
              (Sample.account "100100001001" "cust1" 15000000 active)
              (Sample.account "100100001002" "cust2" 0 active) 500000)
    as (db' & d & c & A' & B' & Hrun & _ & _ & HbA & _ & HbB & _ & _ & Htx
        & _ & _ & _ & _ & _ & _ & _ & _ & _ & _ & _ & Hd & Hc);
    try (vm_compute; congruence); try reflexivity.
  exists db', d, c. rewrite Hd, Hc, HbA, HbB. auto.
Defined.

(** ** No partial mutation *)

Lemma transaction_throws {A} (body : Handler A) db db' e :
  transaction body db = (db', Thrown e) -> db' = db.
Proof.
  unfold transaction. destruct (body db) as [d [a|e']]; congruence.
Qed.

Lemma throw_inv {A} (e e' : Exn) db db' :
  @throw A e db = (db', Thrown e') -> db' = db /\ e' = e.
Proof. unfold throw. intros H. inversion H. auto. Qed.

(** Walking through a handler that has thrown: a test is decided, a read is
    performed, a [throw] or a rolled-back transaction is met. *)
Ltac thrown H :=
  repeat first
    [ apply transaction_throws in H; exact H
    | apply throw_inv in H; destruct H as [H _]; exact H
    | match type of H with
      | (_, Thrown _) = (_, Thrown _) =>
          injection H as H _; symmetry; exact H
      | bind (findAccount _) _ _ = _ =>
          unfold bind at 1, findAccount at 1 in H; cbv beta iota in H
      | bind (findCustomer _) _ _ = _ =>
          unfold bind at 1, findCustomer at 1 in H; cbv beta iota in H
      | bind (newDecimal ?f ?v) _ _ = _ =>
          unfold bind at 1, newDecimal at 1 in H;
          destruct (decimalOf f v);
          [unfold ret at 1 in H | unfold throw at 1 in H];
          cbv beta iota in H
      | (if ?c then _ else _) _ = _ => destruct c
      | (match ?x with Some _ => _ | None => _ end) _ = _ => destruct x
      end ].

Section Atomicity.
Variable decimalOfString : string -> option Decimal.
Variable scale : Z.

Lemma transferInternal_throws_unchanged now body db db' e :
  transferInternal decimalOfString now body db = (db', Thrown e) -> db' = db.
Proof.
  intros H. unfold transferInternal in H. cbv zeta in H.
  thrown H.
Qed.

Lemma transferNeft_throws_unchanged body db db' e :
  transferNeft decimalOfString body db = (db', Thrown e) -> db' = db.
Proof.
  intros H. unfold transferNeft in H. cbv zeta in H.
  thrown H.
Qed.

Lemma transferImps_throws_unchanged now body db db' e :
  transferImps decimalOfString scale now body db = (db', Thrown e) -> db' = db.
Proof.
  intros H. unfold transferImps in H. cbv zeta in H.
  thrown H.
Qed.
End Atomicity.

Lemma openAccount_throws_unchanged newId accountNumber now body db db' e :
  openAccount newId accountNumber now body db = (db', Thrown e) -> db' = db.
Proof.
  intros H. unfold openAccount in H. cbv zeta in H.
  thrown H.
  unfold bind at 1, createAccount at 1 in H.
  destruct (accounts db !! newId); cbv beta iota in H.
  - thrown H.
  - destruct (decide (numberTaken _ _)); cbv beta iota in H.
    + thrown H.
    + destruct (0 <? default 0 (AccountBody.initialDeposit body));
        unfold bind, createTransaction, ret in H; discriminate H.
Qed.

(** ** What a handler that returned has checked *)

Ltac refute H := exfalso; unfold throw in H; discriminate H.

Lemma required_passed (a b c : bool) :
  negb a || negb b || negb c = false -> a = true /\ b = true /\ c = true.
Proof. destruct a, b, c; simpl; intuition congruence. Qed.

Lemma required5_passed (a b c d e : bool) :
  negb a || negb b || negb c || negb d || negb e = false ->
  a = true /\ b = true /\ c = true /\ d = true /\ e = true.
Proof. destruct a, b, c, d, e; simpl; intuition congruence. Qed.

Lemma is_active_passed (a : Account.t) :
  negb (bool_decide (Account.status a = active)) = false ->
  Account.status a = active.
Proof.
  intros H. apply negb_false_iff in H. now apply bool_decide_eq_true_1 in H.
Qed.

Section Returns.
Variable decimalOfString : string -> option Decimal.
Variable scale : Z.

Lemma transferInternal_returns_inv now body db db' r :
  transferInternal decimalOfString now body db = (db', Returned r) ->
  exists A B m,
    InternalBody.fromAccountId body <> ""
    /\ InternalBody.toAccountId body <> ""
    /\ InternalBody.fromAccountId body <> InternalBody.toAccountId body
    /\ truthy (InternalBody.amount body) = true
    /\ decimalOf decimalOfString (InternalBody.amount body) = Some m
    /\ accounts db !! InternalBody.fromAccountId body = Some A
    /\ accounts db !! InternalBody.toAccountId body = Some B
    /\ Account.status A = active
    /\ Account.status B = active
    /\ m <= Account.availableBalance A.
Proof.
  intros H. unfold transferInternal in H. cbv zeta in H.
  destruct (_ || _) eqn:Hreq in H; [refute H|].
  apply required_passed in Hreq as (Hf & Ht & Htr).
  destruct (String.eqb_spec (InternalBody.fromAccountId body)
              (InternalBody.toAccountId body)) as [|Hne]; [refute H|].
  unfold bind at 1, findAccount at 1 in H. cbv beta iota in H.
  unfold bind at 1, findAccount at 1 in H. cbv beta iota in H.
  destruct (accounts db !! InternalBody.fromAccountId body) as [A|] eqn:HA;
    [|refute H].
  destruct (accounts db !! InternalBody.toAccountId body) as [B|] eqn:HB;
    [|refute H].
  destruct (negb (bool_decide (Account.status A = active))) eqn:HsA;
    [refute H|].
  destruct (negb (bool_decide (Account.status B = active))) eqn:HsB;
    [refute H|].
  unfold bind at 1, newDecimal at 1 in H.
  destruct (decimalOf decimalOfString (InternalBody.amount body)) as [m|]
    eqn:Hdec; [|refute H].
  unfold ret at 1 in H. cbv beta iota in H.
  destruct (Z.ltb_spec (Account.availableBalance A) m) as [|Hle]; [refute H|].
  exists A, B, m.
  rewrite nonEmpty_true in Hf, Ht.
  auto 12 using is_active_passed.
Qed.

Lemma transferNeft_commits body db A m :
  RailBody.fromAccountId body <> "" ->
  RailBody.beneficiaryAccount body <> "" ->
  RailBody.beneficiaryName body <> "" ->
  RailBody.beneficiaryIfsc body <> "" ->
  truthy (RailBody.amount body) = true ->
  decimalOf decimalOfString (RailBody.amount body) = Some m ->
  accounts db !! RailBody.fromAccountId body = Some A ->
  Account.status A = active ->
  m <= Account.availableBalance A ->
  transferNeft decimalOfString body db =
    (let row :=
       Transaction.mk (txSeq db) (txSeq db)
         (Some (RailBody.fromAccountId body)) None debit m neft txPending
         (RailBody.description body) None
         (Some (RailBody.beneficiaryName body))
         (Some (RailBody.beneficiaryAccount body))
         (RailBody.beneficiaryBank body)
         (Some (RailBody.beneficiaryIfsc body))
         (Account.balance A - m) None in
     (mkDb (<[RailBody.fromAccountId body := addToBalances A (- m)]>
              (accounts db))
           (transactions db ++ [row]) (glEntries db) (customers db)
           (N.succ (txSeq db)),
      Returned row)).
Proof.
  intros Hf Hba Hbn Hbi Htr Hdec HA HsA Hle.
  unfold transferNeft. cbv zeta.
  apply nonEmpty_true in Hf, Hba, Hbn, Hbi.
  rewrite Hf, Hba, Hbn, Hbi, Htr. simpl.
  unfold bind at 1, findAccount at 1. rewrite HA.
  rewrite bool_decide_eq_true_2 by assumption. simpl.
  rewrite (run_bind _ _ _ _ _ (newDecimal_some _ _ _ _ Hdec)).
  destruct (Z.ltb_spec (Account.availableBalance A) m) as [|_]; [lia|].
  unfold transaction, decrementBalances.
  rewrite (run_bind _ _ _ _ _ (incrementBalances_found _ _ _ _ HA)).
  unfold createTransaction. simpl.
  replace (Account.balance A + - m) with (Account.balance A - m) by lia.
  reflexivity.
Qed.

Lemma transferNeft_returns_inv body db db' r :
  transferNeft decimalOfString body db = (db', Returned r) ->
  exists A m,
    RailBody.fromAccountId body <> ""
    /\ RailBody.beneficiaryAccount body <> ""
    /\ RailBody.beneficiaryName body <> ""
    /\ RailBody.beneficiaryIfsc body <> ""
    /\ truthy (RailBody.amount body) = true
    /\ decimalOf decimalOfString (RailBody.amount body) = Some m
    /\ accounts db !! RailBody.fromAccountId body = Some A
    /\ Account.status A = active
    /\ m <= Account.availableBalance A.
Proof.
  intros H. unfold transferNeft in H. cbv zeta in H.
  destruct (_ || _) eqn:Hreq in H; [refute H|].
  apply required5_passed in Hreq as (Hf & Hba & Hbn & Hbi & Htr).
  unfold bind at 1, findAccount at 1 in H. cbv beta iota in H.
  destruct (accounts db !! RailBody.fromAccountId body) as [A|] eqn:HA;
    [|refute H].
  destruct (negb (bool_decide (Account.status A = active))) eqn:HsA;
    [refute H|].
  unfold bind at 1, newDecimal at 1 in H.
  destruct (decimalOf decimalOfString (RailBody.amount body)) as [m|]
    eqn:Hdec; [|refute H].
  unfold ret at 1 in H. cbv beta iota in H.
  destruct (Z.ltb_spec (Account.availableBalance A) m) as [|Hle]; [refute H|].
  exists A, m.
  rewrite nonEmpty_true in Hf, Hba, Hbn, Hbi.
  auto 12 using is_active_passed.
Qed.

Lemma transferImps_commits now body db A m :
  RailBody.fromAccountId body <> "" ->
  RailBody.beneficiaryAccount body <> "" ->
  RailBody.beneficiaryName body <> "" ->
  RailBody.beneficiaryIfsc body <> "" ->
  truthy (RailBody.amount body) = true ->
  decimalOf decimalOfString (RailBody.amount body) = Some m ->
  m <= 500000 * scale ->
  accounts db !! RailBody.fromAccountId body = Some A ->
  Account.status A = active ->
  m <= Account.availableBalance A ->
  transferImps decimalOfString scale now body db =
    (let row :=
       Transaction.mk (txSeq db) (txSeq db)
         (Some (RailBody.fromAccountId body)) None debit m imps completed
         (RailBody.description body) None
         (Some (RailBody.beneficiaryName body))
         (Some (RailBody.beneficiaryAccount body))
         None
         (Some (RailBody.beneficiaryIfsc body))
         (Account.balance A - m) (Some now) in
     (mkDb (<[RailBody.fromAccountId body := addToBalances A (- m)]>
              (accounts db))
           (transactions db ++ [row]) (glEntries db) (customers db)
           (N.succ (txSeq db)),
      Returned row)).
Proof.
  intros Hf Hba Hbn Hbi Htr Hdec Hceil HA HsA Hle.
  unfold transferImps. cbv zeta.
  apply nonEmpty_true in Hf, Hba, Hbn, Hbi.
  rewrite Hf, Hba, Hbn, Hbi, Htr. cbn [negb orb].
  unfold bind at 1. rewrite (newDecimal_some _ _ _ _ Hdec).
  destruct (Z.ltb_spec (500000 * scale) m) as [|_]; [lia|].
  unfold bind at 1, findAccount at 1. rewrite HA.
  rewrite bool_decide_eq_true_2 by assumption. cbn [negb].
  destruct (Z.ltb_spec (Account.availableBalance A) m) as [|_]; [lia|].
  unfold transaction, decrementBalances.
  rewrite (run_bind _ _ _ _ _ (incrementBalances_found _ _ _ _ HA)).
  unfold createTransaction. simpl.
  replace (Account.balance A + - m) with (Account.balance A - m) by lia.
  reflexivity.
Qed.

Lemma transferImps_returns_inv now body db db' r :
  transferImps decimalOfString scale now body db = (db', Returned r) ->
  exists A m,
    RailBody.fromAccountId body <> ""
    /\ RailBody.beneficiaryAccount body <> ""
    /\ RailBody.beneficiaryName body <> ""
    /\ RailBody.beneficiaryIfsc body <> ""
    /\ truthy (RailBody.amount body) = true
    /\ decimalOf decimalOfString (RailBody.amount body) = Some m
    /\ m <= 500000 * scale
    /\ accounts db !! RailBody.fromAccountId body = Some A
    /\ Account.status A = active
    /\ m <= Account.availableBalance A.
Proof.
  intros H. unfold transferImps in H. cbv zeta in H.
  destruct (_ || _) eqn:Hreq in H; [refute H|].
  apply required5_passed in Hreq as (Hf & Hba & Hbn & Hbi & Htr).
  unfold bind at 1, newDecimal at 1 in H.
  destruct (decimalOf decimalOfString (RailBody.amount body)) as [m|]
    eqn:Hdec; [|refute H].
  unfold ret at 1 in H. cbv beta iota in H.
  destruct (Z.ltb_spec (500000 * scale) m) as [|Hceil]; [refute H|].
  unfold bind at 1, findAccount at 1 in H. cbv beta iota in H.
  destruct (accounts db !! RailBody.fromAccountId body) as [A|] eqn:HA;
    [|refute H].
  destruct (negb (bool_decide (Account.status A = active))) eqn:HsA;
    [refute H|].
  destruct (Z.ltb_spec (Account.availableBalance A) m) as [|Hle]; [refute H|].
  exists A, m.
  rewrite nonEmpty_true in Hf, Hba, Hbn, Hbi.
  auto 14 using is_active_passed.
Qed.

End Returns.

Lemma openAccount_returns_inv newId accountNumber now body db db' r :
  openAccount newId accountNumber now body db = (db', Returned r) ->
  let d := default 0 (AccountBody.initialDeposit body) in
  accounts db' =
    <[newId := Account.mk accountNumber (AccountBody.customerId body)
                 (AccountBody.type body) (AccountBody.branch body)
                 (default "INR" (AccountBody.currency body)) d d active None]>
      (accounts db).
Proof.
  intros H d. unfold openAccount in H. cbv zeta in H. fold d in H.
  destruct (_ || _) in H; [refute H|].
  unfold bind at 1, findCustomer at 1 in H. cbv beta iota in H.
  destruct (negb _) in H; [refute H|].
  unfold bind at 1, createAccount at 1 in H.
  destruct (accounts db !! newId); [discriminate H|]. cbv beta iota in H.
  destruct (decide (numberTaken _ _)); [discriminate H|]. cbv beta iota in H.
  destruct (0 <? d); unfold bind, createTransaction, ret in H; simpl in H;
    injection H as <- _; reflexivity.
Qed.

(** ** The account invariant *)

Lemma accountInvariant_debit a m :
  accountInvariant a -> m <= Account.availableBalance a ->
  accountInvariant (addToBalances a (- m)).
Proof. unfold accountInvariant. simpl. lia. Qed.

Lemma accountInvariant_credit a m :
  accountInvariant a -> 0 <= m -> accountInvariant (addToBalances a m).
Proof. unfold accountInvariant. simpl. lia. Qed.

Section Invariant.
Variable decimalOfString : string -> option Decimal.
Variable scale : Z.

Lemma transferInternal_keeps_invariant now body db db' r m :
  dbInvariant db ->
  transferInternal decimalOfString now body db = (db', Returned r) ->
  decimalOf decimalOfString (InternalBody.amount body) = Some m ->
  0 <= m ->
  dbInvariant db'.
Proof.
  intros Hinv Hrun Hdec Hm.
  destruct (transferInternal_returns_inv _ _ _ _ _ _ Hrun)
    as (A & B & m' & Hf & Ht & Hne & Htr & Hdec' & HA & HB & HsA & HsB & Hle).
  assert (m' = m) as -> by congruence.
  rewrite (transferInternal_commits _ now body db A B m) in Hrun by assumption.
  cbv zeta in Hrun. injection Hrun as <- _.
  intros i x. cbn [accounts]. intros Hi.
  apply lookup_insert_Some in Hi as [[_ <-]|[_ Hi]].
  { apply accountInvariant_credit; eauto. }
  apply lookup_insert_Some in Hi as [[_ <-]|[_ Hi]].
  { apply accountInvariant_debit; eauto. }
  eauto.
Qed.

Lemma debit_keeps_invariant db id A m :
  dbInvariant db -> accounts db !! id = Some A ->
  m <= Account.availableBalance A ->
  forall db', accounts db' = <[id := addToBalances A (- m)]> (accounts db) ->
  dbInvariant db'.
Proof.
  intros Hinv HA Hle db' Hdb' i x Hi. rewrite Hdb' in Hi.
  apply lookup_insert_Some in Hi as [[_ <-]|[_ Hi]].
  - apply accountInvariant_debit; eauto.
  - eauto.
Qed.

Lemma transferNeft_keeps_invariant body db db' r :
  dbInvariant db ->
  transferNeft decimalOfString body db = (db', Returned r) ->
  dbInvariant db'.
Proof.
  intros Hinv Hrun.
  destruct (transferNeft_returns_inv _ _ _ _ _ Hrun)
    as (A & m & Hf & Hba & Hbn & Hbi & Htr & Hdec & HA & HsA & Hle).
  rewrite (transferNeft_commits _ body db A m) in Hrun by assumption.
  cbv zeta in Hrun. injection Hrun as <- _.
  eapply debit_keeps_invariant; eauto.
Qed.

Lemma transferImps_keeps_invariant now body db db' r :
  dbInvariant db ->
  transferImps decimalOfString scale now body db = (db', Returned r) ->
  dbInvariant db'.
Proof.
  intros Hinv Hrun.
  destruct (transferImps_returns_inv _ _ _ _ _ _ _ Hrun)
    as (A & m & Hf & Hba & Hbn & Hbi & Htr & Hdec & Hceil & HA & HsA & Hle).
  rewrite (transferImps_commits _ scale now body db A m) in Hrun by assumption.
  cbv zeta in Hrun. injection Hrun as <- _.
  eapply debit_keeps_invariant; eauto.
Qed.

End Invariant.

Lemma openAccount_keeps_invariant newId accountNumber now body db db' r :
  dbInvariant db ->
  openAccount newId accountNumber now body db = (db', Returned r) ->
  0 <= default 0 (AccountBody.initialDeposit body) ->
  dbInvariant db'.
Proof.
  intros Hinv Hrun Hd. apply openAccount_returns_inv in Hrun. cbv zeta in Hrun.
  intros i x Hi. rewrite Hrun in Hi.
  apply lookup_insert_Some in Hi as [[_ <-]|[_ Hi]].
  - unfold accountInvariant. simpl. lia.
  - eauto.
Qed.

(** C2 (as amended).  A committed operation preserves the account
    invariant, availableBalance <= balance with both non-negative for every
    account, provided the amount it credits is not negative: account
    creation with an initial deposit >= 0, an internal transfer of an amount
    >= 0, and every committed deferred or instant transfer. *)
Theorem committed_operations_keep_invariant
    (decimalOfString : string -> option Decimal) (scale now : Z) (db db' : Db) :
  dbInvariant db ->
  (forall newId accountNumber body r,
      openAccount newId accountNumber now body db = (db', Returned r) ->
      0 <= default 0 (AccountBody.initialDeposit body) ->
      dbInvariant db')
  /\ (forall body r m,
      transferInternal decimalOfString now body db = (db', Returned r) ->
      decimalOf decimalOfString (InternalBody.amount body) = Some m ->
      0 <= m ->
      dbInvariant db')
  /\ (forall body r,
      transferNeft decimalOfString body db = (db', Returned r) ->
      dbInvariant db')
  /\ (forall body r,
      transferImps decimalOfString scale now body db = (db', Returned r) ->
      dbInvariant db').
Proof.
  intros Hinv. split; [|split; [|split]]; intros.
  - eapply openAccount_keeps_invariant; eauto.
  - eapply transferInternal_keeps_invariant; eauto.
  - eapply transferNeft_keeps_invariant; eauto.
  - eapply transferImps_keeps_invariant; eauto.
Qed.

Lemma sample_db_invariant : dbInvariant Sample.db.
Proof.
  intros i x Hi. unfold Sample.db in Hi. cbn [accounts] in Hi.
  repeat (apply lookup_insert_Some in Hi as [[_ <-]|[_ Hi]];
          [unfold accountInvariant; simpl; lia|]).
  rewrite lookup_empty in Hi. discriminate.
Qed.

Lemma committed_operations_keep_invariant_witness :
  exists db' r,
    transferInternal Sample.wholeUnits 7 (Sample.internalBody (JsString "5000"))
      Sample.db = (db', Returned r)
    /\ dbInvariant db'.
Proof.
  destruct (transferInternal Sample.wholeUnits 7
              (Sample.internalBody (JsString "5000")) Sample.db)
    as [db' [r|e]] eqn:Hrun; [|vm_compute in Hrun; discriminate Hrun].
  exists db', r. split; [reflexivity|].
  destruct (committed_operations_keep_invariant Sample.wholeUnits Sample.scale
              7 Sample.db db' sample_db_invariant) as (_ & Hint & _).
  apply (Hint (Sample.internalBody (JsString "5000")) r 500000).
  - exact Hrun.
  - reflexivity.
  - lia.
Defined.

(** C2, as stated, fails: an internal transfer of a negative amount commits
    and leaves the destination with a negative balance, and an account can
    be opened with a negative initial deposit. *)
Lemma negative_amount_breaks_invariant :
  dbInvariant Sample.db
  /\ (exists db' r a,
        transferInternal Sample.wholeUnits 7
          (Sample.internalBody (JsNumber (-500))) Sample.db = (db', Returned r)
        /\ accounts db' !! "acc2" = Some a
        /\ Account.balance a = -500
        /\ ~ dbInvariant db')
  /\ (exists db' r,
        openAccount "acc4" "100112345678" 7
          (AccountBody.mk "cust1" "savings" "MAIN_BRANCH" None (Some (-100)))
          Sample.db = (db', Returned r)
        /\ Account.balance r = -100
        /\ ~ dbInvariant db').
Proof.
  split; [exact sample_db_invariant|]. split.
  - eexists _, _, _. split; [vm_compute; reflexivity|].
    split; [vm_compute; reflexivity|]. split; [reflexivity|].
    intros Hinv.
    assert (H : accountInvariant
                  (addToBalances (Sample.account "100100001002" "cust2" 0 active) (-500))).
    { apply (Hinv "acc2"). vm_compute. reflexivity. }
    unfold accountInvariant in H. simpl in H. lia.
  - eexists _, _. split; [vm_compute; reflexivity|].
    split; [reflexivity|].
    intros Hinv.
    assert (H : accountInvariant
                  (Account.mk "100112345678" "cust1" "savings" "MAIN_BRANCH"
                     "INR" (-100) (-100) active None)).
    { apply (Hinv "acc4"). vm_compute. reflexivity. }
    unfold accountInvariant in H. simpl in H. lia.
Qed.

(** C1, as stated, fails twice: the debit leg of a committed transfer does
    not refer to the credit leg, so the legs do not refer to each other; and
    the amount 0, which is at most any non-negative available balance, is
    refused. *)
Lemma transferInternal_legs_not_mutual :
  ~ (exists db' debitTx creditTx,
        transferInternal Sample.wholeUnits 7
          (Sample.internalBody (JsNumber 500000)) Sample.db
          = (db', Returned (debitTx, creditTx))
        /\ Transaction.reference creditTx
           = Some (Transaction.transactionId debitTx)
        /\ Transaction.reference debitTx
           = Some (Transaction.transactionId creditTx))
  /\ ~ (exists db' r,
        transferInternal Sample.wholeUnits 7
          (Sample.internalBody (JsNumber 0)) Sample.db = (db', Returned r)).
Proof.
  split.
  - intros (db' & d & c & Hrun & _ & Hd).
    vm_compute in Hrun. injection Hrun as _ <- <-. discriminate Hd.
  - intros (db' & r & Hrun). vm_compute in Hrun. discriminate Hrun.
Qed.

(** ** Refused transfers *)

(** C3.  When the amount m of an internal transfer exceeds the source
    account's availableBalance the handler throws and the database is the
    one it started from: no balance has changed and no Transaction row has
    been written.  When nothing else is wrong with the request (both
    identifiers present and distinct, both accounts found and active) the
    exception is InsufficientFunds. *)
Theorem transferInternal_insufficient_funds
    (decimalOfString : string -> option Decimal) (now : Z)
    (body : InternalBody.t) (db : Db) (A : Account.t) (m : Decimal) :
  accounts db !! InternalBody.fromAccountId body = Some A ->
  decimalOf decimalOfString (InternalBody.amount body) = Some m ->
  Account.availableBalance A < m ->
  (exists e, transferInternal decimalOfString now body db = (db, Thrown e))
  /\ (InternalBody.fromAccountId body <> "" ->
      InternalBody.toAccountId body <> "" ->
      InternalBody.fromAccountId body <> InternalBody.toAccountId body ->
      truthy (InternalBody.amount body) = true ->
      forall B,
        accounts db !! InternalBody.toAccountId body = Some B ->
        Account.status A = active ->
        Account.status B = active ->
        transferInternal decimalOfString now body db
          = (db, Thrown InsufficientFunds)).
Proof.
  intros HA Hdec Hlt. split.
  - destruct (transferInternal decimalOfString now body db) as [db' [r|e]]
      eqn:Hrun.
    + apply transferInternal_returns_inv in Hrun
        as (A' & B & m' & _ & _ & _ & _ & Hdec' & HA' & _ & _ & _ & Hle).
      exfalso. assert (A' = A) by congruence. assert (m' = m) by congruence.
      subst. lia.
    + exists e. apply transferInternal_throws_unchanged in Hrun. now subst.
  - intros Hf Ht Hne Htr B HB HsA HsB.
    unfold transferInternal. cbv zeta.
    apply nonEmpty_true in Hf, Ht. rewrite Hf, Ht, Htr. simpl.
    destruct (String.eqb_spec (InternalBody.fromAccountId body)
                (InternalBody.toAccountId body)) as [|_]; [congruence|].
    unfold bind at 1, findAccount at 1. unfold bind at 1, findAccount at 1.
    rewrite HA, HB.
    rewrite !bool_decide_eq_true_2 by assumption. simpl.
    rewrite (run_bind _ _ _ _ _ (newDecimal_some _ _ _ _ Hdec)).
    destruct (Z.ltb_spec (Account.availableBalance A) m) as [_|]; [|lia].
    reflexivity.
Qed.

Lemma transferInternal_insufficient_funds_witness :
  transferInternal Sample.wholeUnits 7
    (Sample.internalBody (JsNumber 15000001)) Sample.db
  = (Sample.db, Thrown InsufficientFunds).
Proof.
  destruct (transferInternal_insufficient_funds Sample.wholeUnits 7
              (Sample.internalBody (JsNumber 15000001)) Sample.db
              (Sample.account "100100001001" "cust1" 15000000 active) 15000001
              eq_refl eq_refl eq_refl)
    as [_ Hkind].
  apply (Hkind ltac:(vm_compute; congruence) ltac:(vm_compute; congruence)
           ltac:(vm_compute; congruence) eq_refl
           (Sample.account "100100001002" "cust2" 0 active));
    reflexivity.
Defined.

(** C4 (as amended).  A transfer request, internal, deferred or instant,
    whose amount is falsy (absent, null, false, the number zero or the empty
    string) fails with the handler's required-fields error, status 400; one
    whose amount the Decimal constructor refuses fails as well (with that
    constructor's error unless an earlier check has thrown).  In both cases
    the database is left as it was: no balance has changed and no
    Transaction row has been written. *)
Theorem transfers_refuse_unusable_amount
    (decimalOfString : string -> option Decimal) (scale now : Z)
    (ibody : InternalBody.t) (rbody : RailBody.t) (db : Db) :
  (truthy (InternalBody.amount ibody) = false ->
     transferInternal decimalOfString now ibody db
     = (db, Thrown (AppError
                      "From account, to account, and amount are required" 400)))
  /\ (truthy (RailBody.amount rbody) = false ->
     transferNeft decimalOfString rbody db
     = (db, Thrown (AppError "Missing required fields for NEFT transfer" 400))
     /\ transferImps decimalOfString scale now rbody db
        = (db, Thrown (AppError "Missing required fields for IMPS transfer" 400)))
  /\ (decimalOf decimalOfString (InternalBody.amount ibody) = None ->
     exists e, transferInternal decimalOfString now ibody db = (db, Thrown e))
  /\ (decimalOf decimalOfString (RailBody.amount rbody) = None ->
     (exists e, transferNeft decimalOfString rbody db = (db, Thrown e))
     /\ (exists e, transferImps decimalOfString scale now rbody db
                   = (db, Thrown e))).
Proof.
  split; [|split; [|split]].
  - intros Htr. unfold transferInternal. cbv zeta.
    rewrite Htr. cbn [negb]. now rewrite orb_true_r.
  - intros Htr. unfold transferNeft, transferImps. cbv zeta.
    rewrite Htr. cbn [negb]. now rewrite orb_true_r.
  - intros Hdec.
    destruct (transferInternal decimalOfString now ibody db) as [db' [r|e]]
      eqn:Hrun.
    + apply transferInternal_returns_inv in Hrun
        as (A & B & m & _ & _ & _ & _ & Hdec' & _). congruence.
    + exists e. apply transferInternal_throws_unchanged in Hrun. now subst.
  - intros Hdec. split.
    + destruct (transferNeft decimalOfString rbody db) as [db' [r|e]] eqn:Hrun.
      * apply transferNeft_returns_inv in Hrun
          as (A & m & _ & _ & _ & _ & _ & Hdec' & _). congruence.
      * exists e. apply transferNeft_throws_unchanged in Hrun. now subst.
    + destruct (transferImps decimalOfString scale now rbody db)
        as [db' [r|e]] eqn:Hrun.
      * apply transferImps_returns_inv in Hrun
          as (A & m & _ & _ & _ & _ & _ & Hdec' & _). congruence.
      * exists e. apply transferImps_throws_unchanged in Hrun. now subst.
Qed.

Lemma transfers_refuse_unusable_amount_witness :
  transferInternal Sample.wholeUnits 7 (Sample.internalBody (JsNumber 0))
    Sample.db
  = (Sample.db,
     Thrown (AppError "From account, to account, and amount are required" 400))
  /\ exists e,
      transferImps Sample.wholeUnits Sample.scale 7
        (Sample.railBody (JsString "ten")) Sample.db = (Sample.db, Thrown e).
Proof.
  destruct (transfers_refuse_unusable_amount Sample.wholeUnits Sample.scale 7
              (Sample.internalBody (JsNumber 0))
              (Sample.railBody (JsString "ten")) Sample.db)
    as (Hzero & _ & _ & Hrail).
  split.
  - apply Hzero. reflexivity.
  - apply Hrail. reflexivity.
Defined.

(** C4, as stated, fails: a negative amount is not refused.  The internal
    transfer of -5.00 commits, takes 5.00 from the destination, gives it to
    the source and writes two Transaction rows. *)
Lemma negative_amount_is_transferred :
  exists db' r src dst,
    transferInternal Sample.wholeUnits 7 (Sample.internalBody (JsNumber (-500)))
      Sample.db = (db', Returned r)
    /\ accounts db' !! "acc1" = Some src
    /\ accounts db' !! "acc2" = Some dst
    /\ Account.balance src = 15000500
    /\ Account.balance dst = -500
    /\ length (transactions db') = 2%nat.
Proof.
  eexists _, _, _, _.
  split; [vm_compute; reflexivity|].
  split; [vm_compute; reflexivity|].
  split; [vm_compute; reflexivity|].
  repeat split.
Qed.

(** C8.  An instant transfer whose amount m is above 500000 throws and
    leaves the database as it was: no balance has changed and no Transaction
    row has been written; when the required fields are present the
    exception is LimitExceeded.  For m at or below the ceiling and a request
    that passes the other checks (required fields present, source account
    found and active, m <= availableBalance) the handler returns the single
    Transaction row it has appended, a debit of m with status completed,
    and the source's balances have decreased by m. *)
Theorem transferImps_ceiling
    (decimalOfString : string -> option Decimal) (scale now : Z)
    (body : RailBody.t) (db : Db) (m : Decimal) :
  decimalOf decimalOfString (RailBody.amount body) = Some m ->
  (500000 * scale < m ->
     exists e, transferImps decimalOfString scale now body db = (db, Thrown e))
  /\ (500000 * scale < m ->
      RailBody.fromAccountId body <> "" ->
      RailBody.beneficiaryAccount body <> "" ->
      RailBody.beneficiaryName body <> "" ->
      RailBody.beneficiaryIfsc body <> "" ->
      truthy (RailBody.amount body) = true ->
      transferImps decimalOfString scale now body db
        = (db, Thrown LimitExceeded))
  /\ (m <= 500000 * scale ->
      RailBody.fromAccountId body <> "" ->
      RailBody.beneficiaryAccount body <> "" ->
      RailBody.beneficiaryName body <> "" ->
      RailBody.beneficiaryIfsc body <> "" ->
      truthy (RailBody.amount body) = true ->
      forall A,
        accounts db !! RailBody.fromAccountId body = Some A ->
        Account.status A = active ->
        m <= Account.availableBalance A ->
        exists db' tx,
          transferImps decimalOfString scale now body db = (db', Returned tx)
          /\ transactions db' = (transactions db ++ [tx])%list
          /\ Transaction.type tx = debit
          /\ Transaction.status tx = completed
          /\ Transaction.mode tx = imps
          /\ Transaction.amount tx = m
          /\ Transaction.fromAccountId tx = Some (RailBody.fromAccountId body)
          /\ Transaction.balanceAfter tx = Account.balance A - m
          /\ accounts db'
             = <[RailBody.fromAccountId body := addToBalances A (- m)]>
                 (accounts db)).
Proof.
  intros Hdec. split; [|split].
  - intros Hgt.
    destruct (transferImps decimalOfString scale now body db) as [db' [r|e]]
      eqn:Hrun.
    + apply transferImps_returns_inv in Hrun
        as (A & m' & _ & _ & _ & _ & _ & Hdec' & Hceil & _).
      exfalso. assert (m' = m) by congruence. subst. lia.
    + exists e. apply transferImps_throws_unchanged in Hrun. now subst.
  - intros Hgt Hf Hba Hbn Hbi Htr.
    unfold transferImps. cbv zeta.
    apply nonEmpty_true in Hf, Hba, Hbn, Hbi.
    rewrite Hf, Hba, Hbn, Hbi, Htr. cbn [negb orb].
    unfold bind at 1. rewrite (newDecimal_some _ _ _ _ Hdec).
    destruct (Z.ltb_spec (500000 * scale) m) as [_|]; [|lia].
    reflexivity.
  - intros Hle Hf Hba Hbn Hbi Htr A HA HsA Hav.
    rewrite (transferImps_commits decimalOfString scale now body db A m)
      by assumption.
    cbv zeta. eexists _, _. split; [reflexivity|].
    cbn. repeat split.
Qed.

Lemma transferImps_ceiling_witness :
  transferImps Sample.wholeUnits Sample.scale 7
    (Sample.railBody (JsNumber 50000001))
    (mkDb (<["acc1" := Sample.account "1" "cust1" 90000000 active]> ∅)
       [] [] ∅ 0)
  = (mkDb (<["acc1" := Sample.account "1" "cust1" 90000000 active]> ∅)
       [] [] ∅ 0,
     Thrown LimitExceeded)
  /\ exists db' tx,
      transferImps Sample.wholeUnits Sample.scale 7
        (Sample.railBody (JsNumber 50000000))
        (mkDb (<["acc1" := Sample.account "1" "cust1" 90000000 active]> ∅)
           [] [] ∅ 0)
      = (db', Returned tx)
      /\ transactions db' = [tx]
      /\ Transaction.status tx = completed.
Proof.
  split.
  - destruct (transferImps_ceiling Sample.wholeUnits Sample.scale 7
                (Sample.railBody (JsNumber 50000001))
                (mkDb (<["acc1" := Sample.account "1" "cust1" 90000000 active]> ∅)
                   [] [] ∅ 0) 50000001 eq_refl) as (_ & Hlimit & _).
    apply Hlimit; try reflexivity; vm_compute; congruence.
  - destruct (transferImps_ceiling Sample.wholeUnits Sample.scale 7
                (Sample.railBody (JsNumber 50000000))
                (mkDb (<["acc1" := Sample.account "1" "cust1" 90000000 active]> ∅)
                   [] [] ∅ 0) 50000000 eq_refl) as (_ & _ & Hok).
    destruct (Hok ltac:(vm_compute; congruence) ltac:(vm_compute; congruence)
                ltac:(vm_compute; congruence) ltac:(vm_compute; congruence)
                ltac:(vm_compute; congruence) eq_refl
                (Sample.account "1" "cust1" 90000000 active)
                eq_refl eq_refl ltac:(vm_compute; congruence))
      as (db' & tx & Hrun & Htx & _ & Hst & _).
    exists db', tx. auto.
Defined.

(** ** The entry lifecycle *)

Lemma lookupEntry_Some id l e :
  lookupEntry id l = Some e -> e ∈ l /\ GLEntry.id e = id.
Proof.
  unfold lookupEntry. intros H. apply find_some in H as [Hin Heq].
  split; [now apply list_elem_of_In|]. now apply String.eqb_eq in Heq.
Qed.

Lemma lookupEntry_replace id (f : GLEntry.t -> GLEntry.t) l :
  (forall e, GLEntry.id (f e) = GLEntry.id e) ->
  lookupEntry id (replaceEntry id f l) = f <$> lookupEntry id l.
Proof.
  intros Hid. unfold lookupEntry. induction l as [|x l IH]; [reflexivity|].
  cbn [replaceEntry find].
  destruct (String.eqb (GLEntry.id x) id) eqn:Hx; cbn [find].
  - rewrite Hid, Hx. reflexivity.
  - rewrite Hx. exact IH.
Qed.

Lemma lookupEntry_replace_ne id i (f : GLEntry.t -> GLEntry.t) l :
  (forall e, GLEntry.id (f e) = GLEntry.id e) -> i <> id ->
  lookupEntry i (replaceEntry id f l) = lookupEntry i l.
Proof.
  intros Hid Hne. unfold lookupEntry. induction l as [|x l IH]; [reflexivity|].
  cbn [replaceEntry find].
  destruct (String.eqb_spec (GLEntry.id x) id) as [Hx|Hx]; cbn [find].
  - rewrite Hid.
    destruct (String.eqb_spec (GLEntry.id x) i); [congruence|reflexivity].
  - destruct (String.eqb (GLEntry.id x) i); [reflexivity|exact IH].
Qed.

Lemma replaceEntry_evolves id (f : GLEntry.t -> GLEntry.t) l e :
  lookupEntry id l = Some e -> entryEvolves e (f e) ->
  Forall2 entryEvolves l (replaceEntry id f l).
Proof.
  assert (Hrefl : forall k, Forall2 entryEvolves k k).
  { intros k. apply Forall_Forall2_diag, Forall_forall. intros x _.
    unfold entryEvolves. auto 10 using step_none. }
  unfold lookupEntry. induction l as [|x l IH]; [discriminate|].
  cbn [replaceEntry find]. intros Hfind He.
  destruct (String.eqb (GLEntry.id x) id).
  - injection Hfind as ->. constructor; [exact He|apply Hrefl].
  - constructor; [|now apply IH].
    unfold entryEvolves. auto 10 using step_none.
Qed.

Lemma ledgerEvolves_refl db : ledgerEvolves db db.
Proof.
  unfold ledgerEvolves. apply Forall_Forall2_diag, Forall_forall. intros x _.
  unfold entryEvolves. auto 10 using step_none.
Qed.

Lemma updateEntry_found id f db e :
  lookupEntry id (glEntries db) = Some e ->
  updateEntry id f db =
    (withGl db (replaceEntry id f (glEntries db)), Returned (f e)).
Proof. intros H. unfold updateEntry. now rewrite H. Qed.

Lemma postGLEntry_spec id actor now db :
  match lookupEntry id (glEntries db) with
  | None => postGLEntry id actor now db = (db, Thrown (NotFound "GL Entry"))
  | Some e =>
      if decide (GLEntry.postingStatus e = pending)
      then postGLEntry id actor now db =
             (withGl db (replaceEntry id (markPosted actor now) (glEntries db)),
              Returned (markPosted actor now e))
      else postGLEntry id actor now db = (db, Thrown InvalidState_notPending)
  end.
Proof.
  unfold postGLEntry, bind, findEntry.
  destruct (lookupEntry id (glEntries db)) as [e|] eqn:He; [|reflexivity].
  destruct (decide (GLEntry.postingStatus e = pending)) as [Hp|Hp].
  - rewrite bool_decide_eq_true_2 by assumption. cbn [negb].
    now apply updateEntry_found.
  - rewrite bool_decide_eq_false_2 by assumption. reflexivity.
Qed.

Lemma reverseGLEntry_spec id actor now reason db :
  reason <> "" ->
  match lookupEntry id (glEntries db) with
  | None => reverseGLEntry id actor now reason db
            = (db, Thrown (NotFound "GL Entry"))
  | Some e =>
      if decide (GLEntry.postingStatus e = posted)
      then reverseGLEntry id actor now reason db =
             (withGl db
                (replaceEntry id (markReversed actor now reason) (glEntries db)),
              Returned (markReversed actor now reason e))
      else reverseGLEntry id actor now reason db
           = (db, Thrown InvalidState_notPosted)
  end.
Proof.
  intros Hr. apply nonEmpty_true in Hr.
  unfold reverseGLEntry, bind, findEntry. rewrite Hr. cbn [negb].
  destruct (lookupEntry id (glEntries db)) as [e|] eqn:He; [|reflexivity].
  destruct (decide (GLEntry.postingStatus e = posted)) as [Hp|Hp].
  - rewrite bool_decide_eq_true_2 by assumption. cbn [negb].
    now apply updateEntry_found.
  - rewrite bool_decide_eq_false_2 by assumption. reflexivity.
Qed.

Lemma reverseGLEntry_no_reason id actor now db :
  reverseGLEntry id actor now "" db = (db, Thrown MissingReason).
Proof. reflexivity. Qed.

Lemma markPosted_evolves actor now e :
  GLEntry.postingStatus e = pending -> entryEvolves e (markPosted actor now e).
Proof.
  intros H. unfold entryEvolves. cbn. rewrite H. auto 10 using step_post.
Qed.

Lemma markReversed_evolves actor now reason e :
  GLEntry.postingStatus e = posted ->
  entryEvolves e (markReversed actor now reason e).
Proof.
  intros H. unfold entryEvolves. cbn. rewrite H. auto 10 using step_reverse.
Qed.

Lemma postGLEntry_evolves id actor now db db' r :
  postGLEntry id actor now db = (db', r) -> ledgerEvolves db db'.
Proof.
  intros H. pose proof (postGLEntry_spec id actor now db) as Hs.
  destruct (lookupEntry id (glEntries db)) as [e|] eqn:He.
  - destruct (decide (GLEntry.postingStatus e = pending)) as [Hp|Hp];
      rewrite Hs in H; injection H as <- _; [|apply ledgerEvolves_refl].
    unfold ledgerEvolves. cbn [glEntries withGl].
    eapply replaceEntry_evolves; [exact He|]. now apply markPosted_evolves.
  - rewrite Hs in H. injection H as <- _. apply ledgerEvolves_refl.
Qed.

Lemma reverseGLEntry_evolves id actor now reason db db' r :
  reverseGLEntry id actor now reason db = (db', r) -> ledgerEvolves db db'.
Proof.
  intros H. destruct (String.eqb_spec reason "") as [->|Hr].
  { rewrite reverseGLEntry_no_reason in H. injection H as <- _.
    apply ledgerEvolves_refl. }
  pose proof (reverseGLEntry_spec id actor now reason db Hr) as Hs.
  destruct (lookupEntry id (glEntries db)) as [e|] eqn:He.
  - destruct (decide (GLEntry.postingStatus e = posted)) as [Hp|Hp];
      rewrite Hs in H; injection H as <- _; [|apply ledgerEvolves_refl].
    unfold ledgerEvolves. cbn [glEntries withGl].
    eapply replaceEntry_evolves; [exact He|]. now apply markReversed_evolves.
  - rewrite Hs in H. injection H as <- _. apply ledgerEvolves_refl.
Qed.

Lemma batchPostGLEntries_evolves entryIds actor now db db' r :
  batchPostGLEntries entryIds actor now db = (db', r) -> ledgerEvolves db db'.
Proof.
  intros H. destruct entryIds as [ids|]; cbn in H.
  - unfold updateManyEntries in H. injection H as <- _.
    unfold ledgerEvolves. cbn [glEntries withGl].
    apply Forall2_fmap_r, Forall_Forall2_diag, Forall_forall. intros x _.
    unfold batchSelects, compose.
    destruct (bool_decide (GLEntry.id x ∈ ids)); cbn [andb].
    + case_bool_decide as Hp.
      * now apply markPosted_evolves.
      * unfold entryEvolves. auto 10 using step_none.
    + unfold entryEvolves. auto 10 using step_none.
  - unfold throw in H. injection H as <- _. apply ledgerEvolves_refl.
Qed.

Lemma entryStatus_lookup id db s :
  entryStatus id db = Some s <->
  exists e, lookupEntry id (glEntries db) = Some e /\ GLEntry.postingStatus e = s.
Proof.
  unfold entryStatus. destruct (lookupEntry id (glEntries db)) as [e|]; cbn.
  - split; [intros [= <-]; eauto|intros (e' & [= <-] & <-); reflexivity].
  - split; [discriminate|intros (e' & He & _); discriminate].
Qed.

Lemma postGLEntry_returns id actor now db db' e :
  postGLEntry id actor now db = (db', Returned e) ->
  entryStatus id db = Some pending
  /\ entryStatus id db' = Some posted
  /\ glEntries db' = replaceEntry id (markPosted actor now) (glEntries db).
Proof.
  intros H. pose proof (postGLEntry_spec id actor now db) as Hs.
  unfold entryStatus.
  destruct (lookupEntry id (glEntries db)) as [x|] eqn:Hx;
    [|rewrite Hs in H; discriminate H].
  destruct (decide (GLEntry.postingStatus x = pending)) as [Hp|Hp];
    rewrite Hs in H; [|discriminate H].
  injection H as <- _. cbn [glEntries withGl].
  rewrite lookupEntry_replace by reflexivity. rewrite Hx. cbn.
  rewrite Hp. auto.
Qed.

Lemma reverseGLEntry_returns id actor now reason db db' e :
  reverseGLEntry id actor now reason db = (db', Returned e) ->
  reason <> ""
  /\ entryStatus id db = Some posted
  /\ entryStatus id db' = Some reversed
  /\ GLEntry.reversalReason e = Some reason.
Proof.
  intros H. destruct (String.eqb_spec reason "") as [->|Hr].
  { rewrite reverseGLEntry_no_reason in H. discriminate H. }
  pose proof (reverseGLEntry_spec id actor now reason db Hr) as Hs.
  unfold entryStatus.
  destruct (lookupEntry id (glEntries db)) as [x|] eqn:Hx;
    [|rewrite Hs in H; discriminate H].
  destruct (decide (GLEntry.postingStatus x = posted)) as [Hp|Hp];
    rewrite Hs in H; [|discriminate H].
  injection H as <- <-. cbn [glEntries withGl].
  rewrite lookupEntry_replace by reflexivity. rewrite Hx. cbn.
  rewrite Hp. auto.
Qed.

Lemma postGLEntry_others id actor now db db' r i :
  postGLEntry id actor now db = (db', r) -> i <> id ->
  lookupEntry i (glEntries db') = lookupEntry i (glEntries db).
Proof.
  intros H Hne. pose proof (postGLEntry_spec id actor now db) as Hs.
  destruct (lookupEntry id (glEntries db)) as [e|].
  - destruct (decide (GLEntry.postingStatus e = pending));
      rewrite Hs in H; injection H as <- _; [|reflexivity].
    cbn [glEntries withGl]. now apply lookupEntry_replace_ne.
  - rewrite Hs in H. injection H as <- _. reflexivity.
Qed.

Lemma reverseGLEntry_others id actor now reason db db' r i :
  reverseGLEntry id actor now reason db = (db', r) -> i <> id ->
  lookupEntry i (glEntries db') = lookupEntry i (glEntries db).
Proof.
  intros H Hne. destruct (String.eqb_spec reason "") as [->|Hr].
  { rewrite reverseGLEntry_no_reason in H. injection H as <- _. reflexivity. }
  pose proof (reverseGLEntry_spec id actor now reason db Hr) as Hs.
  destruct (lookupEntry id (glEntries db)) as [e|].
  - destruct (decide (GLEntry.postingStatus e = posted));
      rewrite Hs in H; injection H as <- _; [|reflexivity].
    cbn [glEntries withGl]. now apply lookupEntry_replace_ne.
  - rewrite Hs in H. injection H as <- _. reflexivity.
Qed.

(** C5.  The posting status of every entry moves only along pending,
    posted, reversed: whatever postGLEntry, reverseGLEntry or
    batchPostGLEntries answers, every row is still there and its status is
    unchanged or one step further.  postGLEntry returns exactly when the
    entry is pending and then leaves it posted, so that posting it again
    fails with InvalidState; on an entry in another status it fails with
    InvalidState and changes nothing.  reverseGLEntry returns only for a
    non-empty reason and an entry that is posted, which it leaves reversed
    with the reason recorded; on an entry in another status it fails with
    InvalidState; without a reason it fails with MissingReason, whatever the
    entry, and changes nothing.  Neither touches an entry with another
    id. *)
Theorem gl_posting_lifecycle (id actor : string) (now : Z) (reason : string)
    (db : Db) :
  (forall db' e, postGLEntry id actor now db = (db', Returned e) ->
      entryStatus id db = Some pending /\ entryStatus id db' = Some posted)
  /\ (entryStatus id db = Some pending ->
      exists db' e, postGLEntry id actor now db = (db', Returned e))
  /\ (forall s, entryStatus id db = Some s -> s <> pending ->
      postGLEntry id actor now db = (db, Thrown InvalidState_notPending))
  /\ (forall db' e, postGLEntry id actor now db = (db', Returned e) ->
      forall actor' now',
        postGLEntry id actor' now' db' = (db', Thrown InvalidState_notPending))
  /\ (forall db' e, reverseGLEntry id actor now reason db = (db', Returned e) ->
      reason <> "" /\ entryStatus id db = Some posted
      /\ entryStatus id db' = Some reversed
      /\ GLEntry.reversalReason e = Some reason)
  /\ (reason <> "" -> entryStatus id db = Some posted ->
      exists db' e, reverseGLEntry id actor now reason db = (db', Returned e))
  /\ (forall s, reason <> "" -> entryStatus id db = Some s -> s <> posted ->
      reverseGLEntry id actor now reason db = (db, Thrown InvalidState_notPosted))
  /\ reverseGLEntry id actor now "" db = (db, Thrown MissingReason)
  /\ (forall db' r i,
      postGLEntry id actor now db = (db', r)
      \/ reverseGLEntry id actor now reason db = (db', r) ->
      i <> id ->
      lookupEntry i (glEntries db') = lookupEntry i (glEntries db))
  /\ (forall db' r,
      postGLEntry id actor now db = (db', r)
      \/ reverseGLEntry id actor now reason db = (db', r) ->
      ledgerEvolves db db')
  /\ (forall db' r entryIds,
      batchPostGLEntries entryIds actor now db = (db', r) ->
      ledgerEvolves db db').
Proof.
  repeat apply conj.
  - intros db' e H. apply postGLEntry_returns in H. tauto.
  - intros Hs. apply entryStatus_lookup in Hs as (x & Hx & Hp).
    pose proof (postGLEntry_spec id actor now db) as H. rewrite Hx in H.
    destruct (decide (GLEntry.postingStatus x = pending)); [eauto|tauto].
  - intros s Hs Hne. apply entryStatus_lookup in Hs as (x & Hx & Hp).
    pose proof (postGLEntry_spec id actor now db) as H. rewrite Hx in H.
    destruct (decide (GLEntry.postingStatus x = pending)); [congruence|exact H].
  - intros db' e H actor' now'.
    apply postGLEntry_returns in H as (_ & Hs & _).
    apply entryStatus_lookup in Hs as (x & Hx & Hp).
    pose proof (postGLEntry_spec id actor' now' db') as H. rewrite Hx in H.
    destruct (decide (GLEntry.postingStatus x = pending)); [congruence|exact H].
  - intros db' e H. now apply reverseGLEntry_returns in H.
  - intros Hr Hs. apply entryStatus_lookup in Hs as (x & Hx & Hp).
    pose proof (reverseGLEntry_spec id actor now reason db Hr) as H.
    rewrite Hx in H.
    destruct (decide (GLEntry.postingStatus x = posted)); [eauto|tauto].
  - intros s Hr Hs Hne. apply entryStatus_lookup in Hs as (x & Hx & Hp).
    pose proof (reverseGLEntry_spec id actor now reason db Hr) as H.
    rewrite Hx in H.
    destruct (decide (GLEntry.postingStatus x = posted)); [congruence|exact H].
  - reflexivity.
  - intros db' r i [H|H] Hne.
    + eapply postGLEntry_others; eauto.
    + eapply reverseGLEntry_others; eauto.
  - intros db' r [H|H].
    + eapply postGLEntry_evolves; eauto.
    + eapply reverseGLEntry_evolves; eauto.
  - intros db' r ids H. eapply batchPostGLEntries_evolves; eauto.
Qed.

Lemma gl_posting_lifecycle_witness :
  (exists db' e,
      postGLEntry "e3" "admin" 20 Sample.glDb = (db', Returned e)
      /\ postGLEntry "e3" "admin" 21 db' = (db', Thrown InvalidState_notPending))
  /\ postGLEntry "e1" "admin" 20 Sample.glDb
     = (Sample.glDb, Thrown InvalidState_notPending)
  /\ reverseGLEntry "e3" "admin" 20 "wrong account" Sample.glDb
     = (Sample.glDb, Thrown InvalidState_notPosted)
  /\ exists db' e,
      reverseGLEntry "e1" "admin" 20 "wrong account" Sample.glDb
      = (db', Returned e).
Proof.
  destruct (gl_posting_lifecycle "e3" "admin" 20 "wrong account" Sample.glDb)
    as (_ & Hpost & _ & Htwice & _ & _ & Hrev & _).
  destruct (gl_posting_lifecycle "e1" "admin" 20 "wrong account" Sample.glDb)
    as (_ & _ & Hposted & _ & _ & Hreverse & _).
  split; [|split; [|split]].
  - destruct (Hpost eq_refl) as (db' & e & Hrun).
    exists db', e. split; [exact Hrun|]. exact (Htwice db' e Hrun "admin" 21).
  - apply (Hposted posted); [reflexivity|discriminate].
  - apply (Hrev pending); [discriminate|reflexivity|discriminate].
  - apply Hreverse; [discriminate|reflexivity].
Defined.

(** ** Batch posting *)

Lemma batchSelects_true ids e :
  batchSelects ids e = true
  <-> GLEntry.id e ∈ ids /\ GLEntry.postingStatus e = pending.
Proof.
  unfold batchSelects. rewrite andb_true_iff, !bool_decide_eq_true. tauto.
Qed.

Lemma batchPost_run ids actor now db :
  batchPostGLEntries (Some ids) actor now db =
    (withGl db
       (map (fun e => if batchSelects ids e then markPosted actor now e else e)
          (glEntries db)),
     Returned (length (filter (fun e => batchSelects ids e = true)
                         (glEntries db)))).
Proof. reflexivity. Qed.

Lemma map_unselected (sel : GLEntry.t -> bool) f l :
  (forall e, e ∈ l -> sel e = false) ->
  map (fun e => if sel e then f e else e) l = l
  /\ filter (fun e => sel e = true) l = [].
Proof.
  induction l as [|x l IH]; intros H; [split; reflexivity|].
  destruct IH as [IHm IHf].
  { intros e He. apply H. now apply list_elem_of_further. }
  assert (Hx : sel x = false) by (apply H; apply list_elem_of_here).
  cbn [map]. rewrite Hx, IHm. split; [reflexivity|].
  rewrite filter_cons_False by congruence. exact IHf.
Qed.

Lemma batchPost_leaves_none_selected ids actor now l e :
  e ∈ map (fun e => if batchSelects ids e then markPosted actor now e else e) l ->
  batchSelects ids e = false.
Proof.
  intros He. apply list_elem_of_fmap in He as (x & -> & _).
  destruct (batchSelects ids x) eqn:Hx; [|exact Hx].
  unfold batchSelects. cbn. now rewrite andb_false_r.
Qed.

Lemma entry_id_inj (l : list GLEntry.t) x y :
  NoDup (map GLEntry.id l) -> x ∈ l -> y ∈ l ->
  GLEntry.id x = GLEntry.id y -> x = y.
Proof.
  induction l as [|z l IH]; intros Hnd Hx Hy Hid.
  - now apply elem_of_nil in Hx.
  - cbn [map] in Hnd. apply NoDup_cons in Hnd as [Hz Hnd].
    apply elem_of_cons in Hx as [->|Hx]; apply elem_of_cons in Hy as [->|Hy].
    + reflexivity.
    + exfalso. apply Hz. rewrite Hid. now apply list_elem_of_fmap_2.
    + exfalso. apply Hz. rewrite <- Hid. now apply list_elem_of_fmap_2.
    + now apply IH.
Qed.

Lemma map_select_single (sel : GLEntry.t -> bool) f l e1 :
  NoDup (map GLEntry.id l) -> e1 ∈ l ->
  (forall e, e ∈ l -> sel e = true <-> e = e1) ->
  map (fun e => if sel e then f e else e) l = replaceEntry (GLEntry.id e1) f l
  /\ filter (fun e => sel e = true) l = [e1].
Proof.
  induction l as [|x l IH]; intros Hnd Hin Hsel.
  - now apply elem_of_nil in Hin.
  - pose proof Hnd as Hnd0.
    cbn [map] in Hnd. apply NoDup_cons in Hnd as [Hx Hnd].
    cbn [map replaceEntry].
    destruct (String.eqb_spec (GLEntry.id x) (GLEntry.id e1)) as [Hid|Hid].
    + assert (x = e1) as ->.
      { apply (entry_id_inj (x :: l)); auto. apply list_elem_of_here. }
      assert (Hs : sel e1 = true)
        by (apply Hsel; [apply list_elem_of_here|reflexivity]).
      rewrite Hs.
      destruct (map_unselected sel f l) as [Hm Hf].
      { intros e He. destruct (sel e) eqn:Hse; [|reflexivity].
        apply Hsel in Hse; [|now apply list_elem_of_further]. subst e.
        exfalso. apply Hx. now apply list_elem_of_fmap_2. }
      rewrite Hm. split; [reflexivity|].
      rewrite filter_cons_True by assumption. now rewrite Hf.
    + apply elem_of_cons in Hin as [->|Hin]; [congruence|].
      assert (Hs : sel x = false).
      { destruct (sel x) eqn:Hsx; [|reflexivity].
        apply Hsel in Hsx; [congruence|apply list_elem_of_here]. }
      rewrite Hs.
      destruct (IH Hnd Hin) as [IHm IHf].
      { intros e He. apply Hsel. now apply list_elem_of_further. }
      rewrite IHm. split; [reflexivity|].
      rewrite filter_cons_False by congruence. exact IHf.
Qed.

(** C7.  For every list of entry ids batchPostGLEntries raises no error; it
    marks posted exactly the rows whose id is listed and whose status is
    pending and leaves every other row, and every other table, as it was;
    the count it returns is the number of rows it has marked.  Repeating the
    call marks nothing and returns 0.  In particular, over a pending entry,
    a posted entry and an id that names no entry, it posts the pending entry
    only and returns 1. *)
Theorem batchPost_posts_listed_pending (ids : list string) (actor : string)
    (now : Z) (db : Db) :
  exists db',
    batchPostGLEntries (Some ids) actor now db
    = (db',
       Returned (length (filter (fun e => GLEntry.id e ∈ ids
                                          /\ GLEntry.postingStatus e = pending)
                           (glEntries db))))
    /\ Forall2 (fun e e' =>
                  if decide (GLEntry.id e ∈ ids
                             /\ GLEntry.postingStatus e = pending)
                  then e' = markPosted actor now e
                  else e' = e)
         (glEntries db) (glEntries db')
    /\ accounts db' = accounts db
    /\ transactions db' = transactions db
    /\ (forall actor' now',
          batchPostGLEntries (Some ids) actor' now' db' = (db', Returned 0%nat))
    /\ (forall e1 e2 i3,
          NoDup (map GLEntry.id (glEntries db)) ->
          e1 ∈ glEntries db -> GLEntry.postingStatus e1 = pending ->
          e2 ∈ glEntries db -> GLEntry.postingStatus e2 = posted ->
          i3 ∉ map GLEntry.id (glEntries db) ->
          batchPostGLEntries (Some [GLEntry.id e1; GLEntry.id e2; i3]) actor now db
          = (withGl db (replaceEntry (GLEntry.id e1) (markPosted actor now)
                          (glEntries db)),
             Returned 1%nat)).
Proof.
  eexists. split; [|split; [|split; [|split; [|split]]]].
  - rewrite batchPost_run. f_equal. f_equal. f_equal.
    apply list_filter_iff. intros e. apply batchSelects_true.
  - cbn [glEntries withGl].
    apply Forall2_fmap_r, Forall_Forall2_diag, Forall_forall. intros e _.
    unfold compose.
    destruct (decide (GLEntry.id e ∈ ids /\ GLEntry.postingStatus e = pending))
      as [Hs|Hs].
    + apply batchSelects_true in Hs. now rewrite Hs.
    + destruct (batchSelects ids e) eqn:Hb; [|reflexivity].
      apply batchSelects_true in Hb. tauto.
  - reflexivity.
  - reflexivity.
  - intros actor' now'. rewrite batchPost_run. cbn [glEntries withGl].
    destruct (map_unselected (batchSelects ids) (markPosted actor' now')
                (map (fun e => if batchSelects ids e
                               then markPosted actor now e else e)
                   (glEntries db))) as [Hm Hf].
    { intros e He. eapply batchPost_leaves_none_selected; eauto. }
    rewrite Hm, Hf. destruct db; reflexivity.
  - intros e1 e2 i3 Hnd H1 Hp1 H2 Hp2 H3. rewrite batchPost_run.
    destruct (map_select_single
                (batchSelects [GLEntry.id e1; GLEntry.id e2; i3])
                (markPosted actor now) (glEntries db) e1 Hnd H1) as [Hm Hf].
    { intros e He. rewrite batchSelects_true. split.
      - intros [Hid Hpe].
        apply elem_of_cons in Hid as [Hid|Hid];
          [now apply (entry_id_inj (glEntries db))|].
        apply elem_of_cons in Hid as [Hid|Hid].
        + assert (e = e2) by now apply (entry_id_inj (glEntries db)).
          subst. congruence.
        + apply list_elem_of_singleton in Hid. exfalso. apply H3.
          rewrite <- Hid. now apply list_elem_of_fmap_2.
      - intros ->. split; [apply list_elem_of_here|exact Hp1]. }
    rewrite Hm, Hf. reflexivity.
Qed.

Lemma sample_ledger_keys : NoDup (map GLEntry.id Sample.ledger).
Proof.
  cbn. repeat (apply NoDup_cons; split;
               [rewrite ?elem_of_cons, elem_of_nil; intuition discriminate|]).
  apply NoDup_nil. reflexivity.
Qed.

Lemma batchPost_posts_listed_pending_witness :
  exists db',
    batchPostGLEntries (Some ["e3"; "e1"; "zz"]) "admin" 20 Sample.glDb
    = (db', Returned 1%nat)
    /\ entryStatus "e3" db' = Some posted
    /\ batchPostGLEntries (Some ["e3"; "e1"; "zz"]) "admin" 21 db'
       = (db', Returned 0%nat).
Proof.
  destruct (batchPost_posts_listed_pending ["e3"; "e1"; "zz"] "admin" 20
              Sample.glDb) as (db' & Hrun & _ & _ & _ & Hagain & Hmixed).
  exists db'.
  pose proof (Hmixed (Sample.entry "e3" "1001" "Cash in Hand" debit 2500 10 pending)
                (Sample.entry "e1" "1001" "Cash in Hand" debit 10000000 10 posted)
                "zz" sample_ledger_keys) as Hone.
  cbn [GLEntry.id Sample.entry] in Hone. rewrite Hone in Hrun.
  - injection Hrun as <-. split; [reflexivity|]. split; [reflexivity|].
    apply Hagain.
  - unfold Sample.glDb, Sample.ledger. cbn [glEntries].
    rewrite !elem_of_cons. tauto.
  - reflexivity.
  - unfold Sample.glDb, Sample.ledger. cbn [glEntries].
    rewrite !elem_of_cons. tauto.
  - reflexivity.
  - unfold Sample.glDb, Sample.ledger. cbn [glEntries Sample.entry map GLEntry.id].
    rewrite !elem_of_cons, elem_of_nil. intuition discriminate.
Defined.

Lemma batchSelects_set ids ids' e :
  (forall i, i ∈ ids <-> i ∈ ids') -> batchSelects ids' e = batchSelects ids e.
Proof.
  intros H. unfold batchSelects. f_equal. apply bool_decide_ext. symmetry. apply H.
Qed.

Lemma batchPost_set ids ids' actor now db :
  (forall i, i ∈ ids <-> i ∈ ids') ->
  batchPostGLEntries (Some ids') actor now db
  = batchPostGLEntries (Some ids) actor now db.
Proof.
  intros H. rewrite !batchPost_run. f_equal; [f_equal|f_equal; f_equal].
  - apply map_ext. intros e. now rewrite (batchSelects_set ids ids').
  - apply list_filter_iff. intros e. now rewrite (batchSelects_set ids ids').
Qed.

Lemma lookupEntry_elem l e :
  NoDup (map GLEntry.id l) -> e ∈ l -> lookupEntry (GLEntry.id e) l = Some e.
Proof.
  intros Hnd He.
  destruct (lookupEntry (GLEntry.id e) l) as [x|] eqn:Hx.
  - apply lookupEntry_Some in Hx as [Hin Hid].
    f_equal. now apply (entry_id_inj l).
  - unfold lookupEntry in Hx.
    apply list_elem_of_In in He. apply (find_none _ _ Hx e) in He.
    now rewrite String.eqb_refl in He.
Qed.

Lemma pendingIn_elem db i :
  NoDup (map GLEntry.id (glEntries db)) ->
  pendingIn db i <->
  exists e, e ∈ glEntries db /\ GLEntry.id e = i
            /\ GLEntry.postingStatus e = pending.
Proof.
  intros Hnd. unfold pendingIn. rewrite entryStatus_lookup. split.
  - intros (e & He & Hp). apply lookupEntry_Some in He as [Hin Hid]. eauto.
  - intros (e & Hin & <- & Hp). exists e. split; [|exact Hp].
    now apply lookupEntry_elem.
Qed.

Lemma batchPost_count_distinct ids db :
  NoDup (map GLEntry.id (glEntries db)) ->
  length (filter (fun e => batchSelects ids e = true) (glEntries db))
  = length (filter (pendingIn db) (remove_dups ids)).
Proof.
  intros Hnd.
  rewrite <- (length_map GLEntry.id).
  apply Permutation_length, NoDup_Permutation.
  - apply (NoDup_fmap_2_strong GLEntry.id).
    + intros x y Hx Hy. apply list_elem_of_filter in Hx as [_ Hx].
      apply list_elem_of_filter in Hy as [_ Hy].
      now apply (entry_id_inj (glEntries db)).
    + apply NoDup_filter. now apply (NoDup_fmap_1 GLEntry.id).
  - apply NoDup_filter, NoDup_remove_dups.
  - intros i. rewrite list_elem_of_filter, elem_of_remove_dups.
    rewrite (pendingIn_elem db i Hnd). split.
    + intros Hi. apply list_elem_of_fmap in Hi as (e & -> & He).
      apply list_elem_of_filter in He as [Hs He].
      apply batchSelects_true in Hs as [Hid Hp]. eauto.
    + intros [(e & He & <- & Hp) Hi].
      apply list_elem_of_fmap_2, list_elem_of_filter. split; [|exact He].
      now apply batchSelects_true.
Qed.

(** C9.  The result of batchPostGLEntries, the count and the rows it marks,
    depends only on the set of the listed ids: two lists with the same
    members give the same result, so an id listed again adds nothing to the
    count and changes no row that was not already changed.  With the
    identifier a key of the table, the count is the number of distinct
    listed ids that name a pending entry. *)
Theorem batchPost_counts_distinct_pending (ids : list string) (actor : string)
    (now : Z) (db : Db) :
  (forall ids', (forall i, i ∈ ids <-> i ∈ ids') ->
     batchPostGLEntries (Some ids') actor now db
     = batchPostGLEntries (Some ids) actor now db)
  /\ (forall i, i ∈ ids ->
     batchPostGLEntries (Some (i :: ids)) actor now db
     = batchPostGLEntries (Some ids) actor now db)
  /\ (NoDup (map GLEntry.id (glEntries db)) ->
     exists db',
       batchPostGLEntries (Some ids) actor now db
       = (db', Returned (length (filter (pendingIn db) (remove_dups ids)))))
  /\ (forall db' count,
     batchPostGLEntries (Some ids) actor now db = (db', Returned count) ->
     Forall2 (fun e e' =>
                e' = e
                \/ GLEntry.postingStatus e = pending
                   /\ e' = markPosted actor now e)
       (glEntries db) (glEntries db')).
Proof.
  split; [|split; [|split]].
  - intros ids' H. now apply batchPost_set.
  - intros i Hi. apply batchPost_set. intros j. rewrite elem_of_cons.
    split; [auto|]. intros [->|Hj]; assumption.
  - intros Hnd. rewrite batchPost_run, (batchPost_count_distinct ids db Hnd).
    eauto.
  - intros db' count Hrun. rewrite batchPost_run in Hrun.
    injection Hrun as <- _. cbn [glEntries withGl].
    apply Forall2_fmap_r, Forall_Forall2_diag, Forall_forall. intros e _.
    unfold compose. destruct (batchSelects ids e) eqn:Hs; [|now left].
    apply batchSelects_true in Hs as [_ Hp]. right. auto.
Qed.

Lemma batchPost_counts_distinct_pending_witness :
  batchPostGLEntries (Some ["e3"; "e1"; "e3"; "e3"]) "admin" 20 Sample.glDb
  = batchPostGLEntries (Some ["e1"; "e3"]) "admin" 20 Sample.glDb
  /\ exists db',
      batchPostGLEntries (Some ["e3"; "e1"; "e3"; "e3"]) "admin" 20 Sample.glDb
      = (db', Returned 1%nat).
Proof.
  destruct (batchPost_counts_distinct_pending ["e1"; "e3"] "admin" 20
              Sample.glDb) as (Hset & _).
  destruct (batchPost_counts_distinct_pending ["e3"; "e1"; "e3"; "e3"] "admin"
              20 Sample.glDb) as (_ & _ & Hcount & _).
  split.
  - apply Hset. intros i. rewrite !elem_of_cons, elem_of_nil. tauto.
  - destruct (Hcount sample_ledger_keys) as (db' & Hrun).
    exists db'. rewrite Hrun. reflexivity.
Defined.

(** ** The trial balance: the map of the accounts *)

Section JsMapFacts.
Context {V : Type}.
Implicit Types (m : list (string * V)) (k : string) (v : V).

Lemma mapGet_set_eq k v m : mapGet k (mapSet k v m) = Some v.
Proof.
  induction m as [|[k' v'] m IH]; cbn.
  - now rewrite String.eqb_refl.
  - destruct (String.eqb k' k) eqn:Hk; cbn.
    + now rewrite String.eqb_refl.
    + now rewrite Hk.
Qed.

Lemma mapGet_set_ne k k' v m : k' <> k -> mapGet k' (mapSet k v m) = mapGet k' m.
Proof.
  intros Hne. induction m as [|[k0 v0] m IH]; cbn.
  - destruct (String.eqb_spec k k'); [congruence|reflexivity].
  - destruct (String.eqb_spec k0 k) as [->|Hk]; cbn.
    + destruct (String.eqb_spec k k'); [congruence|].
      destruct (String.eqb_spec k k'); [congruence|reflexivity].
    + destruct (String.eqb k0 k'); [reflexivity|exact IH].
Qed.

Lemma mapGet_None_keys k m : mapGet k m = None <-> k ∉ map fst m.
Proof.
  induction m as [|[k' v'] m IH]; cbn.
  - split; [intros _; apply not_elem_of_nil|reflexivity].
  - rewrite not_elem_of_cons. destruct (String.eqb_spec k' k) as [->|Hk].
    + split; [discriminate|tauto].
    + rewrite IH. split; [intros H; split; [congruence|exact H]|tauto].
Qed.

Lemma mapGet_Some_keys k m : is_Some (mapGet k m) <-> k ∈ map fst m.
Proof.
  rewrite <- not_eq_None_Some, mapGet_None_keys.
  split; [apply dec_stable|auto].
Qed.

Lemma mapSet_keys_present k v m :
  k ∈ map fst m -> map fst (mapSet k v m) = map fst m.
Proof.
  induction m as [|[k' v'] m IH]; cbn; intros Hin.
  - now apply elem_of_nil in Hin.
  - destruct (String.eqb_spec k' k) as [->|Hk]; cbn; [reflexivity|].
    apply elem_of_cons in Hin as [->|Hin]; [congruence|]. now rewrite IH.
Qed.

Lemma mapSet_keys_absent k v m :
  k ∉ map fst m -> map fst (mapSet k v m) = (map fst m ++ [k])%list.
Proof.
  induction m as [|[k' v'] m IH]; cbn; intros Hin; [reflexivity|].
  apply not_elem_of_cons in Hin as [Hne Hin].
  destruct (String.eqb_spec k' k) as [->|Hk]; cbn; [congruence|].
  now rewrite IH.
Qed.

Lemma mapGet_elem k v m : NoDup (map fst m) -> (k, v) ∈ m -> mapGet k m = Some v.
Proof.
  induction m as [|[k' v'] m IH]; cbn; intros Hnd Hin.
  - now apply elem_of_nil in Hin.
  - apply NoDup_cons in Hnd as [Hk' Hnd].
    apply elem_of_cons in Hin as [[= -> ->]|Hin].
    + now rewrite String.eqb_refl.
    + destruct (String.eqb_spec k' k) as [->|_]; [|now apply IH].
      exfalso. apply Hk'. now apply (list_elem_of_fmap_2 fst _ (k, v)).
Qed.

End JsMapFacts.

Section ReportFacts.
Context {num : JsArith}.

Lemma sideOf_snoc code dir gs g :
  sideOf code dir (gs ++ [g]) =
    if decide (g_accountCode g = code /\ g_type g = dir)
    then nadd (sideOf code dir gs) (orZero (toNumber (g_sum g)))
    else sideOf code dir gs.
Proof.
  unfold sideOf. rewrite filter_app, fold_left_app.
  destruct (decide (g_accountCode g = code /\ g_type g = dir)) as [H|H].
  - rewrite filter_cons_True by exact H. reflexivity.
  - rewrite filter_cons_False by exact H. reflexivity.
Qed.

Lemma sideOf_absent code dir gs :
  code ∉ map g_accountCode gs -> sideOf code dir gs = nzero.
Proof.
  intros Hno. unfold sideOf.
  replace (filter (fun g => g_accountCode g = code /\ g_type g = dir) gs)
    with (@nil Group); [reflexivity|].
  symmetry. induction gs as [|g gs IH]; [reflexivity|].
  cbn [map] in Hno. apply not_elem_of_cons in Hno as [Hne Hno].
  rewrite filter_cons_False by (intros [? _]; congruence). now apply IH.
Qed.

(** What the loop has built after the groups [gs]. *)
Lemma addGroup_fold gs :
  let m := fold_left addGroup gs [] in
  NoDup (map fst m)
  /\ (forall k, k ∈ map fst m <-> k ∈ map g_accountCode gs)
  /\ (forall k r, mapGet k m = Some r ->
        accountCode r = k
        /\ tb_debit r = sideOf k debit gs
        /\ tb_credit r = sideOf k credit gs).
Proof.
  induction gs as [|g gs IH] using rev_ind.
  { cbn. split; [apply NoDup_nil; reflexivity|]. split; [reflexivity|discriminate]. }
  cbv zeta in *. rewrite fold_left_app. cbn [fold_left].
  set (m := fold_left addGroup gs []) in *.
  destruct IH as (Hnd & Hkeys & Hrows).
  set (key := g_accountCode g).
  set (x := orZero (toNumber (g_sum g))).
  (* the row of [key] before this group is added to it *)
  assert (Hstart : exists m1 account,
             mapGet key m1 = Some account
             /\ accountCode account = key
             /\ tb_debit account = sideOf key debit gs
             /\ tb_credit account = sideOf key credit gs
             /\ NoDup (map fst m1)
             /\ (forall k, k ∈ map fst m1 <-> k ∈ map g_accountCode (gs ++ [g]))
             /\ (forall k, k <> key -> mapGet k m1 = mapGet k m)
             /\ addGroup m g =
                if bool_decide (g_type g = debit)
                then mapSet key
                       (mkTBRow (accountCode account) (accountName account)
                          (nadd (tb_debit account) x) (tb_credit account)) m1
                else mapSet key
                       (mkTBRow (accountCode account) (accountName account)
                          (tb_debit account) (nadd (tb_credit account) x)) m1).
  { unfold addGroup. fold key. fold x. unfold mapHas.
    destruct (mapGet key m) as [account|] eqn:Hget; cbn [negb].
    - exists m, account. rewrite Hget.
      destruct (Hrows key account Hget) as (Hc & Hd & Hcr).
      repeat split; try assumption.
      + intros Hk. rewrite map_app, elem_of_app. left. now apply Hkeys.
      + rewrite map_app, elem_of_app. intros [Hk|Hk]; [now apply Hkeys|].
        apply list_elem_of_singleton in Hk. subst k.
        apply mapGet_Some_keys. eauto.
    - pose proof (proj1 (mapGet_None_keys key m) Hget) as Hno.
      exists (mapSet key (mkTBRow (g_accountCode g) (g_accountName g) nzero nzero) m),
             (mkTBRow (g_accountCode g) (g_accountName g) nzero nzero).
      rewrite mapGet_set_eq.
      assert (Hno' : key ∉ map g_accountCode gs) by (now rewrite <- Hkeys).
      rewrite !(sideOf_absent key) by assumption.
      rewrite (mapSet_keys_absent _ _ _ Hno).
      repeat split; try reflexivity.
      + apply NoDup_app. split; [exact Hnd|]. split.
        * intros k Hk Hk'. apply list_elem_of_singleton in Hk'. now subst.
        * apply NoDup_singleton.
      + rewrite map_app, !elem_of_app. rewrite Hkeys. tauto.
      + rewrite map_app, !elem_of_app. rewrite Hkeys. tauto.
      + intros k Hk. now apply mapGet_set_ne.
      + change (g_accountCode g) with key. now rewrite mapGet_set_eq. }
  destruct Hstart as (m1 & account & Hget & Hc & Hd & Hcr & Hnd1 & Hkeys1
                      & Hother & ->).
  assert (Hin : key ∈ map fst m1) by (apply mapGet_Some_keys; eauto).
  split; [|split].
  - destruct (bool_decide (g_type g = debit));
      now rewrite mapSet_keys_present.
  - intros k.
    destruct (bool_decide (g_type g = debit));
      rewrite mapSet_keys_present by assumption; apply Hkeys1.
  - intros k r Hr. rewrite !sideOf_snoc. fold key.
    destruct (String.eqb_spec k key) as [->|Hk].
    + case_bool_decide as Ht; rewrite mapGet_set_eq in Hr;
        injection Hr as <-; cbn [accountCode tb_debit tb_credit].
      * rewrite Ht.
        rewrite decide_True by auto. rewrite decide_False by (intros [_ ?]; discriminate).
        rewrite Hd, Hcr. auto.
      * assert (g_type g = credit) as -> by (destruct (g_type g); congruence).
        rewrite decide_False by (intros [_ ?]; discriminate).
        rewrite decide_True by auto.
        rewrite Hd, Hcr. auto.
    + rewrite !decide_False by (intros [? _]; congruence).
      apply Hrows. rewrite <- Hother by assumption.
      destruct (bool_decide (g_type g = debit));
        now rewrite mapGet_set_ne in Hr.
Qed.

Lemma reportOf_rows gs :
  let rows := tb_accounts (reportOf gs) in
  NoDup (map accountCode rows)
  /\ (forall c, c ∈ map accountCode rows <-> c ∈ map g_accountCode gs)
  /\ (forall r, r ∈ rows ->
        tb_debit r = sideOf (accountCode r) debit gs
        /\ tb_credit r = sideOf (accountCode r) credit gs).
Proof.
  cbv zeta. unfold reportOf. cbn [tb_accounts]. unfold mapValues.
  destruct (addGroup_fold gs) as (Hnd & Hkeys & Hrows). cbv zeta in *.
  set (m := fold_left addGroup gs []) in *.
  assert (Hcode : forall kr, kr ∈ m -> accountCode kr.2 = kr.1).
  { intros [k r] Hin. apply (Hrows k r). now apply mapGet_elem. }
  assert (Hcodes : map accountCode (map snd m) = map fst m).
  { rewrite map_map. apply map_ext_in. intros kr Hin. apply Hcode.
    now apply list_elem_of_In. }
  rewrite Hcodes. split; [exact Hnd|]. split; [exact Hkeys|].
  intros r Hr. apply list_elem_of_fmap in Hr as ([k r'] & -> & Hin).
  cbn [snd]. pose proof (Hcode _ Hin) as Hk. cbn in Hk. rewrite Hk.
  apply (Hrows k r'). now apply mapGet_elem.
Qed.

End ReportFacts.

(** ** The trial balance: the groups *)

Lemma groupBy_codes es c :
  c ∈ map g_accountCode (groupBy es)
  <-> exists e, e ∈ es /\ GLEntry.accountCode e = c.
Proof.
  unfold groupBy. rewrite map_map. cbn [g_accountCode]. split.
  - intros Hc. apply list_elem_of_fmap in Hc as (k & -> & Hk).
    apply elem_of_remove_dups, list_elem_of_fmap in Hk as (e & -> & He).
    exists e. auto.
  - intros (e & He & <-).
    apply (list_elem_of_fmap_2' _ _ (keyOf e)); [|reflexivity].
    apply elem_of_remove_dups. now apply list_elem_of_fmap_2.
Qed.

Lemma groupBy_groups es g :
  g ∈ groupBy es ->
  (exists e, e ∈ es /\ keyOf e = (g_accountCode g, g_accountName g, g_type g))
  /\ g_sum g =
     sumAmounts (filter (fun e => keyOf e
                                  = (g_accountCode g, g_accountName g, g_type g))
                   es).
Proof.
  unfold groupBy. intros Hg.
  apply list_elem_of_fmap in Hg as ([[c n] t] & -> & Hk). cbn.
  apply elem_of_remove_dups, list_elem_of_fmap in Hk as (e & Hke & He).
  split; [exists e; auto|reflexivity].
Qed.

Lemma groupBy_keys es :
  NoDup (map (fun g => (g_accountCode g, g_accountName g, g_type g))
           (groupBy es)).
Proof.
  unfold groupBy. rewrite map_map. cbn.
  rewrite (map_ext _ (fun k : GroupKey => k)) by (now intros [[c n] t]).
  rewrite map_id. apply NoDup_remove_dups.
Qed.

Section TrialBalanceHandler.
Context {num : JsArith} {order : GroupOrder}.

Lemma trialBalance_run now asOfDate db :
  trialBalance now asOfDate db
  = (db,
     Returned
       (reportOf (answered (groupBy (postedAsOf (default now asOfDate) db))))).
Proof.
  unfold trialBalance, bind, groupEntries, ret, postedAsOf.
  do 5 f_equal. apply list_filter_iff. intros e. unfold reportSelects.
  rewrite andb_true_iff, bool_decide_eq_true, Z.leb_le. reflexivity.
Qed.

Lemma answered_elem (gs : list Group) g : g ∈ answered gs <-> g ∈ gs.
Proof. now rewrite (answered_perm gs). Qed.

Lemma answered_codes (gs : list Group) c :
  c ∈ map g_accountCode (answered gs) <-> c ∈ map g_accountCode gs.
Proof.
  change (c ∈ g_accountCode <$> answered gs <-> c ∈ g_accountCode <$> gs).
  now rewrite (answered_perm gs).
Qed.

End TrialBalanceHandler.

(** ** The trial balance: what it reports *)

Lemma postedAsOf_elem asOf db e :
  e ∈ postedAsOf asOf db
  <-> e ∈ glEntries db /\ GLEntry.postingStatus e = posted
      /\ GLEntry.postingDate e <= asOf.
Proof. unfold postedAsOf. rewrite list_elem_of_filter. tauto. Qed.

(** X21.  For every asOfDate, in any number arithmetic and whatever the
    order in which the database answers the groups, trialBalance returns
    and leaves the database as it was, and its rows are about exactly the
    entries that are posted and dated at or before asOfDate (the clock when
    asOfDate is absent): no two rows have the same account code; a code
    has a row exactly when such an entry has it; the groups answered are
    those of these entries, each with the exact sum of the amounts of its
    entries; and a row's debit and credit are the sums of its debit and of
    its credit groups, converted to numbers and added in the order
    answered. *)
Theorem trialBalance_rows_of_posted (num : JsArith) (order : GroupOrder)
    (now : Z) (asOfDate : option Z) (db : Db) :
  let asOf := default now asOfDate in
  let es := postedAsOf asOf db in
  exists report,
    trialBalance now asOfDate db = (db, Returned report)
    /\ NoDup (map accountCode (tb_accounts report))
    /\ (forall c, c ∈ map accountCode (tb_accounts report) <->
           exists e, e ∈ glEntries db
                     /\ GLEntry.postingStatus e = posted
                     /\ GLEntry.postingDate e <= asOf
                     /\ GLEntry.accountCode e = c)
    /\ (forall r, r ∈ tb_accounts report ->
           tb_debit r = sideOf (accountCode r) debit (answered (groupBy es))
           /\ tb_credit r
              = sideOf (accountCode r) credit (answered (groupBy es)))
    /\ answered (groupBy es) ≡ₚ groupBy es
    /\ NoDup (map (fun g => (g_accountCode g, g_accountName g, g_type g))
                (groupBy es))
    /\ (forall g, g ∈ groupBy es ->
           (exists e, e ∈ es
                      /\ keyOf e = (g_accountCode g, g_accountName g, g_type g))
           /\ g_sum g
              = sumAmounts
                  (filter (fun e => keyOf e
                                    = (g_accountCode g, g_accountName g, g_type g))
                     es)).
Proof.
  intros asOf es. eexists. split; [apply trialBalance_run|].
  fold asOf. fold es.
  destruct (reportOf_rows (answered (groupBy es))) as (Hnd & Hcodes & Hrows).
  split; [exact Hnd|]. split; [|split; [exact Hrows|]].
  - intros c. rewrite (Hcodes c), answered_codes, groupBy_codes. unfold es.
    split; intros (e & He & Hc); exists e.
    + apply postedAsOf_elem in He. tauto.
    + split; [apply postedAsOf_elem|]; tauto.
  - split; [apply answered_perm|]. split; [apply groupBy_keys|].
    intros g Hg. now apply groupBy_groups.
Qed.

(** C6 fails on ordinary data.  With posted debits of 0.10 and 0.20 and a
    posted credit of 0.30 the total of the debits equals the total of the
    credits, yet the report, which adds them as JavaScript numbers, says
    balanced: false, in whatever order the database answers the groups: the
    debits come to 0.30000000000000004 (0x1.3333333333334p-2) and the
    credits to 0.3 (0x1.3333333333333p-2). *)
Theorem doubles_unbalance_equal_totals :
  sumOfAll debit (postedAsOf 20 Sample.centsDb) = 30
  /\ sumOfAll credit (postedAsOf 20 Sample.centsDb) = 30
  /\ forall order : GroupOrder,
      exists report,
        @trialBalance (doubleNumber Sample.scale) order 20 None Sample.centsDb
        = (Sample.centsDb, Returned report)
        /\ @total_debit (doubleNumber Sample.scale) (tb_totals report)
           = 0x1.3333333333334p-2%float
        /\ @total_credit (doubleNumber Sample.scale) (tb_totals report)
           = 0x1.3333333333333p-2%float
        /\ @balanced (doubleNumber Sample.scale) (tb_totals report) = false.
Proof.
  split; [reflexivity|]. split; [reflexivity|].
  intros order. rewrite trialBalance_run. eexists. split; [reflexivity|].
  pose proof (answered_perm
                (groupBy (postedAsOf (default 20 None) Sample.centsDb))) as Hp.
  symmetry in Hp. apply permutations_Permutation in Hp.
  remember (answered (groupBy (postedAsOf (default 20 None) Sample.centsDb)))
    as gs eqn:Hgs.
  clear Hgs. vm_compute in Hp.
  repeat (apply elem_of_cons in Hp as [->|Hp]);
    [vm_compute; repeat split ..|].
  now apply elem_of_nil in Hp.
Qed.

Lemma postedAsOf_none asOf db :
  (forall e, e ∈ glEntries db ->
     ~ (GLEntry.postingStatus e = posted /\ GLEntry.postingDate e <= asOf)) ->
  postedAsOf asOf db = [].
Proof.
  intros Hnone. unfold postedAsOf.
  induction (glEntries db) as [|e l IH]; [reflexivity|].
  rewrite filter_cons_False by (apply Hnone, list_elem_of_here).
  apply IH. intros x Hx. apply Hnone. now apply list_elem_of_further.
Qed.

(** C10.  When no entry is posted and dated at or before asOfDate, the
    report has no rows, both totals are the number 0 and balanced is true
    (0 === 0); the handler returns normally and leaves the database as it
    was. *)
Theorem trialBalance_of_nothing (num : JsArith) (order : GroupOrder) (now : Z)
    (asOfDate : option Z) (db : Db) :
  strictEq nzero nzero = true ->
  (forall e, e ∈ glEntries db ->
     ~ (GLEntry.postingStatus e = posted
        /\ GLEntry.postingDate e <= default now asOfDate)) ->
  trialBalance now asOfDate db
  = (db, Returned (mkTBReport [] (mkTBTotals nzero nzero true))).
Proof.
  intros Hzero Hnone.
  rewrite trialBalance_run, (postedAsOf_none _ _ Hnone).
  assert (Hnil : answered (groupBy []) = []).
  { apply Permutation_nil_r. apply answered_perm. }
  rewrite Hnil. unfold reportOf. cbn. now rewrite Hzero.
Qed.

Lemma trialBalance_of_nothing_witness :
  @trialBalance (doubleNumber Sample.scale) backwards 20 (Some 5) Sample.glDb
  = (Sample.glDb,
     Returned (@mkTBReport (doubleNumber Sample.scale) []
                 (@mkTBTotals (doubleNumber Sample.scale) 0%float 0%float true)))
  /\ @trialBalance exactNumber asGrouped 20 (Some 5) Sample.glDb
     = (Sample.glDb,
        Returned (@mkTBReport exactNumber []
                    (@mkTBTotals exactNumber 0 0 true))).
Proof.
  split.
  - apply (trialBalance_of_nothing (doubleNumber Sample.scale) backwards 20
             (Some 5) Sample.glDb eq_refl).
    intros e He [_ Hdate].
    unfold Sample.glDb, Sample.ledger in He. cbn [glEntries] in He.
    rewrite !elem_of_cons, elem_of_nil in He.
    destruct He as [->|[->|[->|[->|[]]]]]; cbn in Hdate; lia.
  - apply (trialBalance_of_nothing exactNumber asGrouped 20 (Some 5)
             Sample.glDb eq_refl).
    intros e He [_ Hdate].
    unfold Sample.glDb, Sample.ledger in He. cbn [glEntries] in He.
    rewrite !elem_of_cons, elem_of_nil in He.
    destruct He as [->|[->|[->|[->|[]]]]]; cbn in Hdate; lia.
Defined.

(** * Further properties of the routes *)

(** ** Transfers: what is refused *)

(** X1.  An internal transfer whose source and destination are the same
    identifier fails with SameAccount and changes nothing, whatever the
    amount and whether or not the account exists, is active or has funds. *)
Theorem transferInternal_same_account
    (decimalOfString : string -> option Decimal) (now : Z)
    (body : InternalBody.t) (db : Db) :
  InternalBody.fromAccountId body <> "" ->
  InternalBody.toAccountId body = InternalBody.fromAccountId body ->
  truthy (InternalBody.amount body) = true ->
  transferInternal decimalOfString now body db = (db, Thrown SameAccount).
Proof.
  intros Hf Hsame Htr. unfold transferInternal. cbv zeta.
  rewrite Hsame. apply nonEmpty_true in Hf. rewrite Hf, Htr. cbn [negb orb].
  now rewrite String.eqb_refl.
Qed.

Lemma transferInternal_same_account_witness :
  transferInternal Sample.wholeUnits 7
    (InternalBody.mk "acc1" "acc1" (JsNumber 100) None) Sample.db
  = (Sample.db, Thrown SameAccount)
  /\ transferInternal Sample.wholeUnits 7
       (InternalBody.mk "nobody" "nobody" (JsString "junk") None) Sample.db
     = (Sample.db, Thrown SameAccount).
Proof.
  split.
  - exact (transferInternal_same_account Sample.wholeUnits 7
             (InternalBody.mk "acc1" "acc1" (JsNumber 100) None) Sample.db
             ltac:(vm_compute; congruence) eq_refl eq_refl).
  - exact (transferInternal_same_account Sample.wholeUnits 7
             (InternalBody.mk "nobody" "nobody" (JsString "junk") None)
             Sample.db ltac:(vm_compute; congruence) eq_refl eq_refl).
Defined.

Lemma not_active_failed (a : Account.t) :
  Account.status a <> active ->
  negb (bool_decide (Account.status a = active)) = true.
Proof. intros H. now rewrite bool_decide_eq_false_2. Qed.

(** X2.  An internal transfer between two distinct identifiers checks the
    accounts before it reads the amount: a missing source gives 'Source
    account not found', then a missing destination 'Destination account not
    found', then a source that is not active 'Source account is not
    active', then a destination that is not active 'Destination account is
    not active'.  Each is thrown whatever the amount is worth, and nothing
    is written. *)
Theorem transferInternal_checks_accounts
    (decimalOfString : string -> option Decimal) (now : Z)
    (body : InternalBody.t) (db : Db) :
  InternalBody.fromAccountId body <> "" ->
  InternalBody.toAccountId body <> "" ->
  InternalBody.fromAccountId body <> InternalBody.toAccountId body ->
  truthy (InternalBody.amount body) = true ->
  (accounts db !! InternalBody.fromAccountId body = None ->
     transferInternal decimalOfString now body db
     = (db, Thrown (AppError "Source account not found" 404)))
  /\ (forall A,
     accounts db !! InternalBody.fromAccountId body = Some A ->
     accounts db !! InternalBody.toAccountId body = None ->
     transferInternal decimalOfString now body db
     = (db, Thrown (AppError "Destination account not found" 404)))
  /\ (forall A B,
     accounts db !! InternalBody.fromAccountId body = Some A ->
     accounts db !! InternalBody.toAccountId body = Some B ->
     Account.status A <> active ->
     transferInternal decimalOfString now body db
     = (db, Thrown (AppError "Source account is not active" 400)))
  /\ (forall A B,
     accounts db !! InternalBody.fromAccountId body = Some A ->
     accounts db !! InternalBody.toAccountId body = Some B ->
     Account.status A = active ->
     Account.status B <> active ->
     transferInternal decimalOfString now body db
     = (db, Thrown (AppError "Destination account is not active" 400))).
Proof.
  intros Hf Ht Hne Htr.
  apply nonEmpty_true in Hf, Ht.
  assert (Hgo : forall k : Handler (Transaction.t * Transaction.t),
            (if negb (nonEmpty (InternalBody.fromAccountId body))
                || negb (nonEmpty (InternalBody.toAccountId body))
                || negb (truthy (InternalBody.amount body))
             then throw (AppError
                           "From account, to account, and amount are required"
                           400)
             else if String.eqb (InternalBody.fromAccountId body)
                       (InternalBody.toAccountId body)
             then throw SameAccount else k) db
            = k db).
  { intros k. rewrite Hf, Ht, Htr. cbn [negb orb].
    destruct (String.eqb_spec (InternalBody.fromAccountId body)
                (InternalBody.toAccountId body)) as [|_]; [congruence|].
    reflexivity. }
  split; [|split; [|split]]; intros;
    unfold transferInternal; cbv zeta; rewrite Hgo;
    unfold bind at 1, findAccount at 1; unfold bind at 1, findAccount at 1.
  - rewrite H. now destruct (accounts db !! InternalBody.toAccountId body).
  - rewrite H, H0. reflexivity.
  - rewrite H, H0. now rewrite (not_active_failed A H1).
  - rewrite H, H0. rewrite bool_decide_eq_true_2 by assumption. cbn [negb].
    now rewrite (not_active_failed B H2).
Qed.

Lemma transferInternal_checks_accounts_witness :
  transferInternal Sample.wholeUnits 7
    (InternalBody.mk "nobody" "acc3" (JsNumber 100) None) Sample.db
  = (Sample.db, Thrown (AppError "Source account not found" 404))
  /\ transferInternal Sample.wholeUnits 7
       (InternalBody.mk "acc1" "acc3" (JsString "junk") None) Sample.db
     = (Sample.db, Thrown (AppError "Destination account is not active" 400)).
Proof.
  split.
  - destruct (transferInternal_checks_accounts Sample.wholeUnits 7
                (InternalBody.mk "nobody" "acc3" (JsNumber 100) None) Sample.db
                ltac:(vm_compute; congruence) ltac:(vm_compute; congruence) ltac:(vm_compute; congruence) eq_refl)
      as (Hsrc & _).
    apply Hsrc. reflexivity.
  - destruct (transferInternal_checks_accounts Sample.wholeUnits 7
                (InternalBody.mk "acc1" "acc3" (JsString "junk") None) Sample.db
                ltac:(vm_compute; congruence) ltac:(vm_compute; congruence) ltac:(vm_compute; congruence) eq_refl)
      as (_ & _ & _ & Hdst).
    apply (Hdst (Sample.account "100100001001" "cust1" 15000000 active)
             (Sample.account "100100001003" "cust2" 500000 frozen));
      try reflexivity; discriminate.
Defined.

(** ** Transfers on the deferred rail *)

(** X4.  A deferred (NEFT) transfer from an active account with enough
    available balance returns; both balances of the source have decreased by
    the amount, no other account has changed, and exactly one Transaction
    row has been appended: a debit of that amount in mode neft with status
    pending, not yet processed, with no destination account, carrying the
    beneficiary's name, account, bank and IFSC and the source's new balance
    as balanceAfter.  The rail has no ceiling: any amount the balance covers
    is accepted. *)
Theorem transferNeft_debits_and_defers
    (decimalOfString : string -> option Decimal)
    (body : RailBody.t) (db : Db) (A : Account.t) (m : Decimal) :
  RailBody.fromAccountId body <> "" ->
  RailBody.beneficiaryAccount body <> "" ->
  RailBody.beneficiaryName body <> "" ->
  RailBody.beneficiaryIfsc body <> "" ->
  truthy (RailBody.amount body) = true ->
  decimalOf decimalOfString (RailBody.amount body) = Some m ->
  accounts db !! RailBody.fromAccountId body = Some A ->
  Account.status A = active ->
  m <= Account.availableBalance A ->
  exists db' tx A',
    transferNeft decimalOfString body db = (db', Returned tx)
    /\ accounts db' !! RailBody.fromAccountId body = Some A'
    /\ Account.balance A' = Account.balance A - m
    /\ Account.availableBalance A' = Account.availableBalance A - m
    /\ (forall id, id <> RailBody.fromAccountId body ->
                   accounts db' !! id = accounts db !! id)
    /\ transactions db' = (transactions db ++ [tx])%list
    /\ Transaction.type tx = debit
    /\ Transaction.amount tx = m
    /\ Transaction.mode tx = neft
    /\ Transaction.status tx = txPending
    /\ Transaction.processedAt tx = None
    /\ Transaction.fromAccountId tx = Some (RailBody.fromAccountId body)
    /\ Transaction.toAccountId tx = None
    /\ Transaction.beneficiaryName tx = Some (RailBody.beneficiaryName body)
    /\ Transaction.beneficiaryAccount tx
       = Some (RailBody.beneficiaryAccount body)
    /\ Transaction.beneficiaryBank tx = RailBody.beneficiaryBank body
    /\ Transaction.beneficiaryIfsc tx = Some (RailBody.beneficiaryIfsc body)
    /\ Transaction.balanceAfter tx = Account.balance A'.
Proof.
  intros Hf Hba Hbn Hbi Htr Hdec HA HsA Hle.
  rewrite (transferNeft_commits decimalOfString body db A m) by assumption.
  cbv zeta. eexists _, _, (addToBalances A (- m)).
  split; [reflexivity|]. cbn [accounts transactions].
  split; [apply lookup_insert_eq|].
  repeat split; cbn; try lia.
  intros id Hid. now rewrite lookup_insert_ne by congruence.
Qed.

Lemma transferNeft_debits_and_defers_witness :
  exists db' tx,
    transferNeft Sample.wholeUnits (Sample.railBody (JsString "90000"))
      Sample.db = (db', Returned tx)
    /\ Transaction.status tx = txPending
    /\ Transaction.balanceAfter tx = 6000000.
Proof.
  destruct (transferNeft_debits_and_defers Sample.wholeUnits
              (Sample.railBody (JsString "90000")) Sample.db
              (Sample.account "100100001001" "cust1" 15000000 active) 9000000
              ltac:(vm_compute; congruence) ltac:(vm_compute; congruence) ltac:(vm_compute; congruence)
              ltac:(vm_compute; congruence) eq_refl eq_refl eq_refl eq_refl
              ltac:(vm_compute; congruence))
    as (db' & tx & A' & Hrun & _ & Hbal & _ & _ & _ & _ & _ & _ & Hst & _ & _
        & _ & _ & _ & _ & _ & Hafter).
  exists db', tx. rewrite Hafter, Hbal. auto.
Defined.

(** X5.  A deferred (NEFT) transfer with all its required fields checks
    the source before it reads the amount: a missing source gives 'Source
    account not found' and one that is not active 'Source account is not
    active', whatever the amount; an amount above the available balance of
    an active source gives 'Insufficient balance'.  Nothing is written in
    any of the three cases. *)
Theorem transferNeft_checks_source
    (decimalOfString : string -> option Decimal)
    (body : RailBody.t) (db : Db) :
  RailBody.fromAccountId body <> "" ->
  RailBody.beneficiaryAccount body <> "" ->
  RailBody.beneficiaryName body <> "" ->
  RailBody.beneficiaryIfsc body <> "" ->
  truthy (RailBody.amount body) = true ->
  (accounts db !! RailBody.fromAccountId body = None ->
     transferNeft decimalOfString body db
     = (db, Thrown (AppError "Source account not found" 404)))
  /\ (forall A,
     accounts db !! RailBody.fromAccountId body = Some A ->
     Account.status A <> active ->
     transferNeft decimalOfString body db
     = (db, Thrown (AppError "Source account is not active" 400)))
  /\ (forall A m,
     accounts db !! RailBody.fromAccountId body = Some A ->
     Account.status A = active ->
     decimalOf decimalOfString (RailBody.amount body) = Some m ->
     Account.availableBalance A < m ->
     transferNeft decimalOfString body db
     = (db, Thrown (AppError "Insufficient balance" 400))).
Proof.
  intros Hf Hba Hbn Hbi Htr.
  apply nonEmpty_true in Hf, Hba, Hbn, Hbi.
  split; [|split]; intros;
    unfold transferNeft; cbv zeta; rewrite Hf, Hba, Hbn, Hbi, Htr;
    cbn [negb orb]; unfold bind at 1, findAccount at 1.
  - rewrite H. reflexivity.
  - rewrite H. now rewrite (not_active_failed A H0).
  - rewrite H. rewrite bool_decide_eq_true_2 by assumption. cbn [negb].
    unfold bind at 1. rewrite (newDecimal_some _ _ _ _ H1).
    destruct (Z.ltb_spec (Account.availableBalance A) m) as [_|]; [|lia].
    reflexivity.
Qed.

Lemma transferNeft_checks_source_witness :
  transferNeft Sample.wholeUnits
    (RailBody.mk "acc3" "9876543210" "John Doe" None "OTHR0000001"
       (JsNumber 100) None) Sample.db
  = (Sample.db, Thrown (AppError "Source account is not active" 400))
  /\ transferNeft Sample.wholeUnits (Sample.railBody (JsNumber 15000001))
       Sample.db
     = (Sample.db, Thrown (AppError "Insufficient balance" 400)).
Proof.
  split.
  - destruct (transferNeft_checks_source Sample.wholeUnits
                (RailBody.mk "acc3" "9876543210" "John Doe" None "OTHR0000001"
                   (JsNumber 100) None) Sample.db
                ltac:(vm_compute; congruence) ltac:(vm_compute; congruence) ltac:(vm_compute; congruence)
                ltac:(vm_compute; congruence) eq_refl)
      as (_ & Hinactive & _).
    apply (Hinactive (Sample.account "100100001003" "cust2" 500000 frozen));
      [reflexivity|discriminate].
  - destruct (transferNeft_checks_source Sample.wholeUnits
                (Sample.railBody (JsNumber 15000001)) Sample.db
                ltac:(vm_compute; congruence) ltac:(vm_compute; congruence) ltac:(vm_compute; congruence)
                ltac:(vm_compute; congruence) eq_refl)
      as (_ & _ & Hfunds).
    apply (Hfunds (Sample.account "100100001001" "cust1" 15000000 active)
             15000001); reflexivity.
Defined.

(** X6.  An instant (IMPS) transfer with all its required fields and an
    amount at or below the ceiling checks the source next: a missing source
    gives 'Source account not found', one that is not active 'Source
    account is not active', and an amount above the available balance of an
    active source 'Insufficient balance'.  Nothing is written in any of the
    three cases. *)
Theorem transferImps_checks_source
    (decimalOfString : string -> option Decimal) (scale now : Z)
    (body : RailBody.t) (db : Db) (m : Decimal) :
  RailBody.fromAccountId body <> "" ->
  RailBody.beneficiaryAccount body <> "" ->
  RailBody.beneficiaryName body <> "" ->
  RailBody.beneficiaryIfsc body <> "" ->
  truthy (RailBody.amount body) = true ->
  decimalOf decimalOfString (RailBody.amount body) = Some m ->
  m <= 500000 * scale ->
  (accounts db !! RailBody.fromAccountId body = None ->
     transferImps decimalOfString scale now body db
     = (db, Thrown (AppError "Source account not found" 404)))
  /\ (forall A,
     accounts db !! RailBody.fromAccountId body = Some A ->
     Account.status A <> active ->
     transferImps decimalOfString scale now body db
     = (db, Thrown (AppError "Source account is not active" 400)))
  /\ (forall A,
     accounts db !! RailBody.fromAccountId body = Some A ->
     Account.status A = active ->
     Account.availableBalance A < m ->
     transferImps decimalOfString scale now body db
     = (db, Thrown (AppError "Insufficient balance" 400))).
Proof.
  intros Hf Hba Hbn Hbi Htr Hdec Hceil.
  apply nonEmpty_true in Hf, Hba, Hbn, Hbi.
  split; [|split]; intros;
    unfold transferImps; cbv zeta; rewrite Hf, Hba, Hbn, Hbi, Htr;
    cbn [negb orb]; unfold bind at 1; rewrite (newDecimal_some _ _ _ _ Hdec);
    (destruct (Z.ltb_spec (500000 * scale) m) as [|_]; [lia|]);
    unfold bind at 1, findAccount at 1.
  - rewrite H. reflexivity.
  - rewrite H. now rewrite (not_active_failed A H0).
  - rewrite H. rewrite bool_decide_eq_true_2 by assumption. cbn [negb].
    destruct (Z.ltb_spec (Account.availableBalance A) m) as [_|]; [|lia].
    reflexivity.
Qed.

Lemma transferImps_checks_source_witness :
  transferImps Sample.wholeUnits Sample.scale 7
    (RailBody.mk "acc2" "9876543210" "John Doe" None "OTHR0000001"
       (JsNumber 100) None) Sample.db
  = (Sample.db, Thrown (AppError "Insufficient balance" 400)).
Proof.
  destruct (transferImps_checks_source Sample.wholeUnits Sample.scale 7
              (RailBody.mk "acc2" "9876543210" "John Doe" None "OTHR0000001"
                 (JsNumber 100) None) Sample.db 100
              ltac:(vm_compute; congruence) ltac:(vm_compute; congruence) ltac:(vm_compute; congruence)
              ltac:(vm_compute; congruence) eq_refl eq_refl ltac:(vm_compute; congruence))
    as (_ & _ & Hfunds).
  apply (Hfunds (Sample.account "100100001002" "cust2" 0 active)); reflexivity.
Defined.

(** ** The funds of the bank *)

Lemma sumAccounts_update f db db' i a a' :
  accounts db !! i = Some a ->
  accounts db' = <[i := a']> (accounts db) ->
  sumAccounts f db' = sumAccounts f db - f a + f a'.
Proof.
  intros Ha Hdb'. unfold sumAccounts. rewrite Hdb'.
  rewrite (map_fold_delete_L _ _ i a (accounts db)); [|intros; lia|exact Ha].
  rewrite <- insert_delete_eq.
  rewrite map_fold_insert_L; [lia|intros; lia|apply lookup_delete_eq].
Qed.

Lemma sumAccounts_new f db db' i a' :
  accounts db !! i = None ->
  accounts db' = <[i := a']> (accounts db) ->
  sumAccounts f db' = sumAccounts f db + f a'.
Proof.
  intros Ha Hdb'. unfold sumAccounts. rewrite Hdb'.
  rewrite map_fold_insert_L; [lia|intros; lia|exact Ha].
Qed.

Section Funds.
Variable decimalOfString : string -> option Decimal.
Variable scale : Z.

Lemma transferInternal_returned now body db db' r :
  transferInternal decimalOfString now body db = (db', Returned r) ->
  exists A B m,
    decimalOf decimalOfString (InternalBody.amount body) = Some m
    /\ InternalBody.fromAccountId body <> InternalBody.toAccountId body
    /\ accounts db !! InternalBody.fromAccountId body = Some A
    /\ accounts db !! InternalBody.toAccountId body = Some B
    /\ m <= Account.availableBalance A
    /\ accounts db'
       = <[InternalBody.toAccountId body := addToBalances B m]>
           (<[InternalBody.fromAccountId body := addToBalances A (- m)]>
              (accounts db))
    /\ (exists t1 t2, transactions db' = (transactions db ++ [t1; t2])%list)
    /\ glEntries db' = glEntries db
    /\ customers db' = customers db.
Proof.
  intros Hrun.
  destruct (transferInternal_returns_inv _ _ _ _ _ _ Hrun)
    as (A & B & m & Hf & Ht & Hne & Htr & Hdec & HA & HB & HsA & HsB & Hle).
  rewrite (transferInternal_commits _ now body db A B m) in Hrun by assumption.
  cbv zeta in Hrun. injection Hrun as <- _.
  exists A, B, m. cbn. eauto 12.
Qed.

Lemma transferNeft_returned body db db' r :
  transferNeft decimalOfString body db = (db', Returned r) ->
  exists A m,
    decimalOf decimalOfString (RailBody.amount body) = Some m
    /\ accounts db !! RailBody.fromAccountId body = Some A
    /\ m <= Account.availableBalance A
    /\ accounts db'
       = <[RailBody.fromAccountId body := addToBalances A (- m)]> (accounts db)
    /\ transactions db' = (transactions db ++ [r])%list
    /\ glEntries db' = glEntries db
    /\ customers db' = customers db.
Proof.
  intros Hrun.
  destruct (transferNeft_returns_inv _ _ _ _ _ Hrun)
    as (A & m & Hf & Hba & Hbn & Hbi & Htr & Hdec & HA & HsA & Hle).
  rewrite (transferNeft_commits _ body db A m) in Hrun by assumption.
  cbv zeta in Hrun. injection Hrun as <- <-.
  exists A, m. cbn. auto 10.
Qed.

Lemma transferImps_returned now body db db' r :
  transferImps decimalOfString scale now body db = (db', Returned r) ->
  exists A m,
    decimalOf decimalOfString (RailBody.amount body) = Some m
    /\ accounts db !! RailBody.fromAccountId body = Some A
    /\ m <= Account.availableBalance A
    /\ accounts db'
       = <[RailBody.fromAccountId body := addToBalances A (- m)]> (accounts db)
    /\ transactions db' = (transactions db ++ [r])%list
    /\ glEntries db' = glEntries db
    /\ customers db' = customers db.
Proof.
  intros Hrun.
  destruct (transferImps_returns_inv _ _ _ _ _ _ _ Hrun)
    as (A & m & Hf & Hba & Hbn & Hbi & Htr & Hdec & Hceil & HA & HsA & Hle).
  rewrite (transferImps_commits _ scale now body db A m) in Hrun by assumption.
  cbv zeta in Hrun. injection Hrun as <- <-.
  exists A, m. cbn. auto 10.
Qed.

End Funds.

(** X7.  A committed internal transfer moves funds and creates none: the
    sum of the balances of all accounts, and the sum of their available
    balances, are what they were.  A committed deferred or instant transfer
    of m takes exactly m out of both sums, and opening an account adds
    exactly its initial deposit to both. *)
Theorem funds_are_accounted_for
    (decimalOfString : string -> option Decimal) (scale now : Z)
    (db db' : Db) :
  (forall body r,
     transferInternal decimalOfString now body db = (db', Returned r) ->
     sumAccounts Account.balance db' = sumAccounts Account.balance db
     /\ sumAccounts Account.availableBalance db'
        = sumAccounts Account.availableBalance db)
  /\ (forall body r m,
     transferNeft decimalOfString body db = (db', Returned r) ->
     decimalOf decimalOfString (RailBody.amount body) = Some m ->
     sumAccounts Account.balance db' = sumAccounts Account.balance db - m
     /\ sumAccounts Account.availableBalance db'
        = sumAccounts Account.availableBalance db - m)
  /\ (forall body r m,
     transferImps decimalOfString scale now body db = (db', Returned r) ->
     decimalOf decimalOfString (RailBody.amount body) = Some m ->
     sumAccounts Account.balance db' = sumAccounts Account.balance db - m
     /\ sumAccounts Account.availableBalance db'
        = sumAccounts Account.availableBalance db - m)
  /\ (forall newId accountNumber body r,
     openAccount newId accountNumber now body db = (db', Returned r) ->
     sumAccounts Account.balance db'
     = sumAccounts Account.balance db
       + default 0 (AccountBody.initialDeposit body)
     /\ sumAccounts Account.availableBalance db'
        = sumAccounts Account.availableBalance db
          + default 0 (AccountBody.initialDeposit body)).
Proof.
  split; [|split; [|split]].
  - intros body r Hrun.
    apply transferInternal_returned in Hrun
      as (A & B & m & _ & Hne & HA & HB & _ & Hacc & _).
    set (mid := withAccounts db
                  (<[InternalBody.fromAccountId body := addToBalances A (- m)]>
                     (accounts db))).
    assert (HBmid : accounts mid !! InternalBody.toAccountId body = Some B).
    { unfold mid. cbn. now rewrite lookup_insert_ne. }
    split.
    + rewrite (sumAccounts_update _ mid db' _ B (addToBalances B m) HBmid Hacc).
      rewrite (sumAccounts_update _ db mid _ A (addToBalances A (- m)) HA eq_refl).
      cbn. lia.
    + rewrite (sumAccounts_update _ mid db' _ B (addToBalances B m) HBmid Hacc).
      rewrite (sumAccounts_update _ db mid _ A (addToBalances A (- m)) HA eq_refl).
      cbn. lia.
  - intros body r m Hrun Hdec.
    apply transferNeft_returned in Hrun as (A & m' & Hdec' & HA & _ & Hacc & _).
    assert (m' = m) as -> by congruence.
    rewrite !(sumAccounts_update _ db db' _ A (addToBalances A (- m)) HA Hacc).
    cbn. lia.
  - intros body r m Hrun Hdec.
    apply transferImps_returned in Hrun as (A & m' & Hdec' & HA & _ & Hacc & _).
    assert (m' = m) as -> by congruence.
    rewrite !(sumAccounts_update _ db db' _ A (addToBalances A (- m)) HA Hacc).
    cbn. lia.
  - intros newId accountNumber body r Hrun.
    assert (Hfresh : accounts db !! newId = None).
    { unfold openAccount in Hrun. cbv zeta in Hrun.
      destruct (_ || _) in Hrun; [refute Hrun|].
      unfold bind at 1, findCustomer at 1 in Hrun. cbv beta iota in Hrun.
      destruct (negb _) in Hrun; [refute Hrun|].
      unfold bind at 1, createAccount at 1 in Hrun.
      destruct (accounts db !! newId); [discriminate Hrun|reflexivity]. }
    apply openAccount_returns_inv in Hrun. cbv zeta in Hrun.
    rewrite !(sumAccounts_new _ db db' newId _ Hfresh Hrun). cbn. lia.
Qed.

Lemma funds_are_accounted_for_witness :
  exists db' r,
    transferInternal Sample.wholeUnits 7 (Sample.internalBody (JsNumber 500000))
      Sample.db = (db', Returned r)
    /\ sumAccounts Account.balance db' = 15500000.
Proof.
  destruct (transferInternal Sample.wholeUnits 7
              (Sample.internalBody (JsNumber 500000)) Sample.db)
    as [db' [r|e]] eqn:Hrun; [|vm_compute in Hrun; discriminate Hrun].
  exists db', r. split; [reflexivity|].
  destruct (funds_are_accounted_for Sample.wholeUnits Sample.scale 7
              Sample.db db') as (Hint & _).
  destruct (Hint _ _ Hrun) as [-> _]. reflexivity.
Defined.

(** ** What a transfer leaves alone *)

Lemma sameButBalances_refl a : sameButBalances a a.
Proof. unfold sameButBalances. auto 10. Qed.

Lemma sameButBalances_shift a d : sameButBalances a (addToBalances a d).
Proof. unfold sameButBalances. cbn. repeat split; lia. Qed.

Lemma accounts_same_refl (m : gmap string Account.t) id :
  option_Forall2 sameButBalances (m !! id) (m !! id).
Proof.
  destruct (m !! id); constructor. apply sameButBalances_refl.
Qed.

Lemma accounts_same_shift (m : gmap string Account.t) i a d id :
  m !! i = Some a ->
  option_Forall2 sameButBalances (m !! id) (<[i := addToBalances a d]> m !! id).
Proof.
  intros Ha. destruct (decide (id = i)) as [->|Hne].
  - rewrite lookup_insert_eq, Ha. constructor. apply sameButBalances_shift.
  - rewrite lookup_insert_ne by congruence. apply accounts_same_refl.
Qed.

(** X8.  Whatever a transfer answers, it creates and deletes no account
    and changes nothing of an account but its two balances, which it moves
    together: the status, closing date, number, owner, type, branch and
    currency of every account, and the difference between its balance and
    its available balance (the amount on hold), are what they were.  Opening
    an account changes no account that was there. *)
Theorem transfers_touch_only_balances
    (decimalOfString : string -> option Decimal) (scale now : Z)
    (db db' : Db) (id : string) :
  (forall body r,
     transferInternal decimalOfString now body db = (db', r) ->
     option_Forall2 sameButBalances (accounts db !! id) (accounts db' !! id))
  /\ (forall body r,
     transferNeft decimalOfString body db = (db', r) ->
     option_Forall2 sameButBalances (accounts db !! id) (accounts db' !! id))
  /\ (forall body r,
     transferImps decimalOfString scale now body db = (db', r) ->
     option_Forall2 sameButBalances (accounts db !! id) (accounts db' !! id))
  /\ (forall newId accountNumber body r a,
     openAccount newId accountNumber now body db = (db', r) ->
     accounts db !! id = Some a -> accounts db' !! id = Some a).
Proof.
  split; [|split; [|split]].
  - intros body [r|e] Hrun.
    + apply transferInternal_returned in Hrun
        as (A & B & m & _ & Hne & HA & HB & _ & -> & _).
      destruct (decide (id = InternalBody.toAccountId body)) as [->|Hto].
      * rewrite lookup_insert_eq, HB. constructor. apply sameButBalances_shift.
      * rewrite lookup_insert_ne by congruence. now apply accounts_same_shift.
    + apply transferInternal_throws_unchanged in Hrun as ->.
      apply accounts_same_refl.
  - intros body [r|e] Hrun.
    + apply transferNeft_returned in Hrun as (A & m & _ & HA & _ & -> & _).
      now apply accounts_same_shift.
    + apply transferNeft_throws_unchanged in Hrun as ->.
      apply accounts_same_refl.
  - intros body [r|e] Hrun.
    + apply transferImps_returned in Hrun as (A & m & _ & HA & _ & -> & _).
      now apply accounts_same_shift.
    + apply transferImps_throws_unchanged in Hrun as ->.
      apply accounts_same_refl.
  - intros newId accountNumber body [r|e] a Hrun Ha.
    + pose proof Hrun as Hinv. apply openAccount_returns_inv in Hinv.
      cbv zeta in Hinv. rewrite Hinv.
      destruct (decide (id = newId)) as [->|Hne];
        [|now rewrite lookup_insert_ne by congruence].
      exfalso. unfold openAccount in Hrun. cbv zeta in Hrun.
      destruct (_ || _) in Hrun; [refute Hrun|].
      unfold bind at 1, findCustomer at 1 in Hrun. cbv beta iota in Hrun.
      destruct (negb _) in Hrun; [refute Hrun|].
      unfold bind at 1, createAccount at 1 in Hrun.
      rewrite Ha in Hrun. discriminate Hrun.
    + apply openAccount_throws_unchanged in Hrun as ->. exact Ha.
Qed.

Lemma transfers_touch_only_balances_witness :
  exists db' r a',
    transferImps Sample.wholeUnits Sample.scale 7
      (Sample.railBody (JsNumber 500000)) Sample.db = (db', r)
    /\ accounts db' !! "acc1" = Some a'
    /\ Account.status a' = active
    /\ Account.balance a' - Account.availableBalance a' = 0.
Proof.
  destruct (transferImps Sample.wholeUnits Sample.scale 7
              (Sample.railBody (JsNumber 500000)) Sample.db)
    as [db' r] eqn:Hrun.
  destruct (transfers_touch_only_balances Sample.wholeUnits Sample.scale 7
              Sample.db db' "acc1") as (_ & _ & Himps & _).
  pose proof (Himps _ _ Hrun) as Hsame.
  change (accounts Sample.db !! "acc1")
    with (Some (Sample.account "100100001001" "cust1" 15000000 active))
    in Hsame.
  inversion Hsame as [a a' (_ & _ & _ & _ & _ & Hst & _ & Hhold) Ha Ha'|].
  exists db', r, a'. rewrite Hst, Hhold. auto.
Defined.

(** ** Routes that audit *)

Lemma postInternal_run ds now body audit db :
  postInternal ds now body audit db
  = match transferInternal ds now body db with
    | (db1, Returned r) =>
        match audit with
        | None => (db1, Returned r)
        | Some e => (db1, Thrown e)
        end
    | (db1, Thrown e) => (db1, Thrown e)
    end.
Proof.
  unfold postInternal, bind.
  destruct (transferInternal ds now body db) as [db1 [r|e]]; [|reflexivity].
  now destruct audit.
Qed.

Lemma postInternal_thrown ds now body audit db db' e :
  postInternal ds now body audit db = (db', Thrown e) ->
  db' = db
  \/ (audit = Some e
      /\ exists r, transferInternal ds now body db = (db', Returned r)).
Proof.
  rewrite postInternal_run.
  destruct (transferInternal ds now body db) as [db1 [r|e1]] eqn:Hrun.
  - destruct audit as [e2|]; intros [= <- <-]. right. eauto.
  - intros [= <- <-]. left. eapply transferInternal_throws_unchanged; eauto.
Qed.

Lemma postAccount_accepted newId accountNumber now body audit db :
  postAccount newId accountNumber now body None audit db
  = (account <- openAccount newId accountNumber now body ;;
     _ <- auditLogCreate audit ;;
     ret account) db.
Proof.
  unfold postAccount, openAccount. cbv zeta.
  destruct (_ || _); [reflexivity|].
  unfold bind, findCustomer, createAccount, unlessRejected, createTransaction,
    auditLogCreate, ret, throw.
  destruct (negb _); [reflexivity|].
  destruct (accounts db !! newId); [reflexivity|].
  destruct (decide (numberTaken _ _)); [reflexivity|].
  destruct (0 <? default 0 (AccountBody.initialDeposit body));
    destruct audit; reflexivity.
Qed.

(** What the account route has done when it answers: nothing, or it has
    stored the account, with at most one Transaction row. *)
Lemma postAccount_cases newId accountNumber now body dep audit db db' r :
  postAccount newId accountNumber now body dep audit db = (db', r) ->
  (db' = db /\ exists e, r = Thrown e)
  \/ (accounts db !! newId = None
      /\ ~ numberTaken accountNumber (accounts db)
      /\ exists account new,
          accounts db' = <[newId := account]> (accounts db)
          /\ Account.accountNumber account = accountNumber
          /\ transactions db' = (transactions db ++ new)%list
          /\ (length new <= 1)%nat
          /\ glEntries db' = glEntries db
          /\ match r with
             | Returned a => a = account /\ audit = None
             | Thrown e => (dep = Some e /\ new = []) \/ audit = Some e
             end).
Proof.
  unfold postAccount. cbv zeta.
  destruct (_ || _); [intros [= <- <-]; left; eauto|].
  unfold bind at 1, findCustomer. cbv beta iota.
  destruct (negb _); [intros [= <- <-]; left; eauto|].
  unfold bind at 1, createAccount.
  destruct (accounts db !! newId) eqn:Hfree; [intros [= <- <-]; left; eauto|].
  destruct (decide (numberTaken _ _)) as [|Hnum];
    [intros [= <- <-]; left; eauto|].
  cbv beta iota. intros Hrun. right. split; [reflexivity|].
  split; [exact Hnum|]. eexists.
  destruct (0 <? default 0 (AccountBody.initialDeposit body)).
  - destruct dep as [e1|].
    + injection Hrun as <- <-. exists []. rewrite app_nil_r. cbn.
      repeat split; auto.
    + destruct audit as [e2|]; injection Hrun as <- <-;
        (eexists [_]; cbn; repeat split; auto).
  - destruct audit as [e2|]; injection Hrun as <- <-;
      (exists []; rewrite app_nil_r; cbn; repeat split; auto).
Qed.





(** ** Transfers one after another *)

Lemma addToBalances_back a d : addToBalances (addToBalances a (- d)) d = a.
Proof. destruct a. unfold addToBalances. cbn. f_equal; lia. Qed.

Lemma addToBalances_forth a d : addToBalances (addToBalances a d) (- d) = a.
Proof. destruct a. unfold addToBalances. cbn. f_equal; lia. Qed.

(** X10.  An internal transfer of m from A to B followed by one of m from
    B to A, where B's available balance was not negative, both commit and
    leave every account exactly as it was before the first; the Transaction
    table has grown by the four legs. *)
Theorem transferInternal_there_and_back
    (decimalOfString : string -> option Decimal) (now now' : Z)
    (body : InternalBody.t) (db : Db) (A B : Account.t) (m : Decimal) :
  InternalBody.fromAccountId body <> "" ->
  InternalBody.toAccountId body <> "" ->
  InternalBody.fromAccountId body <> InternalBody.toAccountId body ->
  truthy (InternalBody.amount body) = true ->
  decimalOf decimalOfString (InternalBody.amount body) = Some m ->
  accounts db !! InternalBody.fromAccountId body = Some A ->
  accounts db !! InternalBody.toAccountId body = Some B ->
  Account.status A = active ->
  Account.status B = active ->
  m <= Account.availableBalance A ->
  0 <= Account.availableBalance B ->
  exists db1 r1 db2 r2,
    transferInternal decimalOfString now body db = (db1, Returned r1)
    /\ transferInternal decimalOfString now'
         (InternalBody.mk (InternalBody.toAccountId body)
            (InternalBody.fromAccountId body) (InternalBody.amount body)
            (InternalBody.description body)) db1
       = (db2, Returned r2)
    /\ accounts db2 = accounts db
    /\ transactions db2 = (transactions db ++ [r1.1; r1.2; r2.1; r2.2])%list.
Proof.
  intros Hf Ht Hne Htr Hdec HA HB HsA HsB Hle HB0.
  pose proof (transferInternal_commits decimalOfString now body db A B m
                Hf Ht Hne Htr Hdec HA HB HsA HsB Hle) as H1.
  cbv zeta in H1.
  match type of H1 with _ = (?d, Returned ?r) => set (db1 := d) in *;
    set (r1 := r) in * end.
  assert (HB1 : accounts db1 !! InternalBody.toAccountId body
                = Some (addToBalances B m)).
  { unfold db1. cbn. apply lookup_insert_eq. }
  assert (HA1 : accounts db1 !! InternalBody.fromAccountId body
                = Some (addToBalances A (- m))).
  { unfold db1. cbn. rewrite lookup_insert_ne by congruence.
    apply lookup_insert_eq. }
  pose proof (transferInternal_commits decimalOfString now'
                (InternalBody.mk (InternalBody.toAccountId body)
                   (InternalBody.fromAccountId body) (InternalBody.amount body)
                   (InternalBody.description body))
                db1 (addToBalances B m) (addToBalances A (- m)) m) as H2.
  cbv zeta in H2. cbn [InternalBody.fromAccountId InternalBody.toAccountId
                       InternalBody.amount InternalBody.description] in H2.
  specialize (H2 Ht Hf (not_eq_sym Hne) Htr Hdec HB1 HA1 HsB HsA).
  assert (Hle2 : m <= Account.availableBalance (addToBalances B m))
    by (cbn; lia).
  specialize (H2 Hle2).
  eexists _, _, _, _. split; [exact H1|]. split; [exact H2|].
  cbn [accounts transactions fst snd]. split.
  - rewrite addToBalances_back, addToBalances_forth.
    unfold db1. cbn [accounts].
    apply map_eq. intros i.
    destruct (decide (i = InternalBody.fromAccountId body)) as [->|HiA].
    { now rewrite lookup_insert_eq. }
    rewrite lookup_insert_ne by congruence.
    destruct (decide (i = InternalBody.toAccountId body)) as [->|HiB].
    { now rewrite lookup_insert_eq. }
    now rewrite !lookup_insert_ne by congruence.
  - unfold db1, r1. cbn [transactions fst snd]. now rewrite <- app_assoc.
Qed.

Lemma transferInternal_there_and_back_witness :
  exists db1 r1 db2 r2,
    transferInternal Sample.wholeUnits 7 (Sample.internalBody (JsNumber 500000))
      Sample.db = (db1, Returned r1)
    /\ transferInternal Sample.wholeUnits 8
         (InternalBody.mk "acc2" "acc1" (JsNumber 500000) (Some "rent")) db1
       = (db2, Returned r2)
    /\ accounts db2 = accounts Sample.db.
Proof.
  destruct (transferInternal_there_and_back Sample.wholeUnits 7 8
              (Sample.internalBody (JsNumber 500000)) Sample.db
              (Sample.account "100100001001" "cust1" 15000000 active)
              (Sample.account "100100001002" "cust2" 0 active) 500000
              ltac:(vm_compute; congruence) ltac:(vm_compute; congruence)
              ltac:(vm_compute; congruence) eq_refl eq_refl eq_refl eq_refl
              eq_refl eq_refl ltac:(vm_compute; congruence)
              ltac:(vm_compute; congruence))
    as (db1 & r1 & db2 & r2 & H1 & H2 & Hacc & _).
  exists db1, r1, db2, r2. auto.
Defined.

Section Drain.
Variable decimalOfString : string -> option Decimal.

Lemma transferNeft_repeated body db A m (j : nat) :
  RailBody.fromAccountId body <> "" ->
  RailBody.beneficiaryAccount body <> "" ->
  RailBody.beneficiaryName body <> "" ->
  RailBody.beneficiaryIfsc body <> "" ->
  truthy (RailBody.amount body) = true ->
  decimalOf decimalOfString (RailBody.amount body) = Some m ->
  accounts db !! RailBody.fromAccountId body = Some A ->
  Account.status A = active ->
  0 <= m ->
  Z.of_nat j * m <= Account.availableBalance A ->
  let dbj := Nat.iter j (after (transferNeft decimalOfString body)) db in
  accounts dbj !! RailBody.fromAccountId body
  = Some (addToBalances A (- (Z.of_nat j * m)))
  /\ length (transactions dbj) = (length (transactions db) + j)%nat.
Proof.
  intros Hf Hba Hbn Hbi Htr Hdec HA HsA Hm. cbv zeta.
  induction j as [|j IH]; intros Hj.
  - cbn. split; [|lia]. rewrite HA. f_equal. destruct A.
    unfold addToBalances. cbn. f_equal; lia.
  - destruct IH as [IHa IHt]; [lia|].
    rewrite Nat.iter_succ. set (dbj := Nat.iter j _ db) in *.
    pose proof (transferNeft_commits decimalOfString body dbj
                  (addToBalances A (- (Z.of_nat j * m))) m
                  Hf Hba Hbn Hbi Htr Hdec IHa HsA) as Hrun.
    cbv zeta in Hrun. unfold after. rewrite Hrun by (cbn; lia).
    cbn [fst accounts transactions]. split.
    + rewrite lookup_insert_eq. f_equal. destruct A.
      unfold addToBalances. cbn. f_equal; lia.
    + rewrite length_app, IHt. cbn. lia.
Qed.

End Drain.

(** X11.  No overdraft, one request after another: when an active account
    holds exactly k times m available (m > 0), k deferred transfers of m in
    a row all commit, one Transaction row each, and leave the available
    balance at zero; the next one fails with 'Insufficient balance' and
    changes nothing. *)
Theorem transferNeft_drains_then_refuses
    (decimalOfString : string -> option Decimal)
    (body : RailBody.t) (db : Db) (A : Account.t) (m : Decimal) (k : nat) :
  RailBody.fromAccountId body <> "" ->
  RailBody.beneficiaryAccount body <> "" ->
  RailBody.beneficiaryName body <> "" ->
  RailBody.beneficiaryIfsc body <> "" ->
  truthy (RailBody.amount body) = true ->
  decimalOf decimalOfString (RailBody.amount body) = Some m ->
  accounts db !! RailBody.fromAccountId body = Some A ->
  Account.status A = active ->
  0 < m ->
  Account.availableBalance A = Z.of_nat k * m ->
  let dbk := Nat.iter k (after (transferNeft decimalOfString body)) db in
  (exists A',
      accounts dbk !! RailBody.fromAccountId body = Some A'
      /\ Account.availableBalance A' = 0
      /\ Account.balance A' = Account.balance A - Z.of_nat k * m)
  /\ length (transactions dbk) = (length (transactions db) + k)%nat
  /\ transferNeft decimalOfString body dbk = (dbk, Thrown InsufficientFunds).
Proof.
  intros Hf Hba Hbn Hbi Htr Hdec HA HsA Hm Hk. cbv zeta.
  destruct (transferNeft_repeated decimalOfString body db A m k)
    as [Ha Ht]; try assumption; try lia.
  split; [|split; [exact Ht|]].
  - eexists. split; [exact Ha|]. cbn. lia.
  - set (dbk := Nat.iter k _ db) in *.
    unfold transferNeft. cbv zeta.
    apply nonEmpty_true in Hf, Hba, Hbn, Hbi.
    rewrite Hf, Hba, Hbn, Hbi, Htr. cbn [negb orb].
    unfold bind at 1, findAccount at 1. rewrite Ha.
    cbn [Account.status addToBalances].
    rewrite bool_decide_eq_true_2 by assumption. cbn [negb].
    unfold bind at 1. rewrite (newDecimal_some _ _ _ _ Hdec).
    destruct (Z.ltb_spec
                (Account.availableBalance
                   (addToBalances A (- (Z.of_nat k * m)))) m) as [_|Hge];
      [reflexivity|cbn in Hge; lia].
Qed.

Lemma transferNeft_drains_then_refuses_witness :
  let body := Sample.railBody (JsNumber 5000000) in
  let db3 := Nat.iter 3 (after (transferNeft Sample.wholeUnits body)) Sample.db in
  length (transactions db3) = 3%nat
  /\ transferNeft Sample.wholeUnits body db3 = (db3, Thrown InsufficientFunds).
Proof.
  cbv zeta.
  destruct (transferNeft_drains_then_refuses Sample.wholeUnits
              (Sample.railBody (JsNumber 5000000)) Sample.db
              (Sample.account "100100001001" "cust1" 15000000 active) 5000000 3
              ltac:(vm_compute; congruence) ltac:(vm_compute; congruence)
              ltac:(vm_compute; congruence) ltac:(vm_compute; congruence)
              eq_refl eq_refl eq_refl eq_refl eq_refl eq_refl)
    as (_ & Hlen & Hnext).
  split; [exact Hlen|exact Hnext].
Defined.

(** ** Opening an account *)

Lemma numberTaken_iff n (m : gmap string Account.t) :
  numberTaken n m
  <-> exists id a, m !! id = Some a /\ Account.accountNumber a = n.
Proof. reflexivity. Qed.

Lemma numbersUnique_insert db newId account :
  accounts db !! newId = None ->
  ~ numberTaken (Account.accountNumber account) (accounts db) ->
  numbersUnique db ->
  numbersUnique (withAccounts db (<[newId := account]> (accounts db))).
Proof.
  intros Hfresh Hnum Huniq i j a b. cbn [accounts withAccounts].
  rewrite !lookup_insert_Some.
  intros [[<- <-]|[Hi Ha]] [[<- <-]|[Hj Hb]] Hsame; try reflexivity.
  - exfalso. apply Hnum. exists j, b. auto.
  - exfalso. apply Hnum. exists i, a. auto.
  - eauto.
Qed.

(** X12.  Opening an account for a known customer, with customer, type and
    branch given and under an identifier that is free.  When the generated
    account number is that of an account already there, the creation is
    refused and nothing is written.  Otherwise the route's own writes
    return the new account, stored under its identifier with both balances
    equal to the initial deposit (0 when none is given), the generated
    account number, the customer, type and branch of the request, the
    currency of the request (INR when none is given) and no closing date; no
    other account changes, and account numbers that were unique are still
    unique.  A deposit above zero writes exactly one Transaction row, a
    completed cash credit of the deposit to the new account with
    balanceAfter equal to the deposit; no deposit, or one that is not above
    zero, writes none. *)
Theorem openAccount_creates_account (newId accountNumber : string) (now : Z)
    (body : AccountBody.t) (db : Db) :
  AccountBody.customerId body <> "" ->
  AccountBody.type body <> "" ->
  AccountBody.branch body <> "" ->
  AccountBody.customerId body ∈ customers db ->
  accounts db !! newId = None ->
  let d := default 0 (AccountBody.initialDeposit body) in
  (numberTaken accountNumber (accounts db) ->
   openAccount newId accountNumber now body db
   = (db, Thrown (PrismaError "P2002")))
  /\ (~ numberTaken accountNumber (accounts db) ->
      exists db' account,
        openAccount newId accountNumber now body db = (db', Returned account)
        /\ accounts db' !! newId = Some account
        /\ Account.balance account = d
        /\ Account.availableBalance account = d
        /\ Account.accountNumber account = accountNumber
        /\ Account.customerId account = AccountBody.customerId body
        /\ Account.type account = AccountBody.type body
        /\ Account.branch account = AccountBody.branch body
        /\ Account.currency account = default "INR" (AccountBody.currency body)
        /\ Account.closedAt account = None
        /\ (forall id, id <> newId -> accounts db' !! id = accounts db !! id)
        /\ (numbersUnique db -> numbersUnique db')
        /\ (0 < d ->
            exists tx,
              transactions db' = (transactions db ++ [tx])%list
              /\ Transaction.type tx = credit
              /\ Transaction.mode tx = cash
              /\ Transaction.status tx = completed
              /\ Transaction.amount tx = d
              /\ Transaction.balanceAfter tx = d
              /\ Transaction.fromAccountId tx = None
              /\ Transaction.toAccountId tx = Some newId)
        /\ (d <= 0 -> transactions db' = transactions db)).
Proof.
  intros Hc Ht Hb Hcust Hfresh d.
  apply nonEmpty_true in Hc, Ht, Hb.
  split; intros Hnum;
    unfold openAccount; cbv zeta; fold d; rewrite Hc, Ht, Hb; cbn [negb orb];
    unfold bind at 1, findCustomer at 1;
    rewrite bool_decide_eq_true_2 by assumption; cbn [negb];
    unfold bind at 1, createAccount at 1; rewrite Hfresh;
    cbn [Account.accountNumber];
    destruct (decide (numberTaken accountNumber (accounts db)));
    try contradiction.
  - reflexivity.
  - pose proof (numbersUnique_insert db newId
                  (Account.mk accountNumber (AccountBody.customerId body)
                     (AccountBody.type body) (AccountBody.branch body)
                     (default "INR" (AccountBody.currency body)) d d active
                     None)
                  Hfresh Hnum) as Huniq.
    destruct (Z.ltb_spec 0 d) as [Hd|Hd];
      unfold bind, createTransaction, ret; cbn;
      eexists _, _; (split; [reflexivity|]); cbn;
      (split; [apply lookup_insert_eq|]);
      repeat (split; [reflexivity|]);
      (split; [intros id Hid; now rewrite lookup_insert_ne by congruence|]);
      (split; [exact Huniq|]).
    + split; [|lia]. intros _. eexists. split; [reflexivity|]. cbn. auto 10.
    + split; [lia|reflexivity].
Qed.

Lemma openAccount_creates_account_witness :
  (exists db' account,
     openAccount "acc9" "100112345678" 7
       (AccountBody.mk "cust1" "savings" "MAIN_BRANCH" None (Some 250000))
       Sample.db = (db', Returned account)
     /\ Account.balance account = 250000
     /\ Account.currency account = "INR"
     /\ length (transactions db') = 1%nat)
  /\ openAccount "acc9" "100100001001" 7
       (AccountBody.mk "cust1" "savings" "MAIN_BRANCH" None (Some 250000))
       Sample.db
     = (Sample.db, Thrown (PrismaError "P2002")).
Proof.
  split.
  - destruct (openAccount_creates_account "acc9" "100112345678" 7
                (AccountBody.mk "cust1" "savings" "MAIN_BRANCH" None
                   (Some 250000))
                Sample.db
                ltac:(vm_compute; congruence) ltac:(vm_compute; congruence)
                ltac:(vm_compute; congruence)
                ltac:(unfold Sample.db; cbn; set_solver) eq_refl)
      as [_ Hopen].
    destruct Hopen
      as (db' & account & Hrun & _ & Hbal & _ & _ & _ & _ & _ & Hcur & _ & _
          & _ & Htx & _).
    { apply (bool_decide_unpack _). vm_compute. exact I. }
    exists db', account. split; [exact Hrun|]. split; [exact Hbal|].
    split; [exact Hcur|].
    destruct (Htx eq_refl) as [tx [Hrows _]]. rewrite Hrows. reflexivity.
  - apply (openAccount_creates_account "acc9" "100100001001" 7
             (AccountBody.mk "cust1" "savings" "MAIN_BRANCH" None
                (Some 250000))
             Sample.db
             ltac:(vm_compute; congruence) ltac:(vm_compute; congruence)
             ltac:(vm_compute; congruence)
             ltac:(unfold Sample.db; cbn; set_solver) eq_refl).
    exists "acc1". eexists. split; reflexivity.
Defined.

(** X13.  Opening an account without a customer, a type or a branch fails
    with 'Customer ID, type, and branch are required' (400), and with all
    three but a customer that does not exist with 'Customer not found'
    (404); in both cases no account is created and no Transaction row is
    written, whatever the deposit. *)
Theorem openAccount_refuses (newId accountNumber : string) (now : Z)
    (body : AccountBody.t) (db : Db) :
  (AccountBody.customerId body = "" \/ AccountBody.type body = ""
   \/ AccountBody.branch body = "" ->
   openAccount newId accountNumber now body db
   = (db, Thrown (AppError "Customer ID, type, and branch are required" 400)))
  /\ (AccountBody.customerId body <> "" ->
      AccountBody.type body <> "" ->
      AccountBody.branch body <> "" ->
      AccountBody.customerId body ∉ customers db ->
      openAccount newId accountNumber now body db
      = (db, Thrown (AppError "Customer not found" 404))).
Proof.
  split.
  - intros Hmissing. unfold openAccount. cbv zeta.
    assert (Hreq : negb (nonEmpty (AccountBody.customerId body))
                   || negb (nonEmpty (AccountBody.type body))
                   || negb (nonEmpty (AccountBody.branch body)) = true).
    { unfold nonEmpty.
      destruct Hmissing as [-> | [-> | ->]]; cbn;
        rewrite ?orb_true_r; reflexivity. }
    now rewrite Hreq.
  - intros Hc Ht Hb Hcust. apply nonEmpty_true in Hc, Ht, Hb.
    unfold openAccount. cbv zeta. rewrite Hc, Ht, Hb. cbn [negb orb].
    unfold bind at 1, findCustomer at 1.
    now rewrite bool_decide_eq_false_2 by assumption.
Qed.

Lemma openAccount_refuses_witness :
  openAccount "acc9" "100112345678" 7
    (AccountBody.mk "cust1" "" "MAIN_BRANCH" None (Some 250000)) Sample.db
  = (Sample.db,
     Thrown (AppError "Customer ID, type, and branch are required" 400))
  /\ openAccount "acc9" "100112345678" 7
       (AccountBody.mk "cust7" "savings" "MAIN_BRANCH" None (Some 250000))
       Sample.db
     = (Sample.db, Thrown (AppError "Customer not found" 404)).
Proof.
  split.
  - destruct (openAccount_refuses "acc9" "100112345678" 7
                (AccountBody.mk "cust1" "" "MAIN_BRANCH" None (Some 250000))
                Sample.db) as [Hreq _].
    apply Hreq. right. left. reflexivity.
  - destruct (openAccount_refuses "acc9" "100112345678" 7
                (AccountBody.mk "cust7" "savings" "MAIN_BRANCH" None
                   (Some 250000)) Sample.db) as [_ Hcust].
    apply Hcust; vm_compute; congruence.
Defined.

(** ** The status of an account *)

Lemma statusOfString_Some s st :
  statusOfString s = Some st <->
  (s = "active" /\ st = active) \/ (s = "dormant" /\ st = dormant)
  \/ (s = "frozen" /\ st = frozen) \/ (s = "closed" /\ st = closed).
Proof.
  unfold statusOfString.
  destruct (String.eqb_spec s "active") as [->|H1];
    [split; [intros [= <-]; auto|intros [[_ ->]|[[? _]|[[? _]|[? _]]]];
                                  [reflexivity|discriminate..]]|].
  destruct (String.eqb_spec s "dormant") as [->|H2];
    [split; [intros [= <-]; auto|intros [[? _]|[[_ ->]|[[? _]|[? _]]]];
                                  [discriminate|reflexivity|discriminate..]]|].
  destruct (String.eqb_spec s "frozen") as [->|H3];
    [split; [intros [= <-]; auto|intros [[? _]|[[? _]|[[_ ->]|[? _]]]];
                                  [discriminate..|reflexivity|discriminate]]|].
  destruct (String.eqb_spec s "closed") as [->|H4];
    [split; [intros [= <-]; auto 6|intros [[? _]|[[? _]|[[? _]|[_ ->]]]];
                                    [discriminate..|reflexivity]]|].
  split; [discriminate|]. intros [[? _]|[[? _]|[[? _]|[? _]]]]; congruence.
Qed.

(** X14.  Setting the status of an account accepts exactly the four names
    active, dormant, frozen and closed: any other value fails with 'Invalid
    status' (400) before the account is looked up.  For an account that
    exists it returns the updated account, whatever status the account had
    before (a closed account can be made active again): the account has the
    new status; its closing date is the clock of the request when the new
    status is closed and is left as it was otherwise (so it survives a
    reopening); its number, customer, type, branch, currency and balances
    are unchanged, and so are all other accounts, the Transaction table and
    the ledger.  For an identifier that names no account the update is
    refused and nothing changes. *)
Theorem setAccountStatus_sets_status (id status : string) (now : Z) (db : Db) :
  (statusOfString status = None <->
   status <> "active" /\ status <> "dormant" /\ status <> "frozen"
   /\ status <> "closed")
  /\ (statusOfString status = None ->
      setAccountStatus id status now db
      = (db, Thrown (AppError "Invalid status" 400)))
  /\ (forall s,
      statusOfString status = Some s ->
      accounts db !! id = None ->
      setAccountStatus id status now db = (db, Thrown (PrismaError "P2025")))
  /\ (forall s a,
      statusOfString status = Some s ->
      accounts db !! id = Some a ->
      exists db' a',
        setAccountStatus id status now db = (db', Returned a')
        /\ accounts db' !! id = Some a'
        /\ Account.status a' = s
        /\ (s = closed -> Account.closedAt a' = Some now)
        /\ (s <> closed -> Account.closedAt a' = Account.closedAt a)
        /\ Account.accountNumber a' = Account.accountNumber a
        /\ Account.customerId a' = Account.customerId a
        /\ Account.type a' = Account.type a
        /\ Account.branch a' = Account.branch a
        /\ Account.currency a' = Account.currency a
        /\ Account.balance a' = Account.balance a
        /\ Account.availableBalance a' = Account.availableBalance a
        /\ (forall i, i <> id -> accounts db' !! i = accounts db !! i)
        /\ transactions db' = transactions db
        /\ glEntries db' = glEntries db).
Proof.
  split; [|split; [|split]].
  - split.
    + intros Hnone. repeat split; intros ->; discriminate Hnone.
    + intros (H1 & H2 & H3 & H4).
      destruct (statusOfString status) as [s|] eqn:Hs; [|reflexivity].
      apply statusOfString_Some in Hs. intuition congruence.
  - intros Hnone. unfold setAccountStatus. now rewrite Hnone.
  - intros s Hs Hid. unfold setAccountStatus, updateAccountStatus.
    now rewrite Hs, Hid.
  - intros s a Hs Hid. unfold setAccountStatus, updateAccountStatus.
    rewrite Hs, Hid. eexists _, _. split; [reflexivity|].
    cbn [accounts withAccounts transactions glEntries].
    split; [apply lookup_insert_eq|]. unfold withStatus.
    cbn [Account.status Account.closedAt Account.accountNumber
         Account.customerId Account.type Account.branch Account.currency
         Account.balance Account.availableBalance].
    split; [reflexivity|].
    split; [intros ->; reflexivity|].
    split; [intros Hopen; now destruct (decide (s = closed))|].
    repeat (split; [reflexivity|]).
    split; [|split; reflexivity].
    intros i Hi. now rewrite lookup_insert_ne by congruence.
Qed.

Lemma setAccountStatus_sets_status_witness :
  setAccountStatus "acc1" "suspended" 5 Sample.db
  = (Sample.db, Thrown (AppError "Invalid status" 400))
  /\ exists db' a',
      setAccountStatus "acc3" "closed" 5 Sample.db = (db', Returned a')
      /\ Account.status a' = closed
      /\ Account.closedAt a' = Some 5
      /\ Account.balance a' = 500000.
Proof.
  destruct (setAccountStatus_sets_status "acc1" "suspended" 5 Sample.db)
    as (_ & Hinvalid & _).
  destruct (setAccountStatus_sets_status "acc3" "closed" 5 Sample.db)
    as (_ & _ & _ & Hset).
  split; [apply Hinvalid; reflexivity|].
  destruct (Hset closed (Sample.account "100100001003" "cust2" 500000 frozen)
              eq_refl eq_refl)
    as (db' & a' & Hrun & _ & Hst & Hclosed & _ & _ & _ & _ & _ & _ & Hbal & _).
  exists db', a'. split; [exact Hrun|]. split; [exact Hst|].
  split; [now apply Hclosed|exact Hbal].
Defined.

Section Locked.
Variable decimalOfString : string -> option Decimal.
Variable scale : Z.

Lemma internal_source_inactive now body db A B :
  InternalBody.fromAccountId body <> "" ->
  InternalBody.toAccountId body <> "" ->
  InternalBody.fromAccountId body <> InternalBody.toAccountId body ->
  truthy (InternalBody.amount body) = true ->
  accounts db !! InternalBody.fromAccountId body = Some A ->
  accounts db !! InternalBody.toAccountId body = Some B ->
  Account.status A <> active ->
  transferInternal decimalOfString now body db
  = (db, Thrown (AppError "Source account is not active" 400)).
Proof.
  intros Hf Ht Hne Htr HA HB Hs. apply nonEmpty_true in Hf, Ht.
  unfold transferInternal. cbv zeta. rewrite Hf, Ht, Htr. cbn [negb orb].
  destruct (String.eqb_spec (InternalBody.fromAccountId body)
              (InternalBody.toAccountId body)) as [|_]; [congruence|].
  unfold bind at 1, findAccount at 1. unfold bind at 1, findAccount at 1.
  rewrite HA, HB. now rewrite (not_active_failed A Hs).
Qed.

Lemma internal_destination_inactive now body db A B :
  InternalBody.fromAccountId body <> "" ->
  InternalBody.toAccountId body <> "" ->
  InternalBody.fromAccountId body <> InternalBody.toAccountId body ->
  truthy (InternalBody.amount body) = true ->
  accounts db !! InternalBody.fromAccountId body = Some A ->
  accounts db !! InternalBody.toAccountId body = Some B ->
  Account.status A = active ->
  Account.status B <> active ->
  transferInternal decimalOfString now body db
  = (db, Thrown (AppError "Destination account is not active" 400)).
Proof.
  intros Hf Ht Hne Htr HA HB HsA HsB. apply nonEmpty_true in Hf, Ht.
  unfold transferInternal. cbv zeta. rewrite Hf, Ht, Htr. cbn [negb orb].
  destruct (String.eqb_spec (InternalBody.fromAccountId body)
              (InternalBody.toAccountId body)) as [|_]; [congruence|].
  unfold bind at 1, findAccount at 1. unfold bind at 1, findAccount at 1.
  rewrite HA, HB. rewrite bool_decide_eq_true_2 by assumption. cbn [negb].
  now rewrite (not_active_failed B HsB).
Qed.

Lemma neft_source_inactive body db A :
  RailBody.fromAccountId body <> "" ->
  RailBody.beneficiaryAccount body <> "" ->
  RailBody.beneficiaryName body <> "" ->
  RailBody.beneficiaryIfsc body <> "" ->
  truthy (RailBody.amount body) = true ->
  accounts db !! RailBody.fromAccountId body = Some A ->
  Account.status A <> active ->
  transferNeft decimalOfString body db
  = (db, Thrown (AppError "Source account is not active" 400)).
Proof.
  intros Hf Hba Hbn Hbi Htr HA Hs. apply nonEmpty_true in Hf, Hba, Hbn, Hbi.
  unfold transferNeft. cbv zeta. rewrite Hf, Hba, Hbn, Hbi, Htr.
  cbn [negb orb]. unfold bind at 1, findAccount at 1.
  rewrite HA. now rewrite (not_active_failed A Hs).
Qed.

Lemma imps_source_inactive now body db A m :
  RailBody.fromAccountId body <> "" ->
  RailBody.beneficiaryAccount body <> "" ->
  RailBody.beneficiaryName body <> "" ->
  RailBody.beneficiaryIfsc body <> "" ->
  truthy (RailBody.amount body) = true ->
  decimalOf decimalOfString (RailBody.amount body) = Some m ->
  m <= 500000 * scale ->
  accounts db !! RailBody.fromAccountId body = Some A ->
  Account.status A <> active ->
  transferImps decimalOfString scale now body db
  = (db, Thrown (AppError "Source account is not active" 400)).
Proof.
  intros Hf Hba Hbn Hbi Htr Hdec Hceil HA Hs.
  apply nonEmpty_true in Hf, Hba, Hbn, Hbi.
  unfold transferImps. cbv zeta. rewrite Hf, Hba, Hbn, Hbi, Htr.
  cbn [negb orb]. unfold bind at 1. rewrite (newDecimal_some _ _ _ _ Hdec).
  destruct (Z.ltb_spec (500000 * scale) m) as [|_]; [lia|].
  unfold bind at 1, findAccount at 1.
  rewrite HA. now rewrite (not_active_failed A Hs).
Qed.

End Locked.

(** X15.  Once the status route has given an account a status other than
    active (dormant, frozen or closed) no transfer moves its funds: an
    internal transfer out of it or into it, from or to another account that
    exists, and a deferred or instant transfer out of it fail with 'Source
    account is not active' or 'Destination account is not active' and
    change nothing, whatever the balances.  Setting the status of an account
    that was active back to active restores every account as it was when
    the status in between was dormant or frozen; after a closing the account
    is active again with its balances but keeps the closing date. *)
Theorem inactive_account_is_locked
    (decimalOfString : string -> option Decimal) (scale now : Z)
    (id status : string) (at1 at2 : Z) (s : AccountStatus) (a : Account.t)
    (db : Db) :
  id <> "" ->
  accounts db !! id = Some a ->
  statusOfString status = Some s ->
  s <> active ->
  let db1 := after (setAccountStatus id status at1) db in
  (forall body B,
     InternalBody.fromAccountId body = id ->
     InternalBody.toAccountId body <> "" ->
     InternalBody.toAccountId body <> id ->
     truthy (InternalBody.amount body) = true ->
     accounts db !! InternalBody.toAccountId body = Some B ->
     transferInternal decimalOfString now body db1
     = (db1, Thrown (AppError "Source account is not active" 400)))
  /\ (forall body A,
     InternalBody.toAccountId body = id ->
     InternalBody.fromAccountId body <> "" ->
     InternalBody.fromAccountId body <> id ->
     truthy (InternalBody.amount body) = true ->
     accounts db !! InternalBody.fromAccountId body = Some A ->
     Account.status A = active ->
     transferInternal decimalOfString now body db1
     = (db1, Thrown (AppError "Destination account is not active" 400)))
  /\ (forall body,
     RailBody.fromAccountId body = id ->
     RailBody.beneficiaryAccount body <> "" ->
     RailBody.beneficiaryName body <> "" ->
     RailBody.beneficiaryIfsc body <> "" ->
     truthy (RailBody.amount body) = true ->
     transferNeft decimalOfString body db1
     = (db1, Thrown (AppError "Source account is not active" 400)))
  /\ (forall body m,
     RailBody.fromAccountId body = id ->
     RailBody.beneficiaryAccount body <> "" ->
     RailBody.beneficiaryName body <> "" ->
     RailBody.beneficiaryIfsc body <> "" ->
     truthy (RailBody.amount body) = true ->
     decimalOf decimalOfString (RailBody.amount body) = Some m ->
     m <= 500000 * scale ->
     transferImps decimalOfString scale now body db1
     = (db1, Thrown (AppError "Source account is not active" 400)))
  /\ (Account.status a = active ->
      let db2 := after (setAccountStatus id "active" at2) db1 in
      (s <> closed -> accounts db2 = accounts db)
      /\ (s = closed ->
          exists a2,
            accounts db2 = <[id := a2]> (accounts db)
            /\ Account.status a2 = active
            /\ Account.closedAt a2 = Some at1
            /\ Account.balance a2 = Account.balance a
            /\ Account.availableBalance a2 = Account.availableBalance a)).
Proof.
  intros Hid Ha Hs Hna db1.
  assert (Hdb1 : db1 = withAccounts db
                         (<[id := withStatus a s at1]> (accounts db))).
  { unfold db1, after, setAccountStatus, updateAccountStatus.
    now rewrite Hs, Ha. }
  assert (Ha1 : accounts db1 !! id = Some (withStatus a s at1)).
  { rewrite Hdb1. cbn. apply lookup_insert_eq. }
  assert (Hother : forall i, i <> id -> accounts db1 !! i = accounts db !! i).
  { intros i Hi. rewrite Hdb1. cbn. now rewrite lookup_insert_ne by congruence. }
  clearbody db1.
  assert (Hlocked : Account.status (withStatus a s at1) <> active) by exact Hna.
  split; [|split; [|split; [|split]]].
  - intros body B Hfrom Hto Hne Htr HB.
    apply (internal_source_inactive _ now body db1 (withStatus a s at1) B);
      try congruence.
    rewrite Hother by assumption. exact HB.
  - intros body A Hto Hfrom Hne Htr HA HsA.
    apply (internal_destination_inactive _ now body db1 A
             (withStatus a s at1));
      try congruence.
    rewrite Hother by assumption. exact HA.
  - intros body Hfrom Hba Hbn Hbi Htr.
    apply (neft_source_inactive _ body db1 (withStatus a s at1)); congruence.
  - intros body m Hfrom Hba Hbn Hbi Htr Hdec Hceil.
    apply (imps_source_inactive _ scale now body db1 (withStatus a s at1) m);
      congruence.
  - intros Hact db2.
    assert (Hdb2 : accounts db2
                   = <[id := withStatus (withStatus a s at1) active at2]>
                       (accounts db)).
    { unfold db2, after, setAccountStatus, updateAccountStatus.
      cbn [statusOfString String.eqb Ascii.eqb Bool.eqb]. rewrite Ha1.
      cbn [fst accounts withAccounts]. rewrite Hdb1.
      cbn [accounts withAccounts]. apply insert_insert_eq. }
    split.
    + intros Hopen. rewrite Hdb2. apply insert_id. rewrite Ha. f_equal.
      destruct a. unfold withStatus. cbn in *. subst.
      now destruct (decide (s = closed)).
    + intros ->. eexists. split; [exact Hdb2|]. now cbn.
Qed.

Lemma inactive_account_is_locked_witness :
  let db1 := after (setAccountStatus "acc1" "frozen" 5) Sample.db in
  transferInternal Sample.wholeUnits 7 (Sample.internalBody (JsNumber 100)) db1
  = (db1, Thrown (AppError "Source account is not active" 400))
  /\ accounts (after (setAccountStatus "acc1" "active" 9) db1)
     = accounts Sample.db.
Proof.
  cbv zeta.
  destruct (inactive_account_is_locked Sample.wholeUnits Sample.scale 7
              "acc1" "frozen" 5 9 frozen
              (Sample.account "100100001001" "cust1" 15000000 active) Sample.db
              ltac:(congruence) eq_refl eq_refl ltac:(congruence))
    as (Hout & _ & _ & _ & Hback).
  split.
  - apply (Hout (Sample.internalBody (JsNumber 100))
             (Sample.account "100100001002" "cust2" 0 active));
      try reflexivity; vm_compute; congruence.
  - apply Hback; [reflexivity|congruence].
Defined.

(** ** The statement of an account *)

Section StatementFacts.
Variable createdAt : Transaction.t -> Z.

Lemma insertByCreatedAt_perm t l : insertByCreatedAt createdAt t l ≡ₚ t :: l.
Proof.
  induction l as [|x l IH]; cbn; [reflexivity|].
  destruct (createdAt x <? createdAt t); [|reflexivity].
  rewrite IH. apply Permutation_swap.
Qed.

Lemma orderByCreatedAt_perm l : orderByCreatedAt createdAt l ≡ₚ l.
Proof.
  induction l as [|x l IH]; cbn; [reflexivity|].
  rewrite insertByCreatedAt_perm. now rewrite IH.
Qed.

Lemma insertByCreatedAt_sorted t l :
  StronglySorted (fun x y => createdAt x <= createdAt y) l ->
  StronglySorted (fun x y => createdAt x <= createdAt y)
    (insertByCreatedAt createdAt t l).
Proof.
  induction l as [|x l IH]; intros Hs; cbn.
  - repeat constructor.
  - apply StronglySorted_inv in Hs as [Hl Hx].
    destruct (Z.ltb_spec (createdAt x) (createdAt t)) as [Hlt|Hge].
    + constructor; [now apply IH|].
      apply Forall_forall. intros y Hy.
      rewrite insertByCreatedAt_perm in Hy.
      apply elem_of_cons in Hy as [->|Hy]; [lia|].
      rewrite Forall_forall in Hx. exact (Hx y Hy).
    + constructor; [now constructor|].
      constructor; [exact Hge|].
      apply Forall_forall. intros y Hy.
      rewrite Forall_forall in Hx. pose proof (Hx y Hy). lia.
Qed.

Lemma orderByCreatedAt_sorted l :
  StronglySorted (fun x y => createdAt x <= createdAt y)
    (orderByCreatedAt createdAt l).
Proof.
  induction l as [|x l IH]; cbn; [constructor|].
  now apply insertByCreatedAt_sorted.
Qed.

End StatementFacts.

Lemma statementSelects_true createdAt id startDate endDate t :
  statementSelects createdAt id startDate endDate t = true <->
  (Transaction.fromAccountId t = Some id \/ Transaction.toAccountId t = Some id)
  /\ Transaction.status t = completed
  /\ match startDate, endDate with
     | Some s, Some e => s <= createdAt t <= e
     | _, _ => True
     end.
Proof.
  unfold statementSelects.
  rewrite !andb_true_iff, orb_true_iff, !bool_decide_eq_true.
  destruct startDate as [s|], endDate as [e|];
    rewrite ?andb_true_iff, ?Z.leb_le; tauto.
Qed.

Lemma statement_run createdAt id startDate endDate db a :
  accounts db !! id = Some a ->
  statement createdAt id startDate endDate db
  = (db,
     Returned
       (a, orderByCreatedAt createdAt
             (filter (fun t => statementSelects createdAt id startDate endDate t
                               = true) (transactions db)))).
Proof.
  intros Ha. unfold statement, bind, findAccount. now rewrite Ha.
Qed.

Lemma statement_rows_elem createdAt id startDate endDate db t :
  t ∈ orderByCreatedAt createdAt
        (filter (fun t => statementSelects createdAt id startDate endDate t
                          = true) (transactions db))
  <-> t ∈ transactions db
      /\ statementSelects createdAt id startDate endDate t = true.
Proof.
  rewrite orderByCreatedAt_perm, list_elem_of_filter. tauto.
Qed.

Lemma statement_shows_row createdAt id (l : list Transaction.t) t :
  t ∈ l ->
  Transaction.fromAccountId t = Some id \/ Transaction.toAccountId t = Some id ->
  Transaction.status t = completed ->
  t ∈ orderByCreatedAt createdAt
        (filter (fun t => statementSelects createdAt id None None t = true) l).
Proof.
  intros Hin Hid Hst. rewrite orderByCreatedAt_perm, list_elem_of_filter.
  split; [|exact Hin]. apply statementSelects_true. auto.
Qed.

(** X16.  The statement of an account that does not exist fails with
    'Account not found' (404).  For an account that exists it returns the
    account and the rows of the Transaction table in which the account is
    the source or the destination and whose status is completed, each as
    often as it is in the table, in ascending order of creation, and leaves
    the database as it was.  Rows are restricted to a period only when both
    its start and its end are given; a start or an end alone is ignored. *)
Theorem statement_lists_completed_rows (createdAt : Transaction.t -> Z)
    (id : string) (startDate endDate : option Z) (db : Db) :
  (accounts db !! id = None ->
   statement createdAt id startDate endDate db
   = (db, Thrown (AppError "Account not found" 404)))
  /\ (forall a,
      accounts db !! id = Some a ->
      exists rows,
        statement createdAt id startDate endDate db = (db, Returned (a, rows))
        /\ StronglySorted (fun x y => createdAt x <= createdAt y) rows
        /\ rows ≡ₚ filter (fun t => statementSelects createdAt id startDate
                                      endDate t = true) (transactions db)
        /\ (forall t,
              t ∈ rows <->
              t ∈ transactions db
              /\ (Transaction.fromAccountId t = Some id
                  \/ Transaction.toAccountId t = Some id)
              /\ Transaction.status t = completed
              /\ match startDate, endDate with
                 | Some s, Some e => s <= createdAt t <= e
                 | _, _ => True
                 end)).
Proof.
  split.
  - intros Hnone. unfold statement, bind, findAccount. now rewrite Hnone.
  - intros a Ha. eexists. split; [now apply statement_run|].
    split; [apply orderByCreatedAt_sorted|].
    split; [apply orderByCreatedAt_perm|].
    intros t. rewrite statement_rows_elem, statementSelects_true. tauto.
Qed.

Lemma statement_lists_completed_rows_witness :
  statement (fun t => Z.of_N (Transaction.id t)) "nobody" None None Sample.db
  = (Sample.db, Thrown (AppError "Account not found" 404))
  /\ exists rows,
      statement (fun t => Z.of_N (Transaction.id t)) "acc2" (Some 5) None
        Sample.db
      = (Sample.db,
         Returned (Sample.account "100100001002" "cust2" 0 active, rows)).
Proof.
  destruct (statement_lists_completed_rows (fun t => Z.of_N (Transaction.id t))
              "nobody" None None Sample.db) as [Hmissing _].
  destruct (statement_lists_completed_rows (fun t => Z.of_N (Transaction.id t))
              "acc2" (Some 5) None Sample.db) as [_ Hfound].
  split; [apply Hmissing; reflexivity|].
  destruct (Hfound _ eq_refl) as (rows & Hrun & _). eauto.
Defined.

(** X17.  What a statement shows of a transfer.  After a committed
    internal transfer both legs are in the statement of the source and both
    are in the statement of the destination, so each statement shows the
    transfer twice: once with the balanceAfter of its own account and once
    with that of the other account.  After a committed deferred transfer
    the source's balance has gone down but the row, still pending, is not in
    its statement.  After a committed instant transfer the row is in the
    source's statement, and its balanceAfter is the source's balance. *)
Theorem statement_after_transfer (createdAt : Transaction.t -> Z)
    (decimalOfString : string -> option Decimal) (scale now : Z)
    (db db' : Db) :
  (forall body debitTx creditTx,
     transferInternal decimalOfString now body db
     = (db', Returned (debitTx, creditTx)) ->
     exists A' B' rowsA rowsB,
       statement createdAt (InternalBody.fromAccountId body) None None db'
       = (db', Returned (A', rowsA))
       /\ statement createdAt (InternalBody.toAccountId body) None None db'
          = (db', Returned (B', rowsB))
       /\ debitTx ∈ rowsA /\ creditTx ∈ rowsA
       /\ debitTx ∈ rowsB /\ creditTx ∈ rowsB
       /\ Transaction.balanceAfter debitTx = Account.balance A'
       /\ Transaction.balanceAfter creditTx = Account.balance B')
  /\ (forall body tx A,
     transferNeft decimalOfString body db = (db', Returned tx) ->
     accounts db !! RailBody.fromAccountId body = Some A ->
     exists A' rows,
       statement createdAt (RailBody.fromAccountId body) None None db'
       = (db', Returned (A', rows))
       /\ Account.balance A' = Account.balance A - Transaction.amount tx
       /\ tx ∉ rows)
  /\ (forall body tx,
     transferImps decimalOfString scale now body db = (db', Returned tx) ->
     exists A' rows,
       statement createdAt (RailBody.fromAccountId body) None None db'
       = (db', Returned (A', rows))
       /\ tx ∈ rows
       /\ Transaction.balanceAfter tx = Account.balance A').
Proof.
  split; [|split].
  - intros body d c Hrun. pose proof Hrun as Hinv.
    apply transferInternal_returns_inv in Hinv
      as (A & B & m & Hf & Ht & Hne & Htr & Hdec & HA & HB & HsA & HsB & Hle).
    rewrite (transferInternal_commits _ now body db A B m) in Hrun by assumption.
    cbv zeta in Hrun. injection Hrun as <- <- <-.
    eexists (addToBalances A (- m)), (addToBalances B m), _, _.
    split; [apply statement_run; cbn;
            rewrite lookup_insert_ne by congruence; apply lookup_insert_eq|].
    split; [apply statement_run; cbn; apply lookup_insert_eq|].
    cbn [transactions].
    repeat split;
      try (apply statement_shows_row;
           [rewrite elem_of_app, !elem_of_cons; tauto|cbn; auto|reflexivity]);
      cbn; lia.
  - intros body tx A Hrun HA. pose proof Hrun as Hinv.
    apply transferNeft_returns_inv in Hinv
      as (A0 & m & Hf & Hba & Hbn & Hbi & Htr & Hdec & HA0 & HsA & Hle).
    assert (A0 = A) as -> by congruence.
    rewrite (transferNeft_commits _ body db A m) in Hrun by assumption.
    cbv zeta in Hrun. injection Hrun as <- <-.
    eexists (addToBalances A (- m)), _.
    split; [apply statement_run; cbn; apply lookup_insert_eq|].
    split; [cbn; lia|].
    rewrite statement_rows_elem. intros [_ Hsel].
    apply statementSelects_true in Hsel as (_ & Hst & _). discriminate Hst.
  - intros body tx Hrun. pose proof Hrun as Hinv.
    apply transferImps_returns_inv in Hinv
      as (A & m & Hf & Hba & Hbn & Hbi & Htr & Hdec & Hceil & HA & HsA & Hle).
    rewrite (transferImps_commits _ scale now body db A m) in Hrun by assumption.
    cbv zeta in Hrun. injection Hrun as <- <-.
    eexists (addToBalances A (- m)), _.
    split; [apply statement_run; cbn; apply lookup_insert_eq|].
    split; [|cbn; lia].
    apply statement_shows_row;
      [cbn; rewrite elem_of_app, elem_of_cons; auto|cbn; auto|reflexivity].
Qed.

Lemma statement_after_transfer_witness :
  exists db' tx A' rows,
    transferNeft Sample.wholeUnits (Sample.railBody (JsNumber 500000)) Sample.db
    = (db', Returned tx)
    /\ statement (fun t => Z.of_N (Transaction.id t)) "acc1" None None db'
       = (db', Returned (A', rows))
    /\ Account.balance A' = 14500000
    /\ tx ∉ rows.
Proof.
  destruct (transferNeft Sample.wholeUnits (Sample.railBody (JsNumber 500000))
              Sample.db) as [db' [tx|e]] eqn:Hrun;
    [|vm_compute in Hrun; discriminate Hrun].
  destruct (statement_after_transfer (fun t => Z.of_N (Transaction.id t))
              Sample.wholeUnits Sample.scale 7 Sample.db db')
    as (_ & Hneft & _).
  destruct (Hneft _ tx (Sample.account "100100001001" "cust1" 15000000 active)
              Hrun eq_refl) as (A' & rows & Hst & Hbal & Hnot).
  exists db', tx, A', rows. split; [reflexivity|]. split; [exact Hst|].
  split; [|exact Hnot].
  rewrite Hbal. vm_compute in Hrun. injection Hrun as _ <-. reflexivity.
Defined.

(** ** Sequences of ledger operations *)

Lemma withGl_glEntries db : withGl db (glEntries db) = db.
Proof. now destruct db. Qed.

Lemma after_eq {A} (h : Handler A) db db' r : h db = (db', r) -> after h db = db'.
Proof. intros H. unfold after. now rewrite H. Qed.

Lemma after_run {A} (h : Handler A) db : exists r, h db = (after h db, r).
Proof. unfold after. destruct (h db) as [db' r]. now exists r. Qed.

Lemma runGlOp_evolves db op : ledgerEvolves db (runGlOp db op).
Proof.
  destruct op as [id actor now|id actor now reason|ids actor now]; cbn.
  - destruct (after_run (postGLEntry id actor now) db) as [r Hr].
    eapply postGLEntry_evolves; eauto.
  - destruct (after_run (reverseGLEntry id actor now reason) db) as [r Hr].
    eapply reverseGLEntry_evolves; eauto.
  - destruct (after_run (batchPostGLEntries ids actor now) db) as [r Hr].
    eapply batchPostGLEntries_evolves; eauto.
Qed.

Lemma runGlOp_frame db op :
  accounts (runGlOp db op) = accounts db
  /\ transactions (runGlOp db op) = transactions db
  /\ customers (runGlOp db op) = customers db.
Proof.
  destruct op as [id actor now|id actor now reason|ids actor now]; cbn.
  - unfold after. pose proof (postGLEntry_spec id actor now db) as Hs.
    destruct (lookupEntry id (glEntries db)) as [e|].
    + destruct (decide (GLEntry.postingStatus e = pending));
        rewrite Hs; auto.
    + rewrite Hs. auto.
  - unfold after. destruct (String.eqb_spec reason "") as [->|Hr].
    { rewrite reverseGLEntry_no_reason. auto. }
    pose proof (reverseGLEntry_spec id actor now reason db Hr) as Hs.
    destruct (lookupEntry id (glEntries db)) as [e|].
    + destruct (decide (GLEntry.postingStatus e = posted));
        rewrite Hs; auto.
    + rewrite Hs. auto.
  - destruct ids as [ids|]; cbn; auto.
Qed.

Lemma statusStep_rank s s' :
  statusStep s s' ->
  (statusRank s <= statusRank s')%nat /\ (s = reversed -> s' = reversed).
Proof. intros []; cbn; split; auto; try lia; discriminate. Qed.

(** X18.  Over any sequence of post, reverse and batch-post requests,
    whatever their arguments and whether they succeed or fail: no ledger
    entry is added, removed or reordered; the id, account code, direction,
    amount and posting date of every entry are never changed; its status
    never moves back along pending, posted, reversed, so a reversed entry
    stays reversed for good; and no account or Transaction row is touched. *)
Theorem gl_history_is_monotonic (ops : list GlOp) (db : Db) :
  Forall2 (fun e e' =>
             GLEntry.id e' = GLEntry.id e
             /\ GLEntry.accountCode e' = GLEntry.accountCode e
             /\ GLEntry.type e' = GLEntry.type e
             /\ GLEntry.amount e' = GLEntry.amount e
             /\ GLEntry.postingDate e' = GLEntry.postingDate e
             /\ (statusRank (GLEntry.postingStatus e)
                 <= statusRank (GLEntry.postingStatus e'))%nat
             /\ (GLEntry.postingStatus e = reversed ->
                 GLEntry.postingStatus e' = reversed))
    (glEntries db) (glEntries (runGlOps ops db))
  /\ accounts (runGlOps ops db) = accounts db
  /\ transactions (runGlOps ops db) = transactions db.
Proof.
  unfold runGlOps. induction ops as [|op ops IH] using rev_ind.
  - cbn. split; [|auto].
    apply Forall_Forall2_diag, Forall_forall. intros e _. auto 10.
  - rewrite fold_left_app. cbn [fold_left].
    set (mid := fold_left runGlOp ops db) in *.
    destruct IH as (IHe & IHa & IHt).
    destruct (runGlOp_frame mid op) as (Ha & Ht & _).
    split; [|split; congruence].
    pose proof (runGlOp_evolves mid op) as Hstep. unfold ledgerEvolves in Hstep.
    revert IHe Hstep. generalize (glEntries (runGlOp mid op)).
    generalize (glEntries mid). generalize (glEntries db).
    intros l1 l2 l3 H12. revert l3.
    induction H12 as [|e1 e2 l1 l2 He Hl IHl]; intros l3 H23;
      inversion H23 as [|e2' e3 l2' l3' He' Hl']; subst; constructor.
    + destruct He as (? & ? & ? & ? & ? & Hrk & Hrev).
      destruct He' as (? & ? & ? & ? & ? & Hst).
      apply statusStep_rank in Hst as [Hrk' Hrev'].
      repeat split; try congruence; [lia|auto].
    + now apply IHl.
Qed.

Lemma gl_history_is_monotonic_witness :
  let db' :=
    runGlOps [ OpReverse "e1" "admin" 20 "wrong account";
               OpPost "e1" "admin" 21;
               OpBatchPost (Some ["e1"; "e3"]) "admin" 22;
               OpReverse "e3" "admin" 23 "" ] Sample.glDb in
  entryStatus "e1" db' = Some reversed
  /\ entryStatus "e3" db' = Some posted
  /\ length (glEntries db') = 4%nat.
Proof.
  cbv zeta.
  destruct (gl_history_is_monotonic
              [ OpReverse "e1" "admin" 20 "wrong account";
                OpPost "e1" "admin" 21;
                OpBatchPost (Some ["e1"; "e3"]) "admin" 22;
                OpReverse "e3" "admin" 23 "" ] Sample.glDb) as (Hall & _).
  apply Forall2_length in Hall.
  split; [reflexivity|]. split; [reflexivity|]. rewrite <- Hall. reflexivity.
Defined.

Lemma replaceEntry_twice id (f g : GLEntry.t -> GLEntry.t) l :
  (forall e, GLEntry.id (f e) = GLEntry.id e) ->
  replaceEntry id g (replaceEntry id f l) = replaceEntry id (fun e => g (f e)) l.
Proof.
  intros Hid. induction l as [|x l IH]; [reflexivity|]. cbn [replaceEntry].
  destruct (String.eqb (GLEntry.id x) id) eqn:Hx; cbn [replaceEntry].
  - now rewrite Hid, Hx.
  - now rewrite Hx, IH.
Qed.

Lemma filter_replaceEntry (P : GLEntry.t -> Prop) `{forall e, Decision (P e)}
    id (f : GLEntry.t -> GLEntry.t) l e :
  lookupEntry id l = Some e -> ~ P e -> ~ P (f e) ->
  filter P (replaceEntry id f l) = filter P l.
Proof.
  unfold lookupEntry. induction l as [|x l IH]; [discriminate|].
  cbn [find replaceEntry]. intros Hfind Hp Hpf.
  destruct (String.eqb (GLEntry.id x) id).
  - injection Hfind as ->.
    now rewrite !filter_cons_False by assumption.
  - rewrite !filter_cons. now rewrite IH.
Qed.

(** X19.  Posting a pending entry and then reversing it leaves the entry
    reversed and the trial balance exactly as it was before the posting, for
    every date, in any number arithmetic and whatever the order in which
    the database answers the groups (the same groups are answered before
    and after): a reversal takes the entry out of the report, it does not
    add an offsetting amount. *)
Theorem post_then_reverse_leaves_report (id actor actor' reason : string)
    (now now' : Z) (db : Db) :
  entryStatus id db = Some pending ->
  reason <> "" ->
  let db2 := after (reverseGLEntry id actor' now' reason)
               (after (postGLEntry id actor now) db) in
  entryStatus id db2 = Some reversed
  /\ forall (num : JsArith) (order : GroupOrder) (clock : Z)
            (asOfDate : option Z),
       (trialBalance clock asOfDate db2).2 = (trialBalance clock asOfDate db).2.
Proof.
  intros Hs Hr. cbv zeta.
  apply entryStatus_lookup in Hs as (e & He & Hp).
  pose proof (postGLEntry_spec id actor now db) as H1. rewrite He in H1.
  destruct (decide (GLEntry.postingStatus e = pending)); [|contradiction].
  rewrite (after_eq _ _ _ _ H1).
  set (db1 := withGl db (replaceEntry id (markPosted actor now) (glEntries db))).
  assert (He1 : lookupEntry id (glEntries db1) = Some (markPosted actor now e)).
  { unfold db1, withGl. cbn [glEntries].
    rewrite lookupEntry_replace by reflexivity. now rewrite He. }
  pose proof (reverseGLEntry_spec id actor' now' reason db1 Hr) as H2.
  rewrite He1 in H2. cbn [GLEntry.postingStatus markPosted] in H2.
  destruct (decide (posted = posted)); [|contradiction].
  rewrite (after_eq _ _ _ _ H2).
  split.
  - unfold entryStatus, withGl at 1. cbn [glEntries].
    rewrite lookupEntry_replace by reflexivity. now rewrite He1.
  - intros num order clock asOfDate. rewrite !trialBalance_run. cbn [snd].
    do 4 f_equal. unfold postedAsOf, db1, withGl. cbn [glEntries].
    rewrite replaceEntry_twice by reflexivity.
    apply (filter_replaceEntry _ _ _ _ e He).
    + intros [Hst _]. congruence.
    + intros [Hst _]. discriminate Hst.
Qed.

Lemma post_then_reverse_leaves_report_witness :
  let db2 := after (reverseGLEntry "e3" "admin" 21 "entered twice")
               (after (postGLEntry "e3" "admin" 20) Sample.glDb) in
  entryStatus "e3" db2 = Some reversed
  /\ (@trialBalance (doubleNumber Sample.scale) backwards 30 None db2).2
     = (@trialBalance (doubleNumber Sample.scale) backwards 30 None
          Sample.glDb).2.
Proof.
  cbv zeta.
  destruct (post_then_reverse_leaves_report "e3" "admin" "admin"
              "entered twice" 20 21 Sample.glDb eq_refl ltac:(congruence))
    as [Hst Hrep].
  split; [exact Hst|]. apply Hrep.
Defined.

Lemma batch_singleton_is_post id actor now db :
  NoDup (map GLEntry.id (glEntries db)) ->
  after (batchPostGLEntries (Some [id]) actor now) db
  = after (postGLEntry id actor now) db.
Proof.
  intros Hnd. unfold after at 1. rewrite batchPost_run. cbn [fst].
  pose proof (postGLEntry_spec id actor now db) as Hs.
  destruct (lookupEntry id (glEntries db)) as [e|] eqn:He.
  - pose proof (lookupEntry_Some _ _ _ He) as [Hin Hid].
    destruct (decide (GLEntry.postingStatus e = pending)) as [Hp|Hp];
      rewrite (after_eq _ _ _ _ Hs).
    + f_equal.
      destruct (map_select_single (batchSelects [id]) (markPosted actor now)
                  (glEntries db) e Hnd Hin) as [Hm _].
      { intros x Hx. rewrite batchSelects_true, list_elem_of_singleton. split.
        - intros [Hxid _]. apply (entry_id_inj (glEntries db)); congruence.
        - intros ->. auto. }
      rewrite Hm. now rewrite Hid.
    + destruct (map_unselected (batchSelects [id]) (markPosted actor now)
                  (glEntries db)) as [Hm _].
      { intros x Hx. destruct (batchSelects [id] x) eqn:Hsel; [|reflexivity].
        apply batchSelects_true in Hsel as [Hxid Hxp].
        apply list_elem_of_singleton in Hxid.
        assert (x = e) by (apply (entry_id_inj (glEntries db)); congruence).
        congruence. }
      rewrite Hm. apply withGl_glEntries.
  - rewrite (after_eq _ _ _ _ Hs).
    destruct (map_unselected (batchSelects [id]) (markPosted actor now)
                (glEntries db)) as [Hm _].
    { intros x Hx. destruct (batchSelects [id] x) eqn:Hsel; [|reflexivity].
      apply batchSelects_true in Hsel as [Hxid _].
      apply list_elem_of_singleton in Hxid.
      unfold lookupEntry in He. apply list_elem_of_In in Hx.
      apply (find_none _ _ He x) in Hx.
      apply String.eqb_neq in Hx. contradiction. }
    rewrite Hm. apply withGl_glEntries.
Qed.

Lemma batch_cons id ids actor now db :
  after (batchPostGLEntries (Some (id :: ids)) actor now) db
  = after (batchPostGLEntries (Some ids) actor now)
      (after (batchPostGLEntries (Some [id]) actor now) db).
Proof.
  unfold after. rewrite !batchPost_run. cbn [fst glEntries withGl].
  destruct db as [acc txs gl cust seq]. unfold withGl. cbn. f_equal.
  rewrite map_map. apply map_ext. intros x.
  destruct (batchSelects [id] x) eqn:Hone.
  - apply batchSelects_true in Hone as [Hx Hp].
    apply list_elem_of_singleton in Hx.
    assert (Hsel : batchSelects (id :: ids) x = true).
    { apply batchSelects_true.
      split; [rewrite Hx; apply list_elem_of_here|exact Hp]. }
    assert (Hdone : batchSelects ids (markPosted actor now x) = false).
    { unfold batchSelects. cbn. apply andb_false_r. }
    now rewrite Hsel, Hdone.
  - assert (Hsame : batchSelects (id :: ids) x = batchSelects ids x).
    { destruct (batchSelects ids x) eqn:Hrest.
      - apply batchSelects_true in Hrest as [Hx Hp].
        apply batchSelects_true.
        split; [now apply list_elem_of_further|exact Hp].
      - destruct (batchSelects (id :: ids) x) eqn:Hall; [|reflexivity].
        apply batchSelects_true in Hall as [Hx Hp].
        apply elem_of_cons in Hx as [Hx|Hx].
        + assert (batchSelects [id] x = true); [|congruence].
          apply batchSelects_true.
          split; [now apply list_elem_of_singleton|exact Hp].
        + assert (batchSelects ids x = true); [|congruence].
          now apply batchSelects_true. }
    now rewrite Hsame.
Qed.

Lemma batchPost_keeps_ids ids actor now db :
  map GLEntry.id (glEntries (after (batchPostGLEntries (Some ids) actor now) db))
  = map GLEntry.id (glEntries db).
Proof.
  unfold after. rewrite batchPost_run. cbn [fst glEntries withGl].
  rewrite map_map. apply map_ext. intros x.
  now destruct (batchSelects ids x).
Qed.

Lemma batchPost_as_posts ids actor now db :
  NoDup (map GLEntry.id (glEntries db)) ->
  after (batchPostGLEntries (Some ids) actor now) db
  = fold_left (fun d id => after (postGLEntry id actor now) d) ids db.
Proof.
  revert db. induction ids as [|id ids IH]; intros db Hnd.
  - cbn [fold_left]. unfold after. rewrite batchPost_run. cbn [fst].
    destruct (map_unselected (batchSelects []) (markPosted actor now)
                (glEntries db)) as [Hm _].
    { intros x _. unfold batchSelects.
      rewrite bool_decide_eq_false_2 by apply not_elem_of_nil. reflexivity. }
    rewrite Hm. apply withGl_glEntries.
  - cbn [fold_left]. rewrite batch_cons.
    rewrite <- (batch_singleton_is_post id actor now db Hnd).
    apply IH. now rewrite batchPost_keeps_ids.
Qed.

Lemma samePosting_refl e : samePosting e e.
Proof. unfold samePosting. tauto. Qed.

Lemma samePosting_markPosted actor now actor' now' e e' :
  samePosting e e' ->
  samePosting (markPosted actor now e) (markPosted actor' now' e').
Proof. unfold samePosting. cbn. tauto. Qed.

Lemma lookupEntry_samePosting id l l' :
  Forall2 samePosting l l' ->
  option_Forall2 samePosting (lookupEntry id l) (lookupEntry id l').
Proof.
  unfold lookupEntry. induction 1 as [|e e' l l' He Hl IH]; [constructor|].
  cbn [find]. pose proof He as (Hid & _). rewrite Hid.
  destruct (String.eqb (GLEntry.id e) id); [|exact IH].
  constructor. exact He.
Qed.

Lemma replaceEntry_samePosting id f g l l' :
  (forall e e', samePosting e e' -> samePosting (f e) (g e')) ->
  Forall2 samePosting l l' ->
  Forall2 samePosting (replaceEntry id f l) (replaceEntry id g l').
Proof.
  intros Hfg. induction 1 as [|e e' l l' He Hl IH]; [constructor|].
  cbn [replaceEntry]. pose proof He as (Hid & _). rewrite Hid.
  destruct (String.eqb (GLEntry.id e) id); constructor; auto.
Qed.

Lemma postGLEntry_samePosting id actor now actor' now' db db' :
  Forall2 samePosting (glEntries db) (glEntries db') ->
  Forall2 samePosting
    (glEntries (after (postGLEntry id actor now) db))
    (glEntries (after (postGLEntry id actor' now') db')).
Proof.
  intros Hrel.
  pose proof (postGLEntry_spec id actor now db) as H1.
  pose proof (postGLEntry_spec id actor' now' db') as H2.
  pose proof (lookupEntry_samePosting id _ _ Hrel) as Hfound.
  destruct Hfound as [e e' He|].
  - pose proof He as (_ & _ & _ & _ & _ & _ & _ & _ & _ & Hst & _).
    rewrite Hst in H2.
    destruct (decide (GLEntry.postingStatus e = pending));
      rewrite (after_eq _ _ _ _ H1), (after_eq _ _ _ _ H2); [|exact Hrel].
    cbn [glEntries withGl]. apply replaceEntry_samePosting; [|exact Hrel].
    intros x x'. apply samePosting_markPosted.
  - now rewrite (after_eq _ _ _ _ H1), (after_eq _ _ _ _ H2).
Qed.

Lemma postGLEntry_frame id actor now db :
  accounts (after (postGLEntry id actor now) db) = accounts db
  /\ transactions (after (postGLEntry id actor now) db) = transactions db.
Proof.
  destruct (runGlOp_frame db (OpPost id actor now)) as (Ha & Ht & _).
  split; assumption.
Qed.

Lemma runPosts_samePosting requests actor now db db' :
  Forall2 samePosting (glEntries db) (glEntries db') ->
  accounts db = accounts db' ->
  transactions db = transactions db' ->
  let shared :=
    fold_left (fun d id => after (postGLEntry id actor now) d)
      (map p_id requests) db in
  Forall2 samePosting (glEntries shared) (glEntries (runPosts requests db'))
  /\ accounts shared = accounts (runPosts requests db')
  /\ transactions shared = transactions (runPosts requests db').
Proof.
  revert db db'. induction requests as [|r requests IH];
    intros db db' Hrel Hacc Htx; [cbn; auto|].
  cbn [map fold_left runPosts]. apply IH.
  - now apply postGLEntry_samePosting.
  - destruct (postGLEntry_frame (p_id r) actor now db) as [-> _].
    destruct (postGLEntry_frame (p_id r) (p_actor r) (p_now r) db') as [-> _].
    exact Hacc.
  - destruct (postGLEntry_frame (p_id r) actor now db) as [_ ->].
    destruct (postGLEntry_frame (p_id r) (p_actor r) (p_now r) db') as [_ ->].
    exact Htx.
Qed.

Lemma runPosts_shared requests actor now db :
  (forall r, r ∈ requests -> p_actor r = actor /\ p_now r = now) ->
  runPosts requests db
  = fold_left (fun d id => after (postGLEntry id actor now) d)
      (map p_id requests) db.
Proof.
  revert db. induction requests as [|r requests IH]; intros db Hall;
    [reflexivity|].
  cbn [map fold_left runPosts].
  destruct (Hall r (list_elem_of_here _ _)) as [-> ->].
  apply IH. intros x Hx. apply Hall. now apply list_elem_of_further.
Qed.

(** X20.  With id the key of the table, a batch post of a list of ids
    leaves what serving a post request for each listed id leaves, one
    request after another in the order of the list and going on past those
    that fail (no such entry, or entry not pending), each request with its
    own user and its own clock: the same entries in the same places, equal
    in every column but postedBy and postedAt, and the same accounts and
    Transaction rows.  When every request has the user and the clock reading
    of the batch, the two databases are equal. *)
Theorem batchPost_is_posting_each (requests : list PostRequest)
    (actor : string) (now : Z) (db : Db) :
  NoDup (map GLEntry.id (glEntries db)) ->
  let batch :=
    after (batchPostGLEntries (Some (map p_id requests)) actor now) db in
  let single := runPosts requests db in
  Forall2 samePosting (glEntries batch) (glEntries single)
  /\ accounts batch = accounts single
  /\ transactions batch = transactions single
  /\ ((forall r, r ∈ requests -> p_actor r = actor /\ p_now r = now) ->
      batch = single).
Proof.
  intros Hnd batch single. unfold batch.
  rewrite (batchPost_as_posts _ actor now db Hnd).
  destruct (runPosts_samePosting requests actor now db db)
    as (Hrel & Hacc & Htx); [|reflexivity|reflexivity|].
  { apply Forall2_same_length_lookup_2; [reflexivity|].
    intros i x y Hx Hy. rewrite Hx in Hy. injection Hy as <-.
    apply samePosting_refl. }
  split; [exact Hrel|]. split; [exact Hacc|]. split; [exact Htx|].
  intros Hall. symmetry. now apply runPosts_shared.
Qed.

Lemma batchPost_is_posting_each_witness :
  let batch :=
    after (batchPostGLEntries (Some ["e3"; "e1"; "zz"]) "admin" 20)
      Sample.glDb in
  let single :=
    runPosts [ mkPostRequest "e3" "asha" 21; mkPostRequest "e1" "ravi" 22;
               mkPostRequest "zz" "asha" 23 ] Sample.glDb in
  Forall2 samePosting (glEntries batch) (glEntries single)
  /\ entryStatus "e3" single = Some posted
  /\ (GLEntry.postedAt <$> lookupEntry "e3" (glEntries batch)) = Some (Some 20)
  /\ (GLEntry.postedAt <$> lookupEntry "e3" (glEntries single))
     = Some (Some 21).
Proof.
  cbv zeta.
  destruct (batchPost_is_posting_each
              [ mkPostRequest "e3" "asha" 21; mkPostRequest "e1" "ravi" 22;
                mkPostRequest "zz" "asha" 23 ] "admin" 20 Sample.glDb
              sample_ledger_keys) as (Hrel & _).
  split; [exact Hrel|]. split; [reflexivity|]. split; reflexivity.
Defined.
